(** * Terraform resource lifecycles as state-passing programs

    A shallow embedding of two Terraform resources of the AWS provider,

    - [aws_route53_resolver_rule_association]
      (package [route53resolver], file [rule_association.go]), and
    - the RDS instance automated backup replication (package [rds]),

    together with what they need of the plugin framework and of the AWS SDK.

    The handlers are glue: they talk to a remote service, mutate the
    [*schema.ResourceData] they are given and block in a poller.  They are
    embedded as programs of a small monad [M] that threads the history of
    the remote calls made so far and may panic (a nil dereference).  The
    remote service is an oracle: the answer to a call is an arbitrary function
    of the history and of the request, so a statement proved for every
    client holds for every behaviour of the service. *)

From Stdlib Require Import ZArith Lia Ascii String.
From stdpp Require Import base option list strings gmap.

Local Open Scope Z_scope.
Local Open Scope string_scope.
Local Open Scope list_scope.

(** ** Go values *)

(** [time.Duration] is an [int64] number of nanoseconds. *)
Module time.
Definition Duration := Z.
Definition Nanosecond : Duration := 1.
Definition Microsecond : Duration := 1000 * Nanosecond.
Definition Millisecond : Duration := 1000 * Microsecond.
Definition Second : Duration := 1000 * Millisecond.
Definition Minute : Duration := 60 * Second.
End time.

(** Pointers to scalars ([*string], [*int64]) are options. *)
Module aws.
Definition String (s : string) : option string := Some s.
Definition Int64 (n : Z) : option Z := Some n.
(** [aws.ToString] (SDK v2) and [aws.StringValue] (SDK v1). *)
Definition ToString (p : option string) : string := default "" p.
Definition StringValue (p : option string) : string := default "" p.
End aws.

(** ** The Route53 Resolver SDK types used by the resource *)

Module awstypes.

(** [ResolverRuleAssociationStatus] is a string type; the service may send
    any value, the SDK names five of them. *)
Definition ResolverRuleAssociationStatus := string.
Definition ResolverRuleAssociationStatusCreating : ResolverRuleAssociationStatus := "CREATING".
Definition ResolverRuleAssociationStatusComplete : ResolverRuleAssociationStatus := "COMPLETE".
Definition ResolverRuleAssociationStatusDeleting : ResolverRuleAssociationStatus := "DELETING".
Definition ResolverRuleAssociationStatusFailed : ResolverRuleAssociationStatus := "FAILED".
Definition ResolverRuleAssociationStatusOverridden : ResolverRuleAssociationStatus := "OVERRIDDEN".

Record ResolverRuleAssociation := {
  Id : option string;
  Name : option string;
  ResolverRuleId : option string;
  Status : ResolverRuleAssociationStatus;
  StatusMessage : option string;
  VPCId : option string
}.

End awstypes.

Module route53resolver_sdk.

Record AssociateResolverRuleInput := {
  ari_ResolverRuleId : option string;
  ari_VPCId : option string;
  ari_Name : option string
}.

Record AssociateResolverRuleOutput := {
  aro_ResolverRuleAssociation : option awstypes.ResolverRuleAssociation
}.

Record DisassociateResolverRuleInput := {
  dri_ResolverRuleId : option string;
  dri_VPCId : option string
}.

Record DisassociateResolverRuleOutput := {
  dro_ResolverRuleAssociation : option awstypes.ResolverRuleAssociation
}.

Record GetResolverRuleAssociationInput := {
  gri_ResolverRuleAssociationId : option string
}.

Record GetResolverRuleAssociationOutput := {
  gro_ResolverRuleAssociation : option awstypes.ResolverRuleAssociation
}.

End route53resolver_sdk.

(** ** Errors *)

(** Go's [error] values, as far as the two resources can tell them apart.
    A nil [error] is [None : option error]. *)
#[warnings="-register-all"]
Inductive error : Type :=
  (** [*awstypes.ResourceNotFoundException]: the resource-not-found fault *)
  | ResourceNotFoundException (message : string)
  (** any other fault reported by the SDK *)
  | APIError (code message : string)
  (** [errors.New(text)] *)
  | ErrorString (text : string)
  (** [*retry.NotFoundError] *)
  | NotFoundError (LastError : option error)
      (LastRequest : option route53resolver_sdk.GetResolverRuleAssociationInput)
      (Retries : nat)
  (** [*tfresource.EmptyResultError] *)
  | EmptyResultError
      (LastRequest : option route53resolver_sdk.GetResolverRuleAssociationInput)
  (** [*retry.TimeoutError] *)
  | TimeoutError (LastError : option error) (LastState : string)
      (Timeout : time.Duration) (ExpectedState : list string)
  (** [*retry.UnexpectedStateError] *)
  | UnexpectedStateError (LastError : option error) (State : string)
      (ExpectedState : list string)
  (** [fmt.Errorf(format, args..., cause)] with a closing [%w]; the format
      and its string arguments are kept apart, unformatted *)
  | WrapError (format : string) (args : list string) (cause : error).

Module errors.
Definition New (text : string) : error := ErrorString text.

(** [Unwrap]: the three framework errors unwrap to their [LastError], a
    [%w] wrapper to its cause. *)
Definition Unwrap (e : error) : option error :=
  match e with
  | NotFoundError last _ _ => last
  | TimeoutError last _ _ _ => last
  | UnexpectedStateError last _ _ => last
  | WrapError _ _ cause => Some cause
  | _ => None
  end.

(** [errors.As] for a target type given as a test on the head of the
    chain: the first error of the [Unwrap] chain that has the type. *)
Fixpoint As (is_target : error -> bool) (e : error) : bool :=
  is_target e ||
  match e with
  | NotFoundError (Some e') _ _ => As is_target e'
  | TimeoutError (Some e') _ _ _ => As is_target e'
  | UnexpectedStateError (Some e') _ _ => As is_target e'
  | WrapError _ _ cause => As is_target cause
  | _ => false
  end.
End errors.

Definition is_ResourceNotFoundException (e : error) : bool :=
  match e with ResourceNotFoundException _ => true | _ => false end.
Definition is_NotFoundError (e : error) : bool :=
  match e with NotFoundError _ _ _ => true | _ => false end.
Definition is_EmptyResultError (e : error) : bool :=
  match e with EmptyResultError _ => true | _ => false end.

Module errs.
(** [errs.IsA[*awstypes.ResourceNotFoundException](err)]: [errors.As] with
    that target; false on a nil error. *)
Definition IsA_ResourceNotFoundException (err : option error) : bool :=
  match err with
  | Some e => errors.As is_ResourceNotFoundException e
  | None => false
  end.
End errs.

Module tfresource.

(** Modelled from the spec: [tfresource.NotFound] is not in the source
    file.  It recognises the framework's not-found sentinel
    ([retry.NotFoundError]), which the read and delete paths treat as
    "already absent", anywhere in the chain of the error.  In the provider
    the empty-result error counts as not found as well; the statements
    below are made through [NotFound] and do not depend on that.  A nil
    error is not a not-found error. *)
Definition NotFound (err : option error) : bool :=
  match err with
  | Some e => errors.As is_NotFoundError e || errors.As is_EmptyResultError e
  | None => false
  end.

(** Modelled from the spec: [tfresource.NewEmptyResultError] is not in the
    source file; it makes the error for a response that carries no object. *)
Definition NewEmptyResultError
    (lastRequest : route53resolver_sdk.GetResolverRuleAssociationInput) : error :=
  EmptyResultError (Some lastRequest).

(** Modelled from the spec: [tfresource.SetLastError(err, lastErr)] is not
    in the source file.  It makes a poller error refer to [lastErr]: the
    [LastError] of a timeout or unexpected-state error that has none becomes
    [lastErr]; any other error, and nil, is left as it is.  Go mutates the
    error behind the pointer; here the new value is returned. *)
Definition SetLastError (err : option error) (lastErr : error) : option error :=
  match err with
  | Some (TimeoutError None st t ex) => Some (TimeoutError (Some lastErr) st t ex)
  | Some (UnexpectedStateError None st ex) => Some (UnexpectedStateError (Some lastErr) st ex)
  | _ => err
  end.

End tfresource.

(** ** Programs: history passing with panics *)

Inductive outcome (A : Type) : Type :=
  | Returned (a : A)
  | Panicked.
Arguments Returned {A} a.
Arguments Panicked {A}.

(** A program over events [E]: from the history of remote calls so far to
    an outcome and the extended history. *)
Definition M (E A : Type) : Type := list E → outcome A * list E.

#[global] Instance M_ret {E} : MRet (M E) :=
  λ A a t, (Returned a, t).
#[global] Instance M_bind {E} : MBind (M E) :=
  λ A B k m t,
    match m t with
    | (Returned a, t') => k a t'
    | (Panicked, t') => (Panicked, t')
    end.

(** A nil dereference. *)
Definition panic {E A} : M E A := λ t, (Panicked, t).

(** One remote call: the service answers from the history so far, and the
    call is appended to the history. *)
Definition call {E R} (ev : E) (respond : list E → R) : M E R :=
  λ t, (Returned (respond t), t ++ [ev]).

(** ** The plugin framework *)

Module diag.
(** An error diagnostic: [Summary] is the format with its arguments, the
    last of which is the error. *)
Record Diagnostic := ErrorDiagnostic {
  Format : string;
  Args : list string;
  Cause : error
}.
Definition Diagnostics := list Diagnostic.
End diag.

Module sdkdiag.
(** [sdkdiag.AppendErrorf(diags, format, args..., err)]. *)
Definition AppendErrorf (diags : diag.Diagnostics) (format : string)
    (args : list string) (err : error) : diag.Diagnostics :=
  diags ++ [diag.ErrorDiagnostic format args err].
End sdkdiag.

Module names.
(** Modelled from the spec: the attribute-name constants of package
    [names] are not in the source file; the spec calls the fields [name]
    and [vpc_id]. *)
Definition AttrName : string := "name".
Definition AttrVPCID : string := "vpc_id".
End names.

Module schema.

Inductive ValueType := TypeString | TypeInt.

Inductive value := VString (s : string) | VInt (n : Z).

Record Schema := {
  Type_ : ValueType;
  Required : bool;
  Optional : bool;
  Computed : bool;
  ForceNew : bool;
  Default : option value
}.

Record ResourceTimeout := {
  Create : option time.Duration;
  Read : option time.Duration;
  Update : option time.Duration;
  Delete : option time.Duration;
  DefaultT : option time.Duration
}.

Definition DefaultTimeout (tx : time.Duration) : option time.Duration := Some tx.

Inductive TimeoutKey := TimeoutCreate | TimeoutRead | TimeoutUpdate | TimeoutDelete.

Record Resource := {
  Timeouts : option ResourceTimeout;
  Schema_ : list (string * Schema)
}.

(** [*schema.ResourceData]: the resource ID, whether the resource is being
    created in this very apply, the flat key-value record of attributes and
    the timeouts in force. *)
Record ResourceData := {
  id : string;
  isNew : bool;
  attrs : gmap string value;
  timeouts : option ResourceTimeout
}.

Definition Id (d : ResourceData) : string := id d.

Definition SetId (d : ResourceData) (v : string) : ResourceData :=
  {| id := v; isNew := isNew d; attrs := attrs d; timeouts := timeouts d |}.

Definition IsNewResource (d : ResourceData) : bool := isNew d.

(** [d.Get(key).(string)]: the zero value when the key is unset (the
    framework has filled in the schema's defaults when it built [d]). *)
Definition GetString (d : ResourceData) (key : string) : string :=
  match attrs d !! key with
  | Some (VString s) => s
  | _ => ""
  end.

(** [d.Get(key).(int)]. *)
Definition GetInt (d : ResourceData) (key : string) : Z :=
  match attrs d !! key with
  | Some (VInt n) => n
  | _ => 0
  end.

(** [d.GetOk(key)] on a string attribute: [ok] when the value is set to
    something other than the zero value. *)
Definition GetOkString (d : ResourceData) (key : string) : string * bool :=
  let v := GetString d key in
  (v, negb (String.eqb v "")).

(** [d.Set(key, ptr)]: a non-nil pointer stores what it points to, a nil
    pointer unsets the key. *)
Definition Set_ (d : ResourceData) (key : string) (v : option value) : ResourceData :=
  {| id := id d; isNew := isNew d;
     attrs := match v with
              | Some x => <[key := x]> (attrs d)
              | None => delete key (attrs d)
              end;
     timeouts := timeouts d |}.

Definition SetString (d : ResourceData) (key : string) (p : option string) : ResourceData :=
  Set_ d key (VString <$> p).

Definition SetInt (d : ResourceData) (key : string) (p : option Z) : ResourceData :=
  Set_ d key (VInt <$> p).

(** [d.Timeout(key)]: the timeout of that key, else the resource's default
    timeout, else the system default of twenty minutes. *)
Definition Timeout (d : ResourceData) (key : TimeoutKey) : time.Duration :=
  let defaultTimeout := 20 * time.Minute in
  match timeouts d with
  | None => defaultTimeout
  | Some ts =>
      let timeout :=
        match key with
        | TimeoutCreate => Create ts
        | TimeoutRead => Read ts
        | TimeoutUpdate => Update ts
        | TimeoutDelete => Delete ts
        end in
      match timeout with
      | Some tx => tx
      | None => default defaultTimeout (DefaultT ts)
      end
  end.

End schema.

Module context.

(** How a wait that has not reached a decision is cut off: the context of
    the host is done ([ctx.Done()], with [ctx.Err()] as the error), or the
    timeout of the wait elapses, with or without a refresh in flight that
    still completes within the poller's grace period. *)
Inductive Cutoff :=
  | Cancelled (err : error)
  | TimedOut (inFlight : bool).

(** Real time is not modelled.  What a [context.Context] and the wall
    clock decide for a poll is how many refreshes complete before the wait
    is cut off, and how it is cut off then: functions of the history and of
    the timing settings (timeout, initial delay, minimal interval between
    two refreshes). *)
Record Context (E : Type) := {
  refreshes_within :
    list E → time.Duration → time.Duration → time.Duration → nat;
  cutoff :
    list E → time.Duration → time.Duration → time.Duration → Cutoff
}.
Arguments refreshes_within {E} _ _ _ _ _.
Arguments cutoff {E} _ _ _ _ _.
End context.

Module retry.

(** [retry.StateRefreshFunc]: the object (nil when absent), its status
    string and an error. *)
Definition StateRefreshFunc (E R : Type) : Type :=
  M E (option R * string * option error).

Record StateChangeConf (E R : Type) := {
  Pending : list string;
  Target : list string;
  Refresh : StateRefreshFunc E R;
  Timeout : time.Duration;
  Delay : time.Duration;
  MinTimeout : time.Duration;
  NotFoundChecks : nat
}.
Arguments Pending {E R} _.
Arguments Target {E R} _.
Arguments Refresh {E R} _.
Arguments Timeout {E R} _.
Arguments Delay {E R} _.
Arguments MinTimeout {E R} _.
Arguments NotFoundChecks {E R} _.

(** What one refresh produced, with the error the loop may put on it. *)
Record Result (R : Type) := {
  Result_ : option R;
  State : string;
  Error : option error
}.
Arguments Result_ {R} _.
Arguments State {R} _.
Arguments Error {R} _.

Definition contains (l : list string) (s : string) : bool :=
  existsb (String.eqb s) l.

(** What the refresh loop makes of one refresh, for the default of one
    target occurrence: the wait is done with the result, it ends with the
    result and its error, or it goes on with a new count of consecutive
    not-found refreshes. *)
Inductive Verdict (R : Type) :=
  | Done (result : Result R)
  | Failed (result : Result R)
  | Waiting (result : Result R) (notfoundTick : nat).
Arguments Done {R} _.
Arguments Failed {R} _.
Arguments Waiting {R} _ _.

(** One round of the refresh goroutine after [conf.Refresh()] returned:

    - a refresh that fails ends the loop with what it returned;
    - an absent object is the end of the wait when no target status is
      asked for, and otherwise counts as one more not-found check, of which
      [NotFoundChecks] are let through before the not-found error;
    - an object in a target status is the end of the wait, one in a
      pending status keeps it going, and one in any other status ends the
      loop with an unexpected-state error, which comes with the object. *)
Definition judge {E R} (conf : StateChangeConf E R) (notFoundChecks : nat)
    (notfoundTick : nat) (res : option R) (currentState : string)
    (err : option error) : Verdict R :=
  let result := {| Result_ := res; State := currentState; Error := err |} in
  match err with
  | Some _ => Failed result
  | None =>
      match res with
      | None =>
          if (length (Target conf) =? 0)%nat then Done result
          else
            let notfoundTick := S notfoundTick in
            if (notFoundChecks <? notfoundTick)%nat then
              Failed {| Result_ := res; State := currentState;
                        Error := Some (NotFoundError err None notfoundTick) |}
            else Waiting result notfoundTick
      | Some _ =>
          if contains (Target conf) currentState then Done result
          else if contains (Pending conf) currentState then Waiting result O
          else if (0 <? length (Pending conf))%nat then
            Failed {| Result_ := res; State := currentState;
                      Error := Some (UnexpectedStateError err currentState
                                       (Target conf)) |}
          else Waiting result O
      end
  end.

(** The wait is cut off before a decision.  A done context ends it with
    no object and [ctx.Err()].  A timeout ends it with no object and the
    timeout error made of the last result received; a refresh in flight
    that completes within the grace period is that last result, unless it
    is the end of the wait, which is then returned as a success.  A refresh
    whose result never reaches the poller is not part of the history, which
    holds the calls that were answered. *)
Definition cutOff {E R} (ctx : context.Context E) (conf : StateChangeConf E R)
    (notFoundChecks : nat) (notfoundTick : nat) (lastResult : Result R)
    : M E (option R * option error) :=
  λ t,
    let timeoutError (r : Result R) :=
      TimeoutError (Error r) (State r) (Timeout conf) (Target conf) in
    match context.cutoff ctx t (Timeout conf) (Delay conf) (MinTimeout conf) with
    | context.Cancelled err => (Returned (None, Some err), t)
    | context.TimedOut false => (Returned (None, Some (timeoutError lastResult)), t)
    | context.TimedOut true =>
        ('(res, currentState, err) ← Refresh conf;
         match judge conf notFoundChecks notfoundTick res currentState err with
         | Done r => mret (Result_ r, Error r)
         | Failed r => mret (None, Some (timeoutError r))
         | Waiting r _ => mret (None, Some (timeoutError r))
         end) t
    end.

(** The refresh loop of [WaitForStateContext], the framework's generic
    poller, as the caller sees it: the refreshes whose results arrive before
    the wait is cut off, each judged in turn.  A result that is the end of
    the wait, or that ends the loop with an error, is returned as it is,
    object and error; when no refresh is left the wait is cut off. *)
Fixpoint refreshLoop {E R} (ctx : context.Context E) (conf : StateChangeConf E R)
    (notFoundChecks : nat) (fuel : nat) (notfoundTick : nat) (lastResult : Result R)
    : M E (option R * option error) :=
  match fuel with
  | O => cutOff ctx conf notFoundChecks notfoundTick lastResult
  | S fuel' =>
      '(res, currentState, err) ← Refresh conf;
      match judge conf notFoundChecks notfoundTick res currentState err with
      | Done r => mret (Result_ r, Error r)
      | Failed r => mret (Result_ r, Error r)
      | Waiting r notfoundTick =>
          refreshLoop ctx conf notFoundChecks fuel' notfoundTick r
      end
  end.

(** [conf.WaitForStateContext(ctx)]: an unset [NotFoundChecks] means
    twenty; the loop runs for as many refreshes as the context and the
    clock let through. *)
Definition WaitForStateContext {E R} (ctx : context.Context E)
    (conf : StateChangeConf E R) : M E (option R * option error) :=
  λ t,
    let notFoundChecks :=
      if (NotFoundChecks conf =? 0)%nat then 20%nat else NotFoundChecks conf in
    let fuel :=
      context.refreshes_within ctx t (Timeout conf) (Delay conf) (MinTimeout conf) in
    refreshLoop ctx conf notFoundChecks fuel O
      {| Result_ := None; State := ""; Error := None |} t.

End retry.

Module enum.
(** [enum.Slice(v)]: the one-element slice of the value as a string. *)
Definition Slice (v : string) : list string := [v].
End enum.

(** ** Package [route53resolver]: the rule association *)

Module route53resolver.
Import route53resolver_sdk.

(** The remote calls of the resource. *)
Inductive event :=
  | AssociateResolverRuleCall (input : AssociateResolverRuleInput)
  | DisassociateResolverRuleCall (input : DisassociateResolverRuleInput)
  | GetResolverRuleAssociationCall (input : GetResolverRuleAssociationInput).

(** [*route53resolver.Client]: what the service answers to each call,
    given the calls made before. *)
Record Client := {
  answerAssociateResolverRule :
    list event → AssociateResolverRuleInput →
    option AssociateResolverRuleOutput * option error;
  answerDisassociateResolverRule :
    list event → DisassociateResolverRuleInput →
    option DisassociateResolverRuleOutput * option error;
  answerGetResolverRuleAssociation :
    list event → GetResolverRuleAssociationInput →
    option GetResolverRuleAssociationOutput * option error
}.

Definition AssociateResolverRule (conn : Client) (input : AssociateResolverRuleInput)
    : M event (option AssociateResolverRuleOutput * option error) :=
  call (AssociateResolverRuleCall input)
       (λ t, answerAssociateResolverRule conn t input).

Definition DisassociateResolverRule (conn : Client) (input : DisassociateResolverRuleInput)
    : M event (option DisassociateResolverRuleOutput * option error) :=
  call (DisassociateResolverRuleCall input)
       (λ t, answerDisassociateResolverRule conn t input).

Definition GetResolverRuleAssociation (conn : Client) (input : GetResolverRuleAssociationInput)
    : M event (option GetResolverRuleAssociationOutput * option error) :=
  call (GetResolverRuleAssociationCall input)
       (λ t, answerGetResolverRuleAssociation conn t input).

(** [*conns.AWSClient], as far as this package uses it. *)
Record AWSClient := {
  Route53ResolverClient : Client
}.

Definition resourceRuleAssociation : schema.Resource :=
  {| schema.Timeouts :=
       Some {| schema.Create := schema.DefaultTimeout (10 * time.Minute);
               schema.Read := None;
               schema.Update := None;
               schema.Delete := schema.DefaultTimeout (10 * time.Minute);
               schema.DefaultT := None |};
     schema.Schema_ :=
       [ (names.AttrName,
          {| schema.Type_ := schema.TypeString; schema.Required := false;
             schema.Optional := true; schema.Computed := false;
             schema.ForceNew := true; schema.Default := None |});
         ("resolver_rule_id",
          {| schema.Type_ := schema.TypeString; schema.Required := true;
             schema.Optional := false; schema.Computed := false;
             schema.ForceNew := true; schema.Default := None |});
         (names.AttrVPCID,
          {| schema.Type_ := schema.TypeString; schema.Required := true;
             schema.Optional := false; schema.Computed := false;
             schema.ForceNew := true; schema.Default := None |}) ] |}.

Definition findResolverRuleAssociationByID (ctx : context.Context event)
    (conn : Client) (id : string)
    : M event (option awstypes.ResolverRuleAssociation * option error) :=
  let input := {| gri_ResolverRuleAssociationId := aws.String id |} in
  '(output, err) ← GetResolverRuleAssociation conn input;
  if errs.IsA_ResourceNotFoundException err then
    mret (None, Some (NotFoundError err (Some input) O))
  else
    match err with
    | Some e => mret (None, Some e)
    | None =>
        match output with
        | None => mret (None, Some (tfresource.NewEmptyResultError input))
        | Some out =>
            match gro_ResolverRuleAssociation out with
            | None => mret (None, Some (tfresource.NewEmptyResultError input))
            | Some ruleAssociation => mret (Some ruleAssociation, None)
            end
        end
    end.

Definition statusRuleAssociation (ctx : context.Context event) (conn : Client)
    (id : string) : retry.StateRefreshFunc event awstypes.ResolverRuleAssociation :=
  '(output, err) ← findResolverRuleAssociationByID ctx conn id;
  if tfresource.NotFound err then mret (None, "", None)
  else
    match err with
    | Some e => mret (None, "", Some e)
    | None =>
        match output with
        | None => panic
        | Some o => mret (Some o, awstypes.Status o, None)
        end
    end.

Definition waitRuleAssociationCreated (ctx : context.Context event) (conn : Client)
    (id : string) (timeout : time.Duration)
    : M event (option awstypes.ResolverRuleAssociation * option error) :=
  let stateConf :=
    {| retry.Pending := enum.Slice awstypes.ResolverRuleAssociationStatusCreating;
       retry.Target := enum.Slice awstypes.ResolverRuleAssociationStatusComplete;
       retry.Refresh := statusRuleAssociation ctx conn id;
       retry.Timeout := timeout;
       retry.Delay := 10 * time.Second;
       retry.MinTimeout := 5 * time.Second;
       retry.NotFoundChecks := O |} in
  '(outputRaw, err) ← retry.WaitForStateContext ctx stateConf;
  match outputRaw with
  | Some output =>
      let err := tfresource.SetLastError err
                   (errors.New (aws.ToString (awstypes.StatusMessage output))) in
      mret (Some output, err)
  | None => mret (None, err)
  end.

Definition waitRuleAssociationDeleted (ctx : context.Context event) (conn : Client)
    (id : string) (timeout : time.Duration)
    : M event (option awstypes.ResolverRuleAssociation * option error) :=
  let stateConf :=
    {| retry.Pending := enum.Slice awstypes.ResolverRuleAssociationStatusDeleting;
       retry.Target := [];
       retry.Refresh := statusRuleAssociation ctx conn id;
       retry.Timeout := timeout;
       retry.Delay := 10 * time.Second;
       retry.MinTimeout := 5 * time.Second;
       retry.NotFoundChecks := O |} in
  '(outputRaw, err) ← retry.WaitForStateContext ctx stateConf;
  match outputRaw with
  | Some output =>
      let err := tfresource.SetLastError err
                   (errors.New (aws.ToString (awstypes.StatusMessage output))) in
      mret (Some output, err)
  | None => mret (None, err)
  end.

Definition resourceRuleAssociationRead (ctx : context.Context event)
    (d : schema.ResourceData) (meta : AWSClient)
    : M event (schema.ResourceData * diag.Diagnostics) :=
  let diags : diag.Diagnostics := [] in
  let conn := Route53ResolverClient meta in
  '(ruleAssociation, err) ← findResolverRuleAssociationByID ctx conn (schema.Id d);
  if negb (schema.IsNewResource d) && tfresource.NotFound err then
    mret (schema.SetId d "", diags)
  else
    match err with
    | Some e =>
        mret (d, sdkdiag.AppendErrorf diags
                   "reading Route53 Resolver Rule Association (%s): %s"
                   [schema.Id d] e)
    | None =>
        match ruleAssociation with
        | None => panic
        | Some ruleAssociation =>
            let d := schema.SetString d names.AttrName (awstypes.Name ruleAssociation) in
            let d := schema.SetString d "resolver_rule_id"
                       (awstypes.ResolverRuleId ruleAssociation) in
            let d := schema.SetString d names.AttrVPCID (awstypes.VPCId ruleAssociation) in
            mret (d, diags)
        end
    end.

Definition resourceRuleAssociationCreate (ctx : context.Context event)
    (d : schema.ResourceData) (meta : AWSClient)
    : M event (schema.ResourceData * diag.Diagnostics) :=
  let diags : diag.Diagnostics := [] in
  let conn := Route53ResolverClient meta in
  let input :=
    {| ari_ResolverRuleId := aws.String (schema.GetString d "resolver_rule_id");
       ari_VPCId := aws.String (schema.GetString d names.AttrVPCID);
       ari_Name := None |} in
  let input :=
    let '(v, ok) := schema.GetOkString d names.AttrName in
    if ok then
      {| ari_ResolverRuleId := ari_ResolverRuleId input;
         ari_VPCId := ari_VPCId input;
         ari_Name := aws.String v |}
    else input in
  '(output, err) ← AssociateResolverRule conn input;
  match err with
  | Some e =>
      mret (d, sdkdiag.AppendErrorf diags
                 "creating Route53 Resolver Rule Association: %s" [] e)
  | None =>
      match output ≫= aro_ResolverRuleAssociation with
      | None => panic
      | Some ruleAssociation =>
          let d := schema.SetId d (aws.ToString (awstypes.Id ruleAssociation)) in
          '(_, err) ← waitRuleAssociationCreated ctx conn (schema.Id d)
                        (schema.Timeout d schema.TimeoutCreate);
          match err with
          | Some e =>
              mret (d, sdkdiag.AppendErrorf diags
                         "waiting for Route53 Resolver Rule Association (%s) create: %s"
                         [schema.Id d] e)
          | None =>
              '(d, readDiags) ← resourceRuleAssociationRead ctx d meta;
              mret (d, diags ++ readDiags)
          end
      end
  end.

Definition resourceRuleAssociationDelete (ctx : context.Context event)
    (d : schema.ResourceData) (meta : AWSClient)
    : M event (schema.ResourceData * diag.Diagnostics) :=
  let diags : diag.Diagnostics := [] in
  let conn := Route53ResolverClient meta in
  '(_, err) ← DisassociateResolverRule conn
                {| dri_ResolverRuleId := aws.String (schema.GetString d "resolver_rule_id");
                   dri_VPCId := aws.String (schema.GetString d names.AttrVPCID) |};
  if errs.IsA_ResourceNotFoundException err then mret (d, diags)
  else
    match err with
    | Some e =>
        mret (d, sdkdiag.AppendErrorf diags
                   "deleting Route53 Resolver Rule Association (%s): %s"
                   [schema.Id d] e)
    | None =>
        '(_, err) ← waitRuleAssociationDeleted ctx conn (schema.Id d)
                      (schema.Timeout d schema.TimeoutDelete);
        match err with
        | Some e =>
            mret (d, sdkdiag.AppendErrorf diags
                       "waiting for Route53 Resolver Rule Association (%s) delete: %s"
                       [schema.Id d] e)
        | None => mret (d, diags)
        end
    end.

End route53resolver.

(** ** Package [arn] of the SDK *)

Module arn.

Record ARN := {
  Partition : string;
  Service : string;
  Region : string;
  AccountID : string;
  Resource : string
}.

(** The text before and after the first colon, if there is one. *)
Fixpoint cut (s : string) : option (string * string) :=
  match s with
  | EmptyString => None
  | String c rest =>
      if Ascii.eqb c ":"%char then Some (EmptyString, rest)
      else
        match cut rest with
        | Some (a, b) => Some (String c a, b)
        | None => None
        end
  end.

(** [strings.SplitN(s, ":", n)]: at most [n] sections, the last one
    holding the unsplit rest. *)
Fixpoint SplitN (s : string) (n : nat) : list string :=
  match n with
  | O => []
  | S O => [s]
  | S n' =>
      match cut s with
      | Some (a, b) => a :: SplitN b n'
      | None => [s]
      end
  end.

(** [arn.Parse]: the prefix [arn:] and six sections. *)
Definition Parse (s : string) : ARN * option error :=
  let empty := {| Partition := ""; Service := ""; Region := "";
                  AccountID := ""; Resource := "" |} in
  if negb (String.prefix "arn:" s) then
    (empty, Some (errors.New "arn: invalid prefix"))
  else
    match SplitN s 6 with
    | [_; partition; service; region; account; resource] =>
        ({| Partition := partition; Service := service; Region := region;
            AccountID := account; Resource := resource |}, None)
    | _ => (empty, Some (errors.New "arn: not enough sections"))
    end.

End arn.

(** ** Package [rds]: the instance automated backup replication *)

Module rds.

Record DBInstanceAutomatedBackup := {
  BackupRetentionPeriod : option Z;
  DBInstanceArn : option string;
  DBInstanceAutomatedBackupsArn : option string;
  DBInstanceIdentifier : option string;
  KmsKeyId : option string
}.

Record StartDBInstanceAutomatedBackupsReplicationInput := {
  start_BackupRetentionPeriod : option Z;
  start_SourceDBInstanceArn : option string;
  start_KmsKeyId : option string
}.

Record StartDBInstanceAutomatedBackupsReplicationOutput := {
  start_DBInstanceAutomatedBackup : option DBInstanceAutomatedBackup
}.

Record StopDBInstanceAutomatedBackupsReplicationInput := {
  stop_SourceDBInstanceArn : option string
}.

Record StopDBInstanceAutomatedBackupsReplicationOutput := {
  stop_DBInstanceAutomatedBackup : option DBInstanceAutomatedBackup
}.

(** The calls that leave the file, each with the region of the client it
    is made on: the two SDK operations, and the three functions of the
    package that live in other files (the lookup by ARN and the two
    waiters). *)
Inductive event :=
  | StartDBInstanceAutomatedBackupsReplicationCall (region : string)
      (input : StartDBInstanceAutomatedBackupsReplicationInput)
  | StopDBInstanceAutomatedBackupsReplicationCall (region : string)
      (input : StopDBInstanceAutomatedBackupsReplicationInput)
  | FindDBInstanceAutomatedBackupByARNCall (region : string) (arn : string)
  | waitDBInstanceAutomatedBackupCreatedCall (region : string) (arn : string)
      (timeout : time.Duration)
  | waitDBInstanceAutomatedBackupDeletedCall (region : string)
      (dbInstanceID : string) (arn : string) (timeout : time.Duration).

(** What the service of one region answers. *)
Record Endpoint := {
  answerStart :
    list event → StartDBInstanceAutomatedBackupsReplicationInput →
    option StartDBInstanceAutomatedBackupsReplicationOutput * option error;
  answerStop :
    list event → StopDBInstanceAutomatedBackupsReplicationInput →
    option StopDBInstanceAutomatedBackupsReplicationOutput * option error
}.

(** [*rds.RDS]: a client connected to one region. *)
Record Conn := {
  connRegion : string;
  connEndpoint : Endpoint
}.

Definition StartDBInstanceAutomatedBackupsReplication (conn : Conn)
    (input : StartDBInstanceAutomatedBackupsReplicationInput)
    : M event (option StartDBInstanceAutomatedBackupsReplicationOutput * option error) :=
  call (StartDBInstanceAutomatedBackupsReplicationCall (connRegion conn) input)
       (λ t, answerStart (connEndpoint conn) t input).

Definition StopDBInstanceAutomatedBackupsReplication (conn : Conn)
    (input : StopDBInstanceAutomatedBackupsReplicationInput)
    : M event (option StopDBInstanceAutomatedBackupsReplicationOutput * option error) :=
  call (StopDBInstanceAutomatedBackupsReplicationCall (connRegion conn) input)
       (λ t, answerStop (connEndpoint conn) t input).

(** [*session.Session]: the endpoints a client can be made for. *)
Definition Session := string → Endpoint.

(** [rds.New(session, aws.NewConfig().WithRegion(region))]: a new client,
    connected to [region]. *)
Definition New (sess : Session) (region : string) : Conn :=
  {| connRegion := region; connEndpoint := sess region |}.

(** The functions of the package that the handlers call and that are not
    in the source file.  Each is taken as one call, answered from the
    history and the arguments in whatever way. *)
Record Package := {
  answerFind :
    list event → Conn → string →
    option DBInstanceAutomatedBackup * option error;
  answerWaitCreated :
    list event → Conn → string → time.Duration →
    option DBInstanceAutomatedBackup * option error;
  answerWaitDeleted :
    list event → Conn → string → string → time.Duration →
    option DBInstanceAutomatedBackup * option error
}.

(** [*conns.AWSClient], as far as this package uses it; [Package] stands
    for the rest of the package the handlers are linked with. *)
Record AWSClient := {
  RDSConn : Conn;
  Region : string;
  Session_ : Session;
  Package_ : Package
}.

Definition FindDBInstanceAutomatedBackupByARN (meta : AWSClient) (conn : Conn)
    (arn : string) : M event (option DBInstanceAutomatedBackup * option error) :=
  call (FindDBInstanceAutomatedBackupByARNCall (connRegion conn) arn)
       (λ t, answerFind (Package_ meta) t conn arn).

Definition waitDBInstanceAutomatedBackupCreated (meta : AWSClient) (conn : Conn)
    (arn : string) (timeout : time.Duration)
    : M event (option DBInstanceAutomatedBackup * option error) :=
  call (waitDBInstanceAutomatedBackupCreatedCall (connRegion conn) arn timeout)
       (λ t, answerWaitCreated (Package_ meta) t conn arn timeout).

Definition waitDBInstanceAutomatedBackupDeleted (meta : AWSClient) (conn : Conn)
    (dbInstanceID arn : string) (timeout : time.Duration)
    : M event (option DBInstanceAutomatedBackup * option error) :=
  call (waitDBInstanceAutomatedBackupDeletedCall (connRegion conn) dbInstanceID arn timeout)
       (λ t, answerWaitDeleted (Package_ meta) t conn dbInstanceID arn timeout).

Definition ResourceInstanceAutomatedBackupReplication : schema.Resource :=
  {| schema.Timeouts := None;
     schema.Schema_ :=
       [ ("kms_key_id",
          {| schema.Type_ := schema.TypeString; schema.Required := false;
             schema.Optional := true; schema.Computed := true;
             schema.ForceNew := true; schema.Default := None |});
         ("retention_period",
          {| schema.Type_ := schema.TypeInt; schema.Required := false;
             schema.Optional := true; schema.Computed := false;
             schema.ForceNew := true; schema.Default := Some (schema.VInt 7) |});
         ("source_db_instance_arn",
          {| schema.Type_ := schema.TypeString; schema.Required := true;
             schema.Optional := false; schema.Computed := false;
             schema.ForceNew := true; schema.Default := None |}) ] |}.

Definition resourceInstanceAutomatedBackupReplicationRead
    (d : schema.ResourceData) (meta : AWSClient)
    : M event (schema.ResourceData * option error) :=
  let conn := RDSConn meta in
  '(backup, err) ← FindDBInstanceAutomatedBackupByARN meta conn (schema.Id d);
  if negb (schema.IsNewResource d) && tfresource.NotFound err then
    mret (schema.SetId d "", None)
  else
    match err with
    | Some e =>
        mret (d, Some (WrapError
                         "error reading RDS instance automated backup replication (%s): %w"
                         [schema.Id d] e))
    | None =>
        match backup with
        | None => panic
        | Some backup =>
            let d := schema.SetString d "kms_key_id" (KmsKeyId backup) in
            let d := schema.SetInt d "retention_period" (BackupRetentionPeriod backup) in
            let d := schema.SetString d "source_db_instance_arn" (DBInstanceArn backup) in
            mret (d, None)
        end
    end.

Definition resourceInstanceAutomatedBackupReplicationCreate
    (d : schema.ResourceData) (meta : AWSClient)
    : M event (schema.ResourceData * option error) :=
  let conn := RDSConn meta in
  let input :=
    {| start_BackupRetentionPeriod := aws.Int64 (schema.GetInt d "retention_period");
       start_SourceDBInstanceArn := aws.String (schema.GetString d "source_db_instance_arn");
       start_KmsKeyId := None |} in
  let input :=
    let '(v, ok) := schema.GetOkString d "kms_key_id" in
    if ok then
      {| start_BackupRetentionPeriod := start_BackupRetentionPeriod input;
         start_SourceDBInstanceArn := start_SourceDBInstanceArn input;
         start_KmsKeyId := aws.String v |}
    else input in
  '(output, err) ← StartDBInstanceAutomatedBackupsReplication conn input;
  match err with
  | Some e =>
      mret (d, Some (WrapError
                       "error starting RDS instance automated backup replication: %w"
                       [] e))
  | None =>
      match output ≫= start_DBInstanceAutomatedBackup with
      | None => panic
      | Some backup =>
          let d := schema.SetId d (aws.StringValue (DBInstanceAutomatedBackupsArn backup)) in
          '(_, err) ← waitDBInstanceAutomatedBackupCreated meta conn (schema.Id d)
                        (schema.Timeout d schema.TimeoutCreate);
          match err with
          | Some e =>
              mret (d, Some (WrapError
                               "error waiting for DB instance automated backup (%s) create: %w"
                               [schema.Id d] e))
          | None => resourceInstanceAutomatedBackupReplicationRead d meta
          end
      end
  end.

Definition resourceInstanceAutomatedBackupReplicationDelete
    (d : schema.ResourceData) (meta : AWSClient)
    : M event (schema.ResourceData * option error) :=
  let conn := RDSConn meta in
  '(backup, err) ← FindDBInstanceAutomatedBackupByARN meta conn (schema.Id d);
  if tfresource.NotFound err then mret (d, None)
  else
    match err with
    | Some e =>
        mret (d, Some (WrapError
                         "error reading RDS instance automated backup replication (%s): %w"
                         [schema.Id d] e))
    | None =>
        match backup with
        | None => panic
        | Some backup =>
            let dbInstanceID := aws.StringValue (DBInstanceIdentifier backup) in
            let '(sourceDatabaseARN, err) :=
              arn.Parse (aws.StringValue (DBInstanceArn backup)) in
            match err with
            | Some e => mret (d, Some e)
            | None =>
                '(_, err) ← StopDBInstanceAutomatedBackupsReplication conn
                              {| stop_SourceDBInstanceArn :=
                                   aws.String (schema.GetString d "source_db_instance_arn") |};
                match err with
                | Some e =>
                    mret (d, Some (WrapError
                                     "error stopping RDS instance automated backup replication (%s): %w"
                                     [schema.Id d] e))
                | None =>
                    let sourceDatabaseConn :=
                      if negb (String.eqb (arn.Region sourceDatabaseARN) (Region meta))
                      then New (Session_ meta) (arn.Region sourceDatabaseARN)
                      else conn in
                    '(_, err) ← waitDBInstanceAutomatedBackupDeleted meta sourceDatabaseConn
                                  dbInstanceID (schema.Id d)
                                  (schema.Timeout d schema.TimeoutCreate);
                    match err with
                    | Some e =>
                        mret (d, Some (WrapError
                                         "error waiting for DB instance automated backup (%s) delete: %w"
                                         [schema.Id d] e))
                    | None => mret (d, None)
                    end
                end
            end
        end
    end.

End rds.

(** * Vocabulary of the statements *)

Module R53 := route53resolver.

(** The lookup request for an association ID, and the call that carries it. *)
Definition getInput (id : string) : route53resolver_sdk.GetResolverRuleAssociationInput :=
  {| route53resolver_sdk.gri_ResolverRuleAssociationId := Some id |}.
Definition getCall (id : string) : R53.event :=
  R53.GetResolverRuleAssociationCall (getInput id).

Definition is_AssociateResolverRuleCall (ev : R53.event) : bool :=
  match ev with R53.AssociateResolverRuleCall _ => true | _ => false end.
Definition is_StartCall (ev : rds.event) : bool :=
  match ev with rds.StartDBInstanceAutomatedBackupsReplicationCall _ _ => true | _ => false end.

(** How often a kind of call occurs in a history. *)
Definition count {E} (p : E → bool) (t : list E) : nat := length (filter (λ ev, p ev = true) t).

(** The create request as the spec words it: the required fields from the
    configuration, the optional one only when it is set. *)
Definition associateRequest (d : schema.ResourceData)
    : route53resolver_sdk.AssociateResolverRuleInput :=
  {| route53resolver_sdk.ari_ResolverRuleId := Some (schema.GetString d "resolver_rule_id");
     route53resolver_sdk.ari_VPCId := Some (schema.GetString d "vpc_id");
     route53resolver_sdk.ari_Name :=
       if decide (schema.GetString d "name" = "") then None
       else Some (schema.GetString d "name") |}.

Definition disassociateRequest (d : schema.ResourceData)
    : route53resolver_sdk.DisassociateResolverRuleInput :=
  {| route53resolver_sdk.dri_ResolverRuleId := Some (schema.GetString d "resolver_rule_id");
     route53resolver_sdk.dri_VPCId := Some (schema.GetString d "vpc_id") |}.

Definition startRequest (d : schema.ResourceData)
    : rds.StartDBInstanceAutomatedBackupsReplicationInput :=
  {| rds.start_BackupRetentionPeriod := Some (schema.GetInt d "retention_period");
     rds.start_SourceDBInstanceArn := Some (schema.GetString d "source_db_instance_arn");
     rds.start_KmsKeyId :=
       if decide (schema.GetString d "kms_key_id" = "") then None
       else Some (schema.GetString d "kms_key_id") |}.

Definition stopRequest (d : schema.ResourceData)
    : rds.StopDBInstanceAutomatedBackupsReplicationInput :=
  {| rds.stop_SourceDBInstanceArn := Some (schema.GetString d "source_db_instance_arn") |}.

(** The poller settings of the two waiters of the rule association. *)
Definition createdConf (ctx : context.Context R53.event) (conn : R53.Client)
    (id : string) (timeout : time.Duration)
    : retry.StateChangeConf R53.event awstypes.ResolverRuleAssociation :=
  {| retry.Pending := ["CREATING"];
     retry.Target := ["COMPLETE"];
     retry.Refresh := R53.statusRuleAssociation ctx conn id;
     retry.Timeout := timeout;
     retry.Delay := 10 * time.Second;
     retry.MinTimeout := 5 * time.Second;
     retry.NotFoundChecks := O |}.

Definition deletedConf (ctx : context.Context R53.event) (conn : R53.Client)
    (id : string) (timeout : time.Duration)
    : retry.StateChangeConf R53.event awstypes.ResolverRuleAssociation :=
  {| retry.Pending := ["DELETING"];
     retry.Target := [];
     retry.Refresh := R53.statusRuleAssociation ctx conn id;
     retry.Timeout := timeout;
     retry.Delay := 10 * time.Second;
     retry.MinTimeout := 5 * time.Second;
     retry.NotFoundChecks := O |}.

(** The diagnostics and errors of the handlers. *)
Definition readDiag (id : string) (e : error) : diag.Diagnostics :=
  [diag.ErrorDiagnostic "reading Route53 Resolver Rule Association (%s): %s" [id] e].
Definition creatingDiag (e : error) : diag.Diagnostics :=
  [diag.ErrorDiagnostic "creating Route53 Resolver Rule Association: %s" [] e].
Definition waitCreateDiag (id : string) (e : error) : diag.Diagnostics :=
  [diag.ErrorDiagnostic
     "waiting for Route53 Resolver Rule Association (%s) create: %s" [id] e].
Definition waitDeleteDiag (id : string) (e : error) : diag.Diagnostics :=
  [diag.ErrorDiagnostic
     "waiting for Route53 Resolver Rule Association (%s) delete: %s" [id] e].
Definition deletingDiag (id : string) (e : error) : diag.Diagnostics :=
  [diag.ErrorDiagnostic "deleting Route53 Resolver Rule Association (%s): %s" [id] e].

(** The lookup call of the replication handlers. *)
Definition findCall (d : schema.ResourceData) (meta : rds.AWSClient) : rds.event :=
  rds.FindDBInstanceAutomatedBackupByARNCall (rds.connRegion (rds.RDSConn meta)) (schema.Id d).

Definition associateCall (d : schema.ResourceData) : R53.event :=
  R53.AssociateResolverRuleCall (associateRequest d).
Definition disassociateCall (d : schema.ResourceData) : R53.event :=
  R53.DisassociateResolverRuleCall (disassociateRequest d).
Definition startCall (d : schema.ResourceData) (meta : rds.AWSClient) : rds.event :=
  rds.StartDBInstanceAutomatedBackupsReplicationCall
    (rds.connRegion (rds.RDSConn meta)) (startRequest d).
Definition stopCall (d : schema.ResourceData) (meta : rds.AWSClient) : rds.event :=
  rds.StopDBInstanceAutomatedBackupsReplicationCall
    (rds.connRegion (rds.RDSConn meta)) (stopRequest d).

(** The client the replication delete handler waits on: one made for the
    region of the source database when that is not the provider's region. *)
Definition sourceDatabaseConn (meta : rds.AWSClient) (sourceRegion : string) : rds.Conn :=
  if decide (sourceRegion = rds.Region meta) then rds.RDSConn meta
  else rds.New (rds.Session_ meta) sourceRegion.

(** The three shapes of what a status refresh returns. *)
Definition refreshedObject
    (r : option awstypes.ResolverRuleAssociation * string * option error) : bool :=
  match r with
  | (Some o, status, None) => String.eqb status (awstypes.Status o)
  | _ => false
  end.
Definition refreshedAbsent
    (r : option awstypes.ResolverRuleAssociation * string * option error) : bool :=
  match r with
  | (None, status, None) => String.eqb status ""
  | _ => false
  end.
Definition refreshedError
    (r : option awstypes.ResolverRuleAssociation * string * option error) : bool :=
  match r with
  | (None, status, Some _) => String.eqb status ""
  | _ => false
  end.

(** What a wait on the status refresh may return: success on absence only
    when no target is asked for and otherwise on an object in a target
    status; an error that comes with an object is the unexpected-state
    error for the status of that object. *)
Definition wait_result
    (conf : retry.StateChangeConf R53.event awstypes.ResolverRuleAssociation)
    (res : option awstypes.ResolverRuleAssociation) (err : option error) : Prop :=
  (err = None →
     (res = None ∧ retry.Target conf = []) ∨
     (∃ o, res = Some o ∧ retry.contains (retry.Target conf) (awstypes.Status o) = true)) ∧
  (∀ o e, res = Some o → err = Some e →
     e = UnexpectedStateError None (awstypes.Status o) (retry.Target conf)).

(** * Concrete resources, clients and clocks

    The values the examples below are run on. *)

Module Ex.
Import route53resolver_sdk.

Definition association (status : string) : awstypes.ResolverRuleAssociation :=
  {| awstypes.Id := Some "rslvr-rrassoc-97242eec";
     awstypes.Name := Some "example";
     awstypes.ResolverRuleId := Some "rslvr-rr-0123";
     awstypes.Status := status;
     awstypes.StatusMessage := Some "status message";
     awstypes.VPCId := Some "vpc-4d5e" |}.

(** A service that answers every lookup with the same thing. *)
Definition client
    (get : option GetResolverRuleAssociationOutput * option error) : R53.Client :=
  {| R53.answerAssociateResolverRule := λ _ _,
       (Some {| aro_ResolverRuleAssociation := Some (association "CREATING") |}, None);
     R53.answerDisassociateResolverRule := λ _ _,
       (Some {| dro_ResolverRuleAssociation := Some (association "DELETING") |}, None);
     R53.answerGetResolverRuleAssociation := λ _ _, get |}.

Definition found (status : string)
    : option GetResolverRuleAssociationOutput * option error :=
  (Some {| gro_ResolverRuleAssociation := Some (association status) |}, None).

Definition gone : option GetResolverRuleAssociationOutput * option error :=
  (None, Some (ResourceNotFoundException "association not found")).

Definition throttled : option GetResolverRuleAssociationOutput * option error :=
  (None, Some (APIError "ThrottlingException" "rate exceeded")).

(** A service on which the create and delete calls fail. *)
Definition failing (e : error) : R53.Client :=
  {| R53.answerAssociateResolverRule := λ _ _, (None, Some e);
     R53.answerDisassociateResolverRule := λ _ _, (None, Some e);
     R53.answerGetResolverRuleAssociation := λ _ _, gone |}.

(** A clock that lets [n] refreshes through before any timeout, which
    then finds no refresh in flight. *)
Definition clock (n : nat) : context.Context R53.event :=
  {| context.refreshes_within := λ _ _ _ _, n;
     context.cutoff := λ _ _ _ _, context.TimedOut false |}.

(** A host that cancels the context after [n] refreshes. *)
Definition cancelling (n : nat) : context.Context R53.event :=
  {| context.refreshes_within := λ _ _ _ _, n;
     context.cutoff := λ _ _ _ _, context.Cancelled (errors.New "context canceled") |}.

(** A clock whose timeout finds a refresh in flight, which completes
    within the grace period. *)
Definition lateClock (n : nat) : context.Context R53.event :=
  {| context.refreshes_within := λ _ _ _ _, n;
     context.cutoff := λ _ _ _ _, context.TimedOut true |}.

(** The resource data of a rule association. *)
Definition data (id : string) (new : bool) : schema.ResourceData :=
  {| schema.id := id;
     schema.isNew := new;
     schema.attrs :=
       <["resolver_rule_id" := schema.VString "rslvr-rr-0123"]>
         (<["vpc_id" := schema.VString "vpc-4d5e"]> ∅);
     schema.timeouts := schema.Timeouts R53.resourceRuleAssociation |}.

End Ex.

Module ExRDS.

Definition backup : rds.DBInstanceAutomatedBackup :=
  {| rds.BackupRetentionPeriod := Some 14;
     rds.DBInstanceArn := Some "arn:aws:rds:us-east-1:123456789012:db:orders";
     rds.DBInstanceAutomatedBackupsArn :=
       Some "arn:aws:rds:us-west-2:123456789012:auto-backup:ab-1";
     rds.DBInstanceIdentifier := Some "orders";
     rds.KmsKeyId := Some "arn:aws:kms:us-west-2:123456789012:key/k-1" |}.

(** A service on which starting and stopping the replication succeeds. *)
Definition endpoint : rds.Endpoint :=
  {| rds.answerStart := λ _ _,
       (Some {| rds.start_DBInstanceAutomatedBackup := Some backup |}, None);
     rds.answerStop := λ _ _,
       (Some {| rds.stop_DBInstanceAutomatedBackup := Some backup |}, None) |}.

(** A service on which they fail. *)
Definition failingEndpoint (e : error) : rds.Endpoint :=
  {| rds.answerStart := λ _ _, (None, Some e);
     rds.answerStop := λ _ _, (None, Some e) |}.

(** The rest of the package: a lookup with a fixed answer, waiters that
    succeed. *)
Definition package (find : option rds.DBInstanceAutomatedBackup * option error)
    : rds.Package :=
  {| rds.answerFind := λ _ _ _, find;
     rds.answerWaitCreated := λ _ _ _ _, (Some backup, None);
     rds.answerWaitDeleted := λ _ _ _ _ _, (None, None) |}.

Definition notFound : option rds.DBInstanceAutomatedBackup * option error :=
  (None, Some (NotFoundError (Some (APIError "DBInstanceAutomatedBackupNotFound" "")) None O)).

(** A provider configured for us-west-2. *)
Definition meta (ep : rds.Endpoint)
    (find : option rds.DBInstanceAutomatedBackup * option error) : rds.AWSClient :=
  {| rds.RDSConn := {| rds.connRegion := "us-west-2"; rds.connEndpoint := ep |};
     rds.Region := "us-west-2";
     rds.Session_ := λ _, ep;
     rds.Package_ := package find |}.

(** The resource data of a replication, with a create timeout of one
    minute and a delete timeout of two. *)
Definition data (id : string) (new : bool) : schema.ResourceData :=
  {| schema.id := id;
     schema.isNew := new;
     schema.attrs :=
       <["source_db_instance_arn" :=
           schema.VString "arn:aws:rds:us-east-1:123456789012:db:orders"]>
         (<["retention_period" := schema.VInt 7]> ∅);
     schema.timeouts :=
       Some {| schema.Create := Some (1 * time.Minute);
               schema.Read := None;
               schema.Update := None;
               schema.Delete := Some (2 * time.Minute);
               schema.DefaultT := None |} |}.

End ExRDS.

(** * Properties *)

(** ** Running programs *)

Section running.
Context {E : Type}.

Lemma bind_run {A B} (m : M E A) (k : A → M E B) (t : list E) :
  (m ≫= k) t =
  match m t with
  | (Returned a, t') => k a t'
  | (Panicked, t') => (Panicked, t')
  end.
Proof. reflexivity. Qed.

Lemma call_run {R} (ev : E) (respond : list E → R) (t : list E) :
  call ev respond t = (Returned (respond t), t ++ [ev]).
Proof. reflexivity. Qed.

End running.

(** ** The lookup by ID *)

Section lookup.
Import route53resolver_sdk.
Variables (ctx : context.Context R53.event) (conn : R53.Client).
Variables (id : string) (t : list R53.event).

Lemma find_not_found output err :
  R53.answerGetResolverRuleAssociation conn t (getInput id) = (output, err) →
  errs.IsA_ResourceNotFoundException err = true →
  R53.findResolverRuleAssociationByID ctx conn id t =
  (Returned (None, Some (NotFoundError err (Some (getInput id)) O)), t ++ [getCall id]).
Proof.
  intros Hans Hnf. unfold R53.findResolverRuleAssociationByID.
  rewrite bind_run. unfold R53.GetResolverRuleAssociation. rewrite call_run.
  change {| gri_ResolverRuleAssociationId := aws.String id |} with (getInput id).
  rewrite Hans, Hnf. reflexivity.
Qed.

Lemma find_error output e :
  R53.answerGetResolverRuleAssociation conn t (getInput id) = (output, Some e) →
  errs.IsA_ResourceNotFoundException (Some e) = false →
  R53.findResolverRuleAssociationByID ctx conn id t =
  (Returned (None, Some e), t ++ [getCall id]).
Proof.
  intros Hans Hnf. unfold R53.findResolverRuleAssociationByID.
  rewrite bind_run. unfold R53.GetResolverRuleAssociation. rewrite call_run.
  change {| gri_ResolverRuleAssociationId := aws.String id |} with (getInput id).
  rewrite Hans, Hnf. reflexivity.
Qed.

Lemma find_empty output :
  R53.answerGetResolverRuleAssociation conn t (getInput id) = (output, None) →
  output ≫= gro_ResolverRuleAssociation = None →
  R53.findResolverRuleAssociationByID ctx conn id t =
  (Returned (None, Some (EmptyResultError (Some (getInput id)))), t ++ [getCall id]).
Proof.
  intros Hans Hnone. unfold R53.findResolverRuleAssociationByID.
  rewrite bind_run. unfold R53.GetResolverRuleAssociation. rewrite call_run.
  change {| gri_ResolverRuleAssociationId := aws.String id |} with (getInput id).
  rewrite Hans. simpl.
  destruct output as [out|]; [|reflexivity].
  simpl in Hnone. rewrite Hnone. reflexivity.
Qed.

Lemma find_found out ruleAssociation :
  R53.answerGetResolverRuleAssociation conn t (getInput id) = (Some out, None) →
  gro_ResolverRuleAssociation out = Some ruleAssociation →
  R53.findResolverRuleAssociationByID ctx conn id t =
  (Returned (Some ruleAssociation, None), t ++ [getCall id]).
Proof.
  intros Hans Hsome. unfold R53.findResolverRuleAssociationByID.
  rewrite bind_run. unfold R53.GetResolverRuleAssociation. rewrite call_run.
  change {| gri_ResolverRuleAssociationId := aws.String id |} with (getInput id).
  rewrite Hans. simpl. rewrite Hsome. reflexivity.
Qed.

(** The lookup makes one call and returns an object or an error, never
    both and never neither. *)
Lemma find_cases :
  (∃ ruleAssociation,
     R53.findResolverRuleAssociationByID ctx conn id t =
     (Returned (Some ruleAssociation, None), t ++ [getCall id])) ∨
  (∃ e,
     R53.findResolverRuleAssociationByID ctx conn id t =
     (Returned (None, Some e), t ++ [getCall id])).
Proof.
  destruct (R53.answerGetResolverRuleAssociation conn t (getInput id))
    as [output err] eqn:Hans.
  destruct (errs.IsA_ResourceNotFoundException err) eqn:Hnf.
  - right. eexists. eapply find_not_found; eauto.
  - destruct err as [e|].
    + right. exists e. eapply find_error; eauto.
    + destruct (output ≫= gro_ResolverRuleAssociation) as [ra|] eqn:Hout.
      * left. exists ra. destruct output as [out|]; [|discriminate].
        eapply find_found; eauto.
      * right. eexists. eapply find_empty; eauto.
Qed.

End lookup.

(** ** The status refresh *)

Section refresh.
Variables (ctx : context.Context R53.event) (conn : R53.Client).
Variables (id : string) (t : list R53.event).

Lemma NotFound_nil : tfresource.NotFound None = false.
Proof. reflexivity. Qed.

Lemma status_cases :
  (∃ o,
     R53.findResolverRuleAssociationByID ctx conn id t =
       (Returned (Some o, None), t ++ [getCall id]) ∧
     R53.statusRuleAssociation ctx conn id t =
       (Returned (Some o, awstypes.Status o, None), t ++ [getCall id])) ∨
  (∃ e,
     R53.findResolverRuleAssociationByID ctx conn id t =
       (Returned (None, Some e), t ++ [getCall id]) ∧
     tfresource.NotFound (Some e) = true ∧
     R53.statusRuleAssociation ctx conn id t =
       (Returned (None, "", None), t ++ [getCall id])) ∨
  (∃ e,
     R53.findResolverRuleAssociationByID ctx conn id t =
       (Returned (None, Some e), t ++ [getCall id]) ∧
     tfresource.NotFound (Some e) = false ∧
     R53.statusRuleAssociation ctx conn id t =
       (Returned (None, "", Some e), t ++ [getCall id])).
Proof.
  unfold R53.statusRuleAssociation. rewrite bind_run.
  destruct (find_cases ctx conn id t) as [[o Hf]|[e Hf]]; rewrite Hf.
  - left. exists o. split; [reflexivity|]. reflexivity.
  - destruct (tfresource.NotFound (Some e)) eqn:Hnf.
    + right; left. exists e. auto.
    + right; right. exists e. auto.
Qed.

End refresh.

(** ** The poller on the status refresh *)

Section poll.
Variables (ctx : context.Context R53.event) (conn : R53.Client) (id : string).
Variable conf : retry.StateChangeConf R53.event awstypes.ResolverRuleAssociation.
Hypothesis conf_refresh : retry.Refresh conf = R53.statusRuleAssociation ctx conn id.

Lemma replicate_snoc_app {A} (l : list A) (x : A) (n : nat) :
  (l ++ [x]) ++ replicate n x = l ++ replicate (S n) x.
Proof. rewrite <- app_assoc. reflexivity. Qed.

(** The verdict on a refresh of the status function. *)
Lemma judge_object nfc tick o :
  match retry.judge conf nfc tick (Some o) (awstypes.Status o) None with
  | retry.Done r =>
      r = {| retry.Result_ := Some o; retry.State := awstypes.Status o;
             retry.Error := None |} ∧
      retry.contains (retry.Target conf) (awstypes.Status o) = true
  | retry.Failed r =>
      r = {| retry.Result_ := Some o; retry.State := awstypes.Status o;
             retry.Error := Some (UnexpectedStateError None (awstypes.Status o)
                                    (retry.Target conf)) |} ∧
      retry.contains (retry.Target conf) (awstypes.Status o) = false ∧
      retry.contains (retry.Pending conf) (awstypes.Status o) = false
  | retry.Waiting r tick' =>
      r = {| retry.Result_ := Some o; retry.State := awstypes.Status o;
             retry.Error := None |} ∧
      retry.contains (retry.Target conf) (awstypes.Status o) = false
  end.
Proof.
  unfold retry.judge.
  destruct (retry.contains (retry.Target conf) (awstypes.Status o)); [auto|].
  destruct (retry.contains (retry.Pending conf) (awstypes.Status o)); [auto|].
  destruct (0 <? length (retry.Pending conf))%nat; auto.
Qed.

Lemma judge_absent nfc tick :
  match retry.judge conf nfc tick None "" None with
  | retry.Done r =>
      r = {| retry.Result_ := None; retry.State := ""; retry.Error := None |} ∧
      retry.Target conf = []
  | retry.Failed r =>
      r = {| retry.Result_ := None; retry.State := "";
             retry.Error := Some (NotFoundError None None (S tick)) |}
  | retry.Waiting r tick' =>
      r = {| retry.Result_ := None; retry.State := ""; retry.Error := None |}
  end.
Proof.
  unfold retry.judge. destruct (retry.Target conf); cbn [length Nat.eqb]; [auto|].
  destruct (nfc <? S tick)%nat; auto.
Qed.

Lemma judge_error nfc tick e :
  retry.judge conf nfc tick None "" (Some e) =
  retry.Failed {| retry.Result_ := None; retry.State := ""; retry.Error := Some e |}.
Proof. reflexivity. Qed.

(** A wait that is cut off makes at most the one lookup of a refresh in
    flight and returns an object only with a success. *)
Lemma cutOff_spec nfc tick last t :
  ∃ res err n,
    retry.cutOff ctx conf nfc tick last t =
      (Returned (res, err), t ++ replicate n (getCall id)) ∧
    (n ≤ 1)%nat ∧ wait_result conf res err ∧ (res = None ∨ err = None).
Proof.
  unfold retry.cutOff.
  destruct (context.cutoff ctx t _ _ _) as [e|[|]].
  - exists None, (Some e), O. rewrite app_nil_r.
    repeat split; [lia|discriminate|discriminate|auto].
  - rewrite bind_run, conf_refresh.
    destruct (status_cases ctx conn id t)
      as [(o & _ & Hs)|[(e & _ & _ & Hs)|(e & _ & _ & Hs)]];
      rewrite Hs; cbn beta iota.
    + pose proof (judge_object nfc tick o) as Hj.
      destruct (retry.judge conf nfc tick (Some o) (awstypes.Status o) None)
        as [r|r|r tick'].
      * destruct Hj as [-> Htarget]. exists (Some o), None, 1%nat.
        repeat split; [lia|eauto|discriminate|auto].
      * eexists None, _, 1%nat.
        repeat split; [lia|discriminate|discriminate|auto].
      * eexists None, _, 1%nat.
        repeat split; [lia|discriminate|discriminate|auto].
    + pose proof (judge_absent nfc tick) as Hj.
      destruct (retry.judge conf nfc tick None "" None) as [r|r|r tick'].
      * destruct Hj as [-> Htarget]. exists None, None, 1%nat.
        repeat split; [lia|auto|discriminate|auto].
      * eexists None, _, 1%nat.
        repeat split; [lia|discriminate|discriminate|auto].
      * eexists None, _, 1%nat.
        repeat split; [lia|discriminate|discriminate|auto].
    + rewrite judge_error. eexists None, _, 1%nat.
      repeat split; [lia|discriminate|discriminate|auto].
  - exists None, (Some (TimeoutError (retry.Error last) (retry.State last)
                          (retry.Timeout conf) (retry.Target conf))), O.
    rewrite app_nil_r. repeat split; [lia|discriminate|discriminate|auto].
Qed.

(** The loop never panics and makes lookups only, one more than [fuel] at
    the most. *)
Lemma refreshLoop_spec nfc fuel :
  ∀ tick last t,
  ∃ res err n,
    retry.refreshLoop ctx conf nfc fuel tick last t =
      (Returned (res, err), t ++ replicate n (getCall id)) ∧
    (n ≤ S fuel)%nat ∧ wait_result conf res err.
Proof.
  induction fuel as [|fuel IH]; intros tick last t.
  - destruct (cutOff_spec nfc tick last t) as (res & err & n & Hrun & Hn & Hres & _).
    exists res, err, n. split; [exact Hrun|]. split; [lia|exact Hres].
  - cbn [retry.refreshLoop]. rewrite bind_run, conf_refresh.
    destruct (status_cases ctx conn id t)
      as [(o & _ & Hs)|[(e & _ & _ & Hs)|(e & _ & _ & Hs)]];
      rewrite Hs; cbn beta iota.
    + pose proof (judge_object nfc tick o) as Hj.
      destruct (retry.judge conf nfc tick (Some o) (awstypes.Status o) None)
        as [r|r|r tick'].
      * destruct Hj as [-> Htarget]. exists (Some o), None, 1%nat.
        repeat split; [lia|eauto|discriminate].
      * destruct Hj as (-> & _ & _). eexists (Some o), _, 1%nat.
        repeat split; [lia|discriminate|].
        intros o' e' [= <-] [= <-]. reflexivity.
      * destruct (IH tick' r (t ++ [getCall id])) as (res & err & n & Hrun & Hn & Hres).
        exists res, err, (S n). rewrite Hrun, replicate_snoc_app.
        repeat split; [lia|apply Hres|apply Hres].
    + pose proof (judge_absent nfc tick) as Hj.
      destruct (retry.judge conf nfc tick None "" None) as [r|r|r tick'].
      * destruct Hj as [-> Htarget]. exists None, None, 1%nat.
        repeat split; [lia|auto|discriminate].
      * rewrite Hj. eexists None, _, 1%nat.
        repeat split; [lia|discriminate|discriminate].
      * destruct (IH tick' r (t ++ [getCall id])) as (res & err & n & Hrun & Hn & Hres).
        exists res, err, (S n). rewrite Hrun, replicate_snoc_app.
        repeat split; [lia|apply Hres|apply Hres].
    + rewrite judge_error. exists None, (Some e), 1%nat.
      repeat split; [lia|discriminate|discriminate].
Qed.

End poll.

(** ** The two waiters *)

Section waiters.
Variables (ctx : context.Context R53.event) (conn : R53.Client).
Variables (id : string) (timeout : time.Duration) (t : list R53.event).

Lemma waitCreated_with_object output err t' :
  retry.WaitForStateContext ctx (createdConf ctx conn id timeout) t =
    (Returned (Some output, err), t') →
  R53.waitRuleAssociationCreated ctx conn id timeout t =
    (Returned (Some output,
               tfresource.SetLastError err
                 (errors.New (aws.ToString (awstypes.StatusMessage output)))), t').
Proof.
  intros H. unfold R53.waitRuleAssociationCreated.
  change (retry.WaitForStateContext ctx _) with
    (retry.WaitForStateContext ctx (createdConf ctx conn id timeout)).
  rewrite bind_run, H. reflexivity.
Qed.

Lemma waitCreated_without_object err t' :
  retry.WaitForStateContext ctx (createdConf ctx conn id timeout) t =
    (Returned (None, err), t') →
  R53.waitRuleAssociationCreated ctx conn id timeout t = (Returned (None, err), t').
Proof.
  intros H. unfold R53.waitRuleAssociationCreated.
  change (retry.WaitForStateContext ctx _) with
    (retry.WaitForStateContext ctx (createdConf ctx conn id timeout)).
  rewrite bind_run, H. reflexivity.
Qed.

Lemma waitDeleted_with_object output err t' :
  retry.WaitForStateContext ctx (deletedConf ctx conn id timeout) t =
    (Returned (Some output, err), t') →
  R53.waitRuleAssociationDeleted ctx conn id timeout t =
    (Returned (Some output,
               tfresource.SetLastError err
                 (errors.New (aws.ToString (awstypes.StatusMessage output)))), t').
Proof.
  intros H. unfold R53.waitRuleAssociationDeleted.
  change (retry.WaitForStateContext ctx _) with
    (retry.WaitForStateContext ctx (deletedConf ctx conn id timeout)).
  rewrite bind_run, H. reflexivity.
Qed.

Lemma waitDeleted_without_object err t' :
  retry.WaitForStateContext ctx (deletedConf ctx conn id timeout) t =
    (Returned (None, err), t') →
  R53.waitRuleAssociationDeleted ctx conn id timeout t = (Returned (None, err), t').
Proof.
  intros H. unfold R53.waitRuleAssociationDeleted.
  change (retry.WaitForStateContext ctx _) with
    (retry.WaitForStateContext ctx (deletedConf ctx conn id timeout)).
  rewrite bind_run, H. reflexivity.
Qed.

Lemma SetLastError_nil err lastErr :
  tfresource.SetLastError err lastErr = None ↔ err = None.
Proof.
  split; [|intros ->; reflexivity].
  destruct err as [[]|]; simpl; try discriminate; try reflexivity;
    destruct LastError; discriminate.
Qed.

Lemma SetLastError_some e lastErr :
  ∃ e', tfresource.SetLastError (Some e) lastErr = Some e'.
Proof.
  destruct e; simpl; eauto; destruct LastError; eauto.
Qed.

Lemma contains_singleton s x : retry.contains [x] s = true → s = x.
Proof.
  unfold retry.contains. simpl. rewrite orb_false_r. apply String.eqb_eq.
Qed.

(** What the poller does under a waiter, for either of the two settings. *)
Lemma WaitForStateContext_spec
    (conf : retry.StateChangeConf R53.event awstypes.ResolverRuleAssociation) :
  retry.Refresh conf = R53.statusRuleAssociation ctx conn id →
  ∃ res err n,
    retry.WaitForStateContext ctx conf t =
      (Returned (res, err), t ++ replicate n (getCall id)) ∧
    (n ≤ S (context.refreshes_within ctx t (retry.Timeout conf) (retry.Delay conf)
              (retry.MinTimeout conf)))%nat ∧
    (err = None →
       (res = None ∧ retry.Target conf = []) ∨
       (∃ o, res = Some o ∧ retry.contains (retry.Target conf) (awstypes.Status o) = true)) ∧
    (∀ o e, res = Some o → err = Some e →
       e = UnexpectedStateError None (awstypes.Status o) (retry.Target conf)).
Proof.
  intros Hrefresh. unfold retry.WaitForStateContext.
  destruct (refreshLoop_spec ctx conn id conf Hrefresh
              (if (retry.NotFoundChecks conf =? 0)%nat then 20%nat
               else retry.NotFoundChecks conf)
              (context.refreshes_within ctx t (retry.Timeout conf) (retry.Delay conf)
                 (retry.MinTimeout conf))
              O {| retry.Result_ := None; retry.State := ""; retry.Error := None |} t)
    as (res & err & n & Hrun & Hn & Hok & Herr).
  exists res, err, n. auto.
Qed.

(** The create waiter: lookups only, at most one more (a refresh in
    flight at the timeout) than the clock lets through for the timeout it
    is given with a delay of 10s and a minimal interval of 5s; success
    means an association in status COMPLETE; an error that comes with an
    association refers to its status message. *)
Lemma waitCreated_spec :
  ∃ res err n,
    R53.waitRuleAssociationCreated ctx conn id timeout t =
      (Returned (res, err), t ++ replicate n (getCall id)) ∧
    (n ≤ S (context.refreshes_within ctx t timeout (10 * time.Second)%Z (5 * time.Second)%Z))%nat ∧
    (err = None → ∃ o, res = Some o ∧ awstypes.Status o = "COMPLETE") ∧
    (∀ o e, res = Some o → err = Some e →
       errors.Unwrap e =
       Some (errors.New (aws.ToString (awstypes.StatusMessage o)))).
Proof.
  destruct (WaitForStateContext_spec (createdConf ctx conn id timeout) eq_refl)
    as (res & err & n & Hrun & Hn & Hok & Herr).
  destruct res as [o|].
  - exists (Some o),
      (tfresource.SetLastError err
         (errors.New (aws.ToString (awstypes.StatusMessage o)))), n.
    split; [apply waitCreated_with_object, Hrun|]. split; [exact Hn|]. split.
    + intros Hnil. apply SetLastError_nil in Hnil.
      destruct (Hok Hnil) as [[? _]|(o' & [= <-] & Hc)]; [discriminate|].
      exists o. split; [reflexivity|]. apply contains_singleton, Hc.
    + intros o' e' [= <-] He'. destruct err as [e|]; [|discriminate].
      rewrite (Herr o e eq_refl eq_refl) in He'. injection He' as <-. reflexivity.
  - exists None, err, n.
    split; [apply waitCreated_without_object, Hrun|]. split; [exact Hn|]. split.
    + intros Hnil. destruct (Hok Hnil) as [[_ ?]|(o' & ? & _)]; discriminate.
    + discriminate.
Qed.

(** The delete waiter: the same, and success means the association was
    seen absent. *)
Lemma waitDeleted_spec :
  ∃ res err n,
    R53.waitRuleAssociationDeleted ctx conn id timeout t =
      (Returned (res, err), t ++ replicate n (getCall id)) ∧
    (n ≤ S (context.refreshes_within ctx t timeout (10 * time.Second)%Z (5 * time.Second)%Z))%nat ∧
    (err = None → res = None) ∧
    (∀ o e, res = Some o → err = Some e →
       errors.Unwrap e =
       Some (errors.New (aws.ToString (awstypes.StatusMessage o)))).
Proof.
  destruct (WaitForStateContext_spec (deletedConf ctx conn id timeout) eq_refl)
    as (res & err & n & Hrun & Hn & Hok & Herr).
  destruct res as [o|].
  - exists (Some o),
      (tfresource.SetLastError err
         (errors.New (aws.ToString (awstypes.StatusMessage o)))), n.
    split; [apply waitDeleted_with_object, Hrun|]. split; [exact Hn|]. split.
    + intros Hnil. apply SetLastError_nil in Hnil.
      destruct (Hok Hnil) as [[? _]|(o' & _ & Hc)]; discriminate.
    + intros o' e' [= <-] He'. destruct err as [e|]; [|discriminate].
      rewrite (Herr o e eq_refl eq_refl) in He'. injection He' as <-. reflexivity.
  - exists None, err, n.
    split; [apply waitDeleted_without_object, Hrun|]. split; [exact Hn|]. split.
    + reflexivity.
    + discriminate.
Qed.

End waiters.

(** ** Resource data *)

Lemma Set_lookup_eq d key v : schema.attrs (schema.Set_ d key v) !! key = v.
Proof.
  destruct v; simpl; [apply lookup_insert_eq|apply lookup_delete_eq].
Qed.

Lemma Set_lookup_ne d key key' v :
  key ≠ key' → schema.attrs (schema.Set_ d key v) !! key' = schema.attrs d !! key'.
Proof.
  intros Hne. destruct v; simpl; [by apply lookup_insert_ne|by apply lookup_delete_ne].
Qed.

(** ** The read handlers *)

Section rule_association_read.
Variables (ctx : context.Context R53.event) (d : schema.ResourceData).
Variables (meta : R53.AWSClient) (t : list R53.event).

Lemma read_absent ruleAssociation err t1 :
  R53.findResolverRuleAssociationByID ctx (R53.Route53ResolverClient meta) (schema.Id d) t =
    (Returned (ruleAssociation, err), t1) →
  tfresource.NotFound err = true →
  schema.IsNewResource d = false →
  R53.resourceRuleAssociationRead ctx d meta t = (Returned (schema.SetId d "", []), t1).
Proof.
  intros Hfind Hnf Hnew. unfold R53.resourceRuleAssociationRead.
  rewrite bind_run, Hfind. cbn beta iota. rewrite Hnf, Hnew. reflexivity.
Qed.

Lemma read_error ruleAssociation e t1 :
  R53.findResolverRuleAssociationByID ctx (R53.Route53ResolverClient meta) (schema.Id d) t =
    (Returned (ruleAssociation, Some e), t1) →
  schema.IsNewResource d = true ∨ tfresource.NotFound (Some e) = false →
  R53.resourceRuleAssociationRead ctx d meta t =
    (Returned (d, readDiag (schema.Id d) e), t1).
Proof.
  intros Hfind Hor. unfold R53.resourceRuleAssociationRead.
  rewrite bind_run, Hfind. cbn beta iota.
  destruct Hor as [-> | ->]; [reflexivity|].
  rewrite andb_false_r. reflexivity.
Qed.

Lemma read_found o t1 :
  R53.findResolverRuleAssociationByID ctx (R53.Route53ResolverClient meta) (schema.Id d) t =
    (Returned (Some o, None), t1) →
  R53.resourceRuleAssociationRead ctx d meta t =
    (Returned
       (schema.SetString
          (schema.SetString (schema.SetString d "name" (awstypes.Name o))
             "resolver_rule_id" (awstypes.ResolverRuleId o))
          "vpc_id" (awstypes.VPCId o), []), t1).
Proof.
  intros Hfind. unfold R53.resourceRuleAssociationRead.
  rewrite bind_run, Hfind. cbn beta iota.
  rewrite NotFound_nil, andb_false_r. reflexivity.
Qed.

(** The read handler makes the one lookup and does not panic. *)
Lemma read_runs :
  ∃ d' diags,
    R53.resourceRuleAssociationRead ctx d meta t =
    (Returned (d', diags), t ++ [getCall (schema.Id d)]).
Proof.
  destruct (find_cases ctx (R53.Route53ResolverClient meta) (schema.Id d) t)
    as [[o Hf]|[e Hf]].
  - eexists _, _. apply (read_found _ _ Hf).
  - destruct (schema.IsNewResource d) eqn:Hnew.
    + eexists _, _. apply (read_error _ _ _ Hf). auto.
    + destruct (tfresource.NotFound (Some e)) eqn:Hnf.
      * eexists _, _. apply (read_absent _ _ _ Hf Hnf Hnew).
      * eexists _, _. apply (read_error _ _ _ Hf). auto.
Qed.

End rule_association_read.

Section replication_read.
Variables (d : schema.ResourceData) (meta : rds.AWSClient) (t : list rds.event).

Lemma rds_read_absent backup err :
  rds.answerFind (rds.Package_ meta) t (rds.RDSConn meta) (schema.Id d) = (backup, err) →
  tfresource.NotFound err = true →
  schema.IsNewResource d = false →
  rds.resourceInstanceAutomatedBackupReplicationRead d meta t =
    (Returned (schema.SetId d "", None), t ++ [findCall d meta]).
Proof.
  intros Hfind Hnf Hnew. unfold rds.resourceInstanceAutomatedBackupReplicationRead.
  rewrite bind_run. unfold rds.FindDBInstanceAutomatedBackupByARN. rewrite call_run.
  rewrite Hfind. cbn beta iota. rewrite Hnf, Hnew. reflexivity.
Qed.

Lemma rds_read_error backup e :
  rds.answerFind (rds.Package_ meta) t (rds.RDSConn meta) (schema.Id d) = (backup, Some e) →
  schema.IsNewResource d = true ∨ tfresource.NotFound (Some e) = false →
  rds.resourceInstanceAutomatedBackupReplicationRead d meta t =
    (Returned (d, Some (WrapError
                          "error reading RDS instance automated backup replication (%s): %w"
                          [schema.Id d] e)), t ++ [findCall d meta]).
Proof.
  intros Hfind Hor. unfold rds.resourceInstanceAutomatedBackupReplicationRead.
  rewrite bind_run. unfold rds.FindDBInstanceAutomatedBackupByARN. rewrite call_run.
  rewrite Hfind. cbn beta iota.
  destruct Hor as [-> | ->]; [reflexivity|].
  rewrite andb_false_r. reflexivity.
Qed.

Lemma rds_read_found b :
  rds.answerFind (rds.Package_ meta) t (rds.RDSConn meta) (schema.Id d) = (Some b, None) →
  rds.resourceInstanceAutomatedBackupReplicationRead d meta t =
    (Returned
       (schema.SetString
          (schema.SetInt (schema.SetString d "kms_key_id" (rds.KmsKeyId b))
             "retention_period" (rds.BackupRetentionPeriod b))
          "source_db_instance_arn" (rds.DBInstanceArn b), None), t ++ [findCall d meta]).
Proof.
  intros Hfind. unfold rds.resourceInstanceAutomatedBackupReplicationRead.
  rewrite bind_run. unfold rds.FindDBInstanceAutomatedBackupByARN. rewrite call_run.
  rewrite Hfind. cbn beta iota.
  rewrite NotFound_nil, andb_false_r. reflexivity.
Qed.

End replication_read.

(** ** Absence under the delete waiter *)

Lemma status_absent ctx conn id t e :
  R53.findResolverRuleAssociationByID ctx conn id t =
    (Returned (None, Some e), t ++ [getCall id]) →
  tfresource.NotFound (Some e) = true →
  R53.statusRuleAssociation ctx conn id t = (Returned (None, "", None), t ++ [getCall id]).
Proof.
  intros Hfind Hnf. unfold R53.statusRuleAssociation.
  rewrite bind_run, Hfind. cbn beta iota. rewrite Hnf. reflexivity.
Qed.

Lemma NotFound_sentinel err request retries :
  tfresource.NotFound (Some (NotFoundError err request retries)) = true.
Proof. reflexivity. Qed.

(** A first refresh that sees the association absent ends the delete wait
    with success. *)
Lemma waitDeleted_absent ctx conn id timeout t :
  R53.statusRuleAssociation ctx conn id t = (Returned (None, "", None), t ++ [getCall id]) →
  (0 < context.refreshes_within ctx t timeout (10 * time.Second)%Z (5 * time.Second)%Z)%nat →
  R53.waitRuleAssociationDeleted ctx conn id timeout t =
    (Returned (None, None), t ++ [getCall id]).
Proof.
  intros Hstatus Hfuel. apply waitDeleted_without_object.
  unfold retry.WaitForStateContext.
  change (context.refreshes_within ctx t _ _ _) with
    (context.refreshes_within ctx t timeout (10 * time.Second)%Z (5 * time.Second)%Z).
  destruct (context.refreshes_within ctx t timeout _ _) as [|fuel]; [lia|].
  cbn [retry.refreshLoop]. rewrite bind_run.
  change (retry.Refresh (deletedConf ctx conn id timeout)) with
    (R53.statusRuleAssociation ctx conn id).
  rewrite Hstatus. reflexivity.
Qed.

(** ** The create and delete handlers of the rule association *)

Lemma associate_input d :
  (let input :=
     {| route53resolver_sdk.ari_ResolverRuleId :=
          aws.String (schema.GetString d "resolver_rule_id");
        route53resolver_sdk.ari_VPCId := aws.String (schema.GetString d names.AttrVPCID);
        route53resolver_sdk.ari_Name := None |} in
   let '(v, ok) := schema.GetOkString d names.AttrName in
   if ok then
     {| route53resolver_sdk.ari_ResolverRuleId :=
          route53resolver_sdk.ari_ResolverRuleId input;
        route53resolver_sdk.ari_VPCId := route53resolver_sdk.ari_VPCId input;
        route53resolver_sdk.ari_Name := aws.String v |}
   else input) = associateRequest d.
Proof.
  unfold schema.GetOkString, associateRequest, names.AttrName, names.AttrVPCID, aws.String.
  cbv zeta. case_decide as Hname.
  - rewrite Hname. reflexivity.
  - apply String.eqb_neq in Hname. rewrite Hname. reflexivity.
Qed.

Ltac unfold_create d :=
  unfold R53.resourceRuleAssociationCreate; cbv zeta;
  let Hin := fresh in
  pose proof (associate_input d) as Hin; cbv zeta in Hin; rewrite Hin; clear Hin;
  rewrite bind_run; unfold R53.AssociateResolverRule; rewrite call_run;
  fold (associateCall d).

Section rule_association_create.
Variables (ctx : context.Context R53.event) (d : schema.ResourceData).
Variables (meta : R53.AWSClient) (t : list R53.event).
Local Abbreviation conn := (R53.Route53ResolverClient meta).

Lemma create_failed out e :
  R53.answerAssociateResolverRule conn t (associateRequest d) = (out, Some e) →
  R53.resourceRuleAssociationCreate ctx d meta t =
    (Returned (d, creatingDiag e), t ++ [associateCall d]).
Proof.
  intros Hans. unfold_create d. rewrite Hans. reflexivity.
Qed.

Lemma create_panics out :
  R53.answerAssociateResolverRule conn t (associateRequest d) = (out, None) →
  out ≫= route53resolver_sdk.aro_ResolverRuleAssociation = None →
  R53.resourceRuleAssociationCreate ctx d meta t = (Panicked, t ++ [associateCall d]).
Proof.
  intros Hans Hnone. unfold_create d. rewrite Hans. cbn beta iota.
  rewrite Hnone. reflexivity.
Qed.

Lemma create_wait_failed out ruleAssociation res e t' :
  R53.answerAssociateResolverRule conn t (associateRequest d) = (out, None) →
  out ≫= route53resolver_sdk.aro_ResolverRuleAssociation = Some ruleAssociation →
  R53.waitRuleAssociationCreated ctx conn (aws.ToString (awstypes.Id ruleAssociation))
    (schema.Timeout d schema.TimeoutCreate) (t ++ [associateCall d]) =
    (Returned (res, Some e), t') →
  R53.resourceRuleAssociationCreate ctx d meta t =
    (Returned (schema.SetId d (aws.ToString (awstypes.Id ruleAssociation)),
               waitCreateDiag (aws.ToString (awstypes.Id ruleAssociation)) e), t').
Proof.
  intros Hans Hsome Hwait. unfold_create d. rewrite Hans. cbn beta iota.
  rewrite Hsome. cbn beta iota zeta. rewrite bind_run.
  change (schema.Id (schema.SetId d ?x)) with x.
  change (schema.Timeout (schema.SetId d ?x) ?k) with (schema.Timeout d k).
  rewrite Hwait. reflexivity.
Qed.

Lemma create_reads out ruleAssociation res t' :
  R53.answerAssociateResolverRule conn t (associateRequest d) = (out, None) →
  out ≫= route53resolver_sdk.aro_ResolverRuleAssociation = Some ruleAssociation →
  R53.waitRuleAssociationCreated ctx conn (aws.ToString (awstypes.Id ruleAssociation))
    (schema.Timeout d schema.TimeoutCreate) (t ++ [associateCall d]) =
    (Returned (res, None), t') →
  R53.resourceRuleAssociationCreate ctx d meta t =
    R53.resourceRuleAssociationRead ctx
      (schema.SetId d (aws.ToString (awstypes.Id ruleAssociation))) meta t'.
Proof.
  intros Hans Hsome Hwait. unfold_create d. rewrite Hans. cbn beta iota.
  rewrite Hsome. cbn beta iota zeta. rewrite bind_run.
  change (schema.Id (schema.SetId d ?x)) with x.
  change (schema.Timeout (schema.SetId d ?x) ?k) with (schema.Timeout d k).
  rewrite Hwait. cbn beta iota. rewrite bind_run.
  destruct (read_runs ctx (schema.SetId d (aws.ToString (awstypes.Id ruleAssociation)))
              meta t') as (d' & diags & Hread).
  rewrite Hread. reflexivity.
Qed.

End rule_association_create.

Lemma count_replicate_getCall (p : R53.event → bool) n id :
  p (getCall id) = false → count p (replicate n (getCall id)) = O.
Proof.
  intros Hp. unfold count. induction n as [|n IH]; [reflexivity|].
  simpl. rewrite filter_cons_False; [exact IH|]. rewrite Hp. discriminate.
Qed.

Lemma count_app {E} (p : E → bool) (l1 l2 : list E) :
  count p (l1 ++ l2) = (count p l1 + count p l2)%nat.
Proof. unfold count. rewrite filter_app, length_app. reflexivity. Qed.

Section rule_association_handlers.
Variables (ctx : context.Context R53.event) (d : schema.ResourceData).
Variables (meta : R53.AWSClient) (t : list R53.event).
Local Abbreviation conn := (R53.Route53ResolverClient meta).

(** The history of a create: the create call, the refreshes of the wait,
    and at most the lookup of the closing read. *)
Lemma create_history :
  ∃ r id n tail,
    R53.resourceRuleAssociationCreate ctx d meta t =
      (r, t ++ associateCall d :: replicate n (getCall id) ++ tail) ∧
    (n ≤ S (context.refreshes_within ctx (t ++ [associateCall d])
              (schema.Timeout d schema.TimeoutCreate)
              (10 * time.Second)%Z (5 * time.Second)%Z))%nat ∧
    (tail = [] ∨ tail = [getCall id]).
Proof.
  destruct (R53.answerAssociateResolverRule conn t (associateRequest d))
    as [out [e|]] eqn:Hans.
  { exists (Returned (d, creatingDiag e)), "", O, [].
    split; [apply (create_failed _ _ _ _ _ _ Hans)|]. split; [lia|auto]. }
  destruct (out ≫= route53resolver_sdk.aro_ResolverRuleAssociation)
    as [ra|] eqn:Hout.
  2:{ exists Panicked, "", O, [].
      split; [apply (create_panics _ _ _ _ _ Hans Hout)|]. split; [lia|auto]. }
  destruct (waitCreated_spec ctx conn (aws.ToString (awstypes.Id ra))
              (schema.Timeout d schema.TimeoutCreate) (t ++ [associateCall d]))
    as (res & err & n & Hwait & Hn & _ & _).
  destruct err as [e|].
  - eexists _, (aws.ToString (awstypes.Id ra)), n, [].
    rewrite (create_wait_failed _ _ _ _ _ _ _ _ _ Hans Hout Hwait).
    split; [|split; [exact Hn|auto]].
    rewrite app_nil_r, <- app_assoc. reflexivity.
  - rewrite (create_reads _ _ _ _ _ _ _ _ Hans Hout Hwait).
    destruct (read_runs ctx (schema.SetId d (aws.ToString (awstypes.Id ra))) meta
                ((t ++ [associateCall d]) ++
                 replicate n (getCall (aws.ToString (awstypes.Id ra)))))
      as (d' & diags & Hread).
    eexists _, (aws.ToString (awstypes.Id ra)), n, [getCall (aws.ToString (awstypes.Id ra))].
    rewrite Hread. split; [|split; [exact Hn|auto]].
    change (schema.Id (schema.SetId d ?x)) with x.
    rewrite <- !app_assoc. reflexivity.
Qed.

Lemma delete_not_found out err :
  R53.answerDisassociateResolverRule conn t (disassociateRequest d) = (out, err) →
  errs.IsA_ResourceNotFoundException err = true →
  R53.resourceRuleAssociationDelete ctx d meta t =
    (Returned (d, []), t ++ [disassociateCall d]).
Proof.
  intros Hans Hnf. unfold R53.resourceRuleAssociationDelete. cbv zeta.
  rewrite bind_run. unfold R53.DisassociateResolverRule. rewrite call_run.
  change {| route53resolver_sdk.dri_ResolverRuleId := _;
            route53resolver_sdk.dri_VPCId := _ |} with (disassociateRequest d).
  rewrite Hans. cbn beta iota. rewrite Hnf. reflexivity.
Qed.

Lemma delete_failed out e :
  R53.answerDisassociateResolverRule conn t (disassociateRequest d) = (out, Some e) →
  errs.IsA_ResourceNotFoundException (Some e) = false →
  R53.resourceRuleAssociationDelete ctx d meta t =
    (Returned (d, deletingDiag (schema.Id d) e), t ++ [disassociateCall d]).
Proof.
  intros Hans Hnf. unfold R53.resourceRuleAssociationDelete. cbv zeta.
  rewrite bind_run. unfold R53.DisassociateResolverRule. rewrite call_run.
  change {| route53resolver_sdk.dri_ResolverRuleId := _;
            route53resolver_sdk.dri_VPCId := _ |} with (disassociateRequest d).
  rewrite Hans. cbn beta iota. rewrite Hnf. reflexivity.
Qed.

Lemma delete_waits out res err t' :
  R53.answerDisassociateResolverRule conn t (disassociateRequest d) = (out, None) →
  R53.waitRuleAssociationDeleted ctx conn (schema.Id d)
    (schema.Timeout d schema.TimeoutDelete) (t ++ [disassociateCall d]) =
    (Returned (res, err), t') →
  R53.resourceRuleAssociationDelete ctx d meta t =
    (Returned (d, match err with
                  | Some e => waitDeleteDiag (schema.Id d) e
                  | None => []
                  end), t').
Proof.
  intros Hans Hwait. unfold R53.resourceRuleAssociationDelete. cbv zeta.
  rewrite bind_run. unfold R53.DisassociateResolverRule. rewrite call_run.
  change {| route53resolver_sdk.dri_ResolverRuleId := _;
            route53resolver_sdk.dri_VPCId := _ |} with (disassociateRequest d).
  rewrite Hans. cbn beta iota.
  change (errs.IsA_ResourceNotFoundException None) with false. cbn iota.
  fold (disassociateCall d). rewrite bind_run, Hwait.
  destruct err; reflexivity.
Qed.

(** The history of a delete: the delete call and the refreshes of the wait. *)
Lemma delete_history :
  ∃ r n,
    R53.resourceRuleAssociationDelete ctx d meta t =
      (r, t ++ disassociateCall d :: replicate n (getCall (schema.Id d))) ∧
    (n ≤ S (context.refreshes_within ctx (t ++ [disassociateCall d])
              (schema.Timeout d schema.TimeoutDelete)
              (10 * time.Second)%Z (5 * time.Second)%Z))%nat.
Proof.
  destruct (R53.answerDisassociateResolverRule conn t (disassociateRequest d))
    as [out err] eqn:Hans.
  destruct (errs.IsA_ResourceNotFoundException err) eqn:Hnf.
  { eexists _, O. split; [apply (delete_not_found _ _ Hans Hnf)|lia]. }
  destruct err as [e|].
  { eexists _, O. split; [apply (delete_failed _ _ Hans Hnf)|lia]. }
  destruct (waitDeleted_spec ctx conn (schema.Id d)
              (schema.Timeout d schema.TimeoutDelete) (t ++ [disassociateCall d]))
    as (res & err & n & Hwait & Hn & _ & _).
  eexists _, n. rewrite (delete_waits _ _ _ _ Hans Hwait).
  split; [|exact Hn]. rewrite <- app_assoc. reflexivity.
Qed.

End rule_association_handlers.

(** ** The create and delete handlers of the backup replication *)

Lemma start_input d :
  (let input :=
     {| rds.start_BackupRetentionPeriod := aws.Int64 (schema.GetInt d "retention_period");
        rds.start_SourceDBInstanceArn :=
          aws.String (schema.GetString d "source_db_instance_arn");
        rds.start_KmsKeyId := None |} in
   let '(v, ok) := schema.GetOkString d "kms_key_id" in
   if ok then
     {| rds.start_BackupRetentionPeriod := rds.start_BackupRetentionPeriod input;
        rds.start_SourceDBInstanceArn := rds.start_SourceDBInstanceArn input;
        rds.start_KmsKeyId := aws.String v |}
   else input) = startRequest d.
Proof.
  unfold schema.GetOkString, startRequest, aws.String, aws.Int64.
  cbv zeta. case_decide as Hkey.
  - rewrite Hkey. reflexivity.
  - apply String.eqb_neq in Hkey. rewrite Hkey. reflexivity.
Qed.

Ltac unfold_rds_create d meta :=
  unfold rds.resourceInstanceAutomatedBackupReplicationCreate; cbv zeta;
  let Hin := fresh in
  pose proof (start_input d) as Hin; cbv zeta in Hin; rewrite Hin; clear Hin;
  rewrite bind_run; unfold rds.StartDBInstanceAutomatedBackupsReplication;
  rewrite call_run; fold (startCall d meta).

Section replication_handlers.
Variables (d : schema.ResourceData) (meta : rds.AWSClient) (t : list rds.event).
Local Abbreviation rconn := (rds.RDSConn meta).

Lemma rds_create_failed out e :
  rds.answerStart (rds.connEndpoint rconn) t (startRequest d) = (out, Some e) →
  rds.resourceInstanceAutomatedBackupReplicationCreate d meta t =
    (Returned (d, Some (WrapError
                          "error starting RDS instance automated backup replication: %w"
                          [] e)), t ++ [startCall d meta]).
Proof.
  intros Hans. unfold_rds_create d meta. rewrite Hans. reflexivity.
Qed.

Lemma rds_create_panics out :
  rds.answerStart (rds.connEndpoint rconn) t (startRequest d) = (out, None) →
  out ≫= rds.start_DBInstanceAutomatedBackup = None →
  rds.resourceInstanceAutomatedBackupReplicationCreate d meta t =
    (Panicked, t ++ [startCall d meta]).
Proof.
  intros Hans Hnone. unfold_rds_create d meta. rewrite Hans. cbn beta iota.
  rewrite Hnone. reflexivity.
Qed.

Lemma rds_create_wait_failed out b res e :
  rds.answerStart (rds.connEndpoint rconn) t (startRequest d) = (out, None) →
  out ≫= rds.start_DBInstanceAutomatedBackup = Some b →
  rds.answerWaitCreated (rds.Package_ meta) (t ++ [startCall d meta]) rconn
    (aws.StringValue (rds.DBInstanceAutomatedBackupsArn b))
    (schema.Timeout d schema.TimeoutCreate) = (res, Some e) →
  rds.resourceInstanceAutomatedBackupReplicationCreate d meta t =
    (Returned
       (schema.SetId d (aws.StringValue (rds.DBInstanceAutomatedBackupsArn b)),
        Some (WrapError "error waiting for DB instance automated backup (%s) create: %w"
                [aws.StringValue (rds.DBInstanceAutomatedBackupsArn b)] e)),
     t ++ [startCall d meta;
           rds.waitDBInstanceAutomatedBackupCreatedCall (rds.connRegion rconn)
             (aws.StringValue (rds.DBInstanceAutomatedBackupsArn b))
             (schema.Timeout d schema.TimeoutCreate)]).
Proof.
  intros Hans Hsome Hwait. unfold_rds_create d meta. rewrite Hans. cbn beta iota.
  rewrite Hsome. cbn beta iota zeta. rewrite bind_run.
  unfold rds.waitDBInstanceAutomatedBackupCreated. rewrite call_run.
  change (schema.Id (schema.SetId d ?x)) with x.
  change (schema.Timeout (schema.SetId d ?x) ?k) with (schema.Timeout d k).
  rewrite Hwait. rewrite <- app_assoc. reflexivity.
Qed.

Lemma rds_create_reads out b res :
  rds.answerStart (rds.connEndpoint rconn) t (startRequest d) = (out, None) →
  out ≫= rds.start_DBInstanceAutomatedBackup = Some b →
  rds.answerWaitCreated (rds.Package_ meta) (t ++ [startCall d meta]) rconn
    (aws.StringValue (rds.DBInstanceAutomatedBackupsArn b))
    (schema.Timeout d schema.TimeoutCreate) = (res, None) →
  rds.resourceInstanceAutomatedBackupReplicationCreate d meta t =
    rds.resourceInstanceAutomatedBackupReplicationRead
      (schema.SetId d (aws.StringValue (rds.DBInstanceAutomatedBackupsArn b))) meta
      (t ++ [startCall d meta;
             rds.waitDBInstanceAutomatedBackupCreatedCall (rds.connRegion rconn)
               (aws.StringValue (rds.DBInstanceAutomatedBackupsArn b))
               (schema.Timeout d schema.TimeoutCreate)]).
Proof.
  intros Hans Hsome Hwait. unfold_rds_create d meta. rewrite Hans. cbn beta iota.
  rewrite Hsome. cbn beta iota zeta. rewrite bind_run.
  unfold rds.waitDBInstanceAutomatedBackupCreated. rewrite call_run.
  change (schema.Id (schema.SetId d ?x)) with x.
  change (schema.Timeout (schema.SetId d ?x) ?k) with (schema.Timeout d k).
  rewrite Hwait. rewrite <- app_assoc. reflexivity.
Qed.

(** The read handler makes the one lookup. *)
Lemma rds_read_history :
  ∃ r, rds.resourceInstanceAutomatedBackupReplicationRead d meta t =
       (r, t ++ [findCall d meta]).
Proof.
  unfold rds.resourceInstanceAutomatedBackupReplicationRead.
  rewrite bind_run. unfold rds.FindDBInstanceAutomatedBackupByARN. rewrite call_run.
  fold (findCall d meta).
  destruct (rds.answerFind _ _ _ _) as [backup err]. cbn beta iota.
  destruct (negb (schema.IsNewResource d) && tfresource.NotFound err);
    [eexists; reflexivity|].
  destruct err; [eexists; reflexivity|].
  destruct backup; eexists; reflexivity.
Qed.

Lemma rds_delete_not_found backup err :
  rds.answerFind (rds.Package_ meta) t rconn (schema.Id d) = (backup, err) →
  tfresource.NotFound err = true →
  rds.resourceInstanceAutomatedBackupReplicationDelete d meta t =
    (Returned (d, None), t ++ [findCall d meta]).
Proof.
  intros Hfind Hnf. unfold rds.resourceInstanceAutomatedBackupReplicationDelete.
  cbv zeta. rewrite bind_run. unfold rds.FindDBInstanceAutomatedBackupByARN.
  rewrite call_run, Hfind. cbn beta iota. rewrite Hnf. reflexivity.
Qed.

Lemma sourceDatabaseConn_eq region :
  (if negb (String.eqb region (rds.Region meta))
   then rds.New (rds.Session_ meta) region else rconn) =
  sourceDatabaseConn meta region.
Proof.
  unfold sourceDatabaseConn. case_decide as Hregion.
  - apply String.eqb_eq in Hregion. rewrite Hregion. reflexivity.
  - apply String.eqb_neq in Hregion. rewrite Hregion. reflexivity.
Qed.

(** Once the lookup, the parsing of the source ARN and the stop call have
    succeeded, the delete handler waits. *)
Lemma rds_delete_waits b source out res err :
  rds.answerFind (rds.Package_ meta) t rconn (schema.Id d) = (Some b, None) →
  arn.Parse (aws.StringValue (rds.DBInstanceArn b)) = (source, None) →
  rds.answerStop (rds.connEndpoint rconn) (t ++ [findCall d meta]) (stopRequest d) =
    (out, None) →
  rds.answerWaitDeleted (rds.Package_ meta) (t ++ [findCall d meta; stopCall d meta])
    (sourceDatabaseConn meta (arn.Region source))
    (aws.StringValue (rds.DBInstanceIdentifier b)) (schema.Id d)
    (schema.Timeout d schema.TimeoutCreate) = (res, err) →
  rds.resourceInstanceAutomatedBackupReplicationDelete d meta t =
    (Returned
       (d, match err with
           | Some e =>
               Some (WrapError
                       "error waiting for DB instance automated backup (%s) delete: %w"
                       [schema.Id d] e)
           | None => None
           end),
     t ++ [findCall d meta; stopCall d meta;
           rds.waitDBInstanceAutomatedBackupDeletedCall
             (rds.connRegion (sourceDatabaseConn meta (arn.Region source)))
             (aws.StringValue (rds.DBInstanceIdentifier b)) (schema.Id d)
             (schema.Timeout d schema.TimeoutCreate)]).
Proof.
  intros Hfind Hparse Hstop Hwait.
  unfold rds.resourceInstanceAutomatedBackupReplicationDelete.
  cbv zeta. rewrite bind_run. unfold rds.FindDBInstanceAutomatedBackupByARN.
  rewrite call_run, Hfind. cbn beta iota. rewrite NotFound_nil. cbn iota.
  rewrite Hparse. cbn beta iota. rewrite bind_run.
  unfold rds.StopDBInstanceAutomatedBackupsReplication. rewrite call_run.
  fold (findCall d meta).
  change {| rds.stop_SourceDBInstanceArn := _ |} with (stopRequest d).
  rewrite Hstop. cbn beta iota.
  rewrite sourceDatabaseConn_eq, bind_run.
  unfold rds.waitDBInstanceAutomatedBackupDeleted. rewrite call_run.
  fold (stopCall d meta). rewrite <- app_assoc. cbn [app].
  rewrite Hwait. cbn beta iota. rewrite <- app_assoc. cbn [app].
  destruct err; reflexivity.
Qed.

End replication_handlers.

Section replication_histories.
Variables (d : schema.ResourceData) (meta : rds.AWSClient) (t : list rds.event).
Local Abbreviation rconn := (rds.RDSConn meta).

(** The history of a create: the start call, then at most the wait and the
    lookup of the closing read. *)
Lemma rds_create_history :
  ∃ r tail,
    rds.resourceInstanceAutomatedBackupReplicationCreate d meta t =
      (r, t ++ startCall d meta :: tail) ∧
    (tail = [] ∨
     ∃ id,
       tail = [rds.waitDBInstanceAutomatedBackupCreatedCall (rds.connRegion rconn) id
                 (schema.Timeout d schema.TimeoutCreate)] ∨
       tail = [rds.waitDBInstanceAutomatedBackupCreatedCall (rds.connRegion rconn) id
                 (schema.Timeout d schema.TimeoutCreate);
               rds.FindDBInstanceAutomatedBackupByARNCall (rds.connRegion rconn) id]).
Proof.
  destruct (rds.answerStart (rds.connEndpoint rconn) t (startRequest d))
    as [out [e|]] eqn:Hans.
  { eexists _, []. split; [apply (rds_create_failed _ _ _ _ _ Hans)|auto]. }
  destruct (out ≫= rds.start_DBInstanceAutomatedBackup) as [b|] eqn:Hout.
  2:{ eexists _, []. split; [apply (rds_create_panics _ _ _ _ Hans Hout)|auto]. }
  destruct (rds.answerWaitCreated (rds.Package_ meta) (t ++ [startCall d meta]) rconn
              (aws.StringValue (rds.DBInstanceAutomatedBackupsArn b))
              (schema.Timeout d schema.TimeoutCreate)) as [res [e|]] eqn:Hwait.
  - eexists _, _. split; [apply (rds_create_wait_failed _ _ _ _ _ _ _ Hans Hout Hwait)|].
    right. eexists. left. reflexivity.
  - rewrite (rds_create_reads _ _ _ _ _ _ Hans Hout Hwait).
    destruct (rds_read_history
                (schema.SetId d (aws.StringValue (rds.DBInstanceAutomatedBackupsArn b)))
                meta
                (t ++ [startCall d meta;
                       rds.waitDBInstanceAutomatedBackupCreatedCall (rds.connRegion rconn)
                         (aws.StringValue (rds.DBInstanceAutomatedBackupsArn b))
                         (schema.Timeout d schema.TimeoutCreate)])) as [r Hread].
    rewrite Hread. eexists r, _. split.
    + rewrite <- app_assoc. reflexivity.
    + right. eexists. right. reflexivity.
Qed.

(** The history of a delete: the lookup, then at most the stop call and
    the wait. *)
Lemma rds_delete_history :
  ∃ r tail,
    rds.resourceInstanceAutomatedBackupReplicationDelete d meta t =
      (r, t ++ findCall d meta :: tail) ∧
    (tail = [] ∨ tail = [stopCall d meta] ∨
     ∃ region dbInstanceID,
       tail = [stopCall d meta;
               rds.waitDBInstanceAutomatedBackupDeletedCall region dbInstanceID
                 (schema.Id d) (schema.Timeout d schema.TimeoutCreate)]).
Proof.
  destruct (rds.answerFind (rds.Package_ meta) t rconn (schema.Id d))
    as [backup err] eqn:Hfind.
  destruct (tfresource.NotFound err) eqn:Hnf.
  { eexists _, []. split; [apply (rds_delete_not_found _ _ _ _ _ Hfind Hnf)|auto]. }
  unfold rds.resourceInstanceAutomatedBackupReplicationDelete.
  cbv zeta. rewrite bind_run. unfold rds.FindDBInstanceAutomatedBackupByARN.
  rewrite call_run, Hfind. cbn beta iota. rewrite Hnf. fold (findCall d meta).
  destruct err as [e|]; [eexists _, []; split; [reflexivity|auto]|].
  destruct backup as [b|]; [|eexists _, []; split; [reflexivity|auto]].
  destruct (arn.Parse (aws.StringValue (rds.DBInstanceArn b))) as [source [e|]];
    [eexists _, []; split; [reflexivity|auto]|].
  rewrite bind_run. unfold rds.StopDBInstanceAutomatedBackupsReplication.
  rewrite call_run.
  change {| rds.stop_SourceDBInstanceArn := _ |} with (stopRequest d).
  fold (stopCall d meta).
  destruct (rds.answerStop _ _ _) as [out [e|]].
  { eexists _, [stopCall d meta]. split; [|auto].
    rewrite <- app_assoc. reflexivity. }
  rewrite bind_run. unfold rds.waitDBInstanceAutomatedBackupDeleted. rewrite call_run.
  destruct (rds.answerWaitDeleted _ _ _ _ _ _) as [res [e|]].
  - eexists _, [stopCall d meta; _]. split; [rewrite <- !app_assoc; reflexivity|].
    right; right. eexists _, _. reflexivity.
  - eexists _, [stopCall d meta; _]. split; [rewrite <- !app_assoc; reflexivity|].
    right; right. eexists _, _. reflexivity.
Qed.

End replication_histories.

(** ** A wait that times out *)

Section pending.
Variables (ctx : context.Context R53.event) (conn : R53.Client) (id : string).
Variable conf : retry.StateChangeConf R53.event awstypes.ResolverRuleAssociation.
Variable status : string.
Hypothesis conf_refresh : retry.Refresh conf = R53.statusRuleAssociation ctx conn id.
Hypothesis not_target : retry.contains (retry.Target conf) status = false.
Hypothesis pending : retry.contains (retry.Pending conf) status = true.
Hypothesis always_pending :
  ∀ t, ∃ out o,
    R53.answerGetResolverRuleAssociation conn t (getInput id) = (Some out, None) ∧
    route53resolver_sdk.gro_ResolverRuleAssociation out = Some o ∧
    awstypes.Status o = status.

Lemma status_pending t :
  ∃ o, awstypes.Status o = status ∧
       R53.statusRuleAssociation ctx conn id t =
         (Returned (Some o, status, None), t ++ [getCall id]).
Proof.
  destruct (always_pending t) as (out & o & Hans & Hout & Hstatus).
  exists o. split; [exact Hstatus|].
  unfold R53.statusRuleAssociation.
  rewrite bind_run, (find_found ctx conn id t out o Hans Hout).
  cbn beta iota. rewrite NotFound_nil, Hstatus. reflexivity.
Qed.

Lemma judge_pending nfc tick o :
  awstypes.Status o = status →
  retry.judge conf nfc tick (Some o) status None =
  retry.Waiting {| retry.Result_ := Some o; retry.State := status;
                   retry.Error := None |} O.
Proof.
  intros _. unfold retry.judge. rewrite not_target, pending. reflexivity.
Qed.

(** While the association stays in a pending status the loop uses up its
    refreshes and is cut off: by the context, with its error, or by the
    timeout, with a timeout error that has no last error; either way no
    object comes back. *)
Lemma refreshLoop_pending nfc fuel :
  ∀ tick last t,
    retry.Error last = None →
    retry.refreshLoop ctx conf nfc fuel tick last t =
      match context.cutoff ctx (t ++ replicate fuel (getCall id))
              (retry.Timeout conf) (retry.Delay conf) (retry.MinTimeout conf) with
      | context.Cancelled e =>
          (Returned (None, Some e), t ++ replicate fuel (getCall id))
      | context.TimedOut false =>
          (Returned
             (None,
              Some (TimeoutError None
                      (match fuel with O => retry.State last | S _ => status end)
                      (retry.Timeout conf) (retry.Target conf))),
           t ++ replicate fuel (getCall id))
      | context.TimedOut true =>
          (Returned
             (None,
              Some (TimeoutError None status (retry.Timeout conf) (retry.Target conf))),
           t ++ replicate (S fuel) (getCall id))
      end.
Proof.
  induction fuel as [|fuel IH]; intros tick last t Hlast.
  - cbn [retry.refreshLoop replicate]. unfold retry.cutOff. rewrite app_nil_r.
    destruct (context.cutoff ctx t _ _ _) as [e|[|]]; [reflexivity| |].
    + rewrite bind_run, conf_refresh.
      destruct (status_pending t) as (o & Hstatus & Hrun). rewrite Hrun.
      cbn beta iota. rewrite (judge_pending _ _ _ Hstatus). reflexivity.
    + rewrite Hlast. reflexivity.
  - cbn [retry.refreshLoop]. rewrite bind_run, conf_refresh.
    destruct (status_pending t) as (o & Hstatus & Hrun). rewrite Hrun.
    cbn beta iota. rewrite (judge_pending _ _ _ Hstatus).
    rewrite IH by reflexivity. rewrite !replicate_snoc_app.
    destruct (context.cutoff ctx _ _ _ _) as [e|[|]]; [reflexivity|reflexivity|].
    destruct fuel; reflexivity.
Qed.

End pending.

(** * The statements of the specification *)

(** ** Read *)

(** C1, as the spec words it, fails: a not-found lookup does not always
    clear the state.  In both read handlers the clearing is guarded by
    [!d.IsNewResource()]; on a resource that is being created a not-found
    lookup is reported as an error and the ID stays. *)
Lemma read_not_found_keeps_new_resource :
  ¬ (∀ ctx d meta t ruleAssociation err t1,
       R53.findResolverRuleAssociationByID ctx (R53.Route53ResolverClient meta)
         (schema.Id d) t = (Returned (ruleAssociation, err), t1) →
       tfresource.NotFound err = true →
       R53.resourceRuleAssociationRead ctx d meta t =
         (Returned (schema.SetId d "", []), t1)) ∧
  ¬ (∀ d meta t backup err,
       rds.answerFind (rds.Package_ meta) t (rds.RDSConn meta) (schema.Id d) =
         (backup, err) →
       tfresource.NotFound err = true →
       rds.resourceInstanceAutomatedBackupReplicationRead d meta t =
         (Returned (schema.SetId d "", None), t ++ [findCall d meta])).
Proof.
  split.
  - intros H.
    specialize (H (Ex.clock 0) (Ex.data "rslvr-rrassoc-97242eec" true)
                  {| R53.Route53ResolverClient := Ex.client Ex.gone |} []
                  None _ _ eq_refl eq_refl).
    vm_compute in H. discriminate H.
  - intros H.
    specialize (H (ExRDS.data "arn:aws:rds:us-west-2:123456789012:auto-backup:ab-1" true)
                  (ExRDS.meta ExRDS.endpoint ExRDS.notFound) [] _ _ eq_refl eq_refl).
    vm_compute in H. discriminate H.
Qed.

(** C1, amended: when the lookup by ID reports the remote object as not
    found and the resource is not a new one, the read handler sets the
    resource ID to empty and returns without error; on a new resource it
    returns the lookup's error and leaves the state as it is.  On a
    successful lookup it copies the remote fields into the state verbatim
    (name, resolver_rule_id and vpc_id for the rule association;
    kms_key_id, retention_period and source_db_instance_arn for the backup
    replication), a nil field unsetting its key, and touches nothing else. *)
Theorem read_clears_absent_unless_new_and_copies :
  (∀ ctx d meta t ruleAssociation err t1,
     R53.findResolverRuleAssociationByID ctx (R53.Route53ResolverClient meta)
       (schema.Id d) t = (Returned (ruleAssociation, err), t1) →
     (tfresource.NotFound err = true → schema.IsNewResource d = false →
      R53.resourceRuleAssociationRead ctx d meta t =
        (Returned (schema.SetId d "", []), t1)) ∧
     (tfresource.NotFound err = true → schema.IsNewResource d = true →
      ∃ e, err = Some e ∧
           R53.resourceRuleAssociationRead ctx d meta t =
             (Returned (d, readDiag (schema.Id d) e), t1)) ∧
     (∀ o, ruleAssociation = Some o → err = None →
      ∃ d', R53.resourceRuleAssociationRead ctx d meta t = (Returned (d', []), t1) ∧
            schema.Id d' = schema.Id d ∧
            schema.attrs d' !! "name" = schema.VString <$> awstypes.Name o ∧
            schema.attrs d' !! "resolver_rule_id" =
              schema.VString <$> awstypes.ResolverRuleId o ∧
            schema.attrs d' !! "vpc_id" = schema.VString <$> awstypes.VPCId o ∧
            ∀ key, key ≠ "name" → key ≠ "resolver_rule_id" → key ≠ "vpc_id" →
                   schema.attrs d' !! key = schema.attrs d !! key)) ∧
  (∀ d meta t backup err,
     rds.answerFind (rds.Package_ meta) t (rds.RDSConn meta) (schema.Id d) =
       (backup, err) →
     (tfresource.NotFound err = true → schema.IsNewResource d = false →
      rds.resourceInstanceAutomatedBackupReplicationRead d meta t =
        (Returned (schema.SetId d "", None), t ++ [findCall d meta])) ∧
     (tfresource.NotFound err = true → schema.IsNewResource d = true →
      ∃ e, err = Some e ∧
           rds.resourceInstanceAutomatedBackupReplicationRead d meta t =
             (Returned (d, Some (WrapError
                "error reading RDS instance automated backup replication (%s): %w"
                [schema.Id d] e)), t ++ [findCall d meta])) ∧
     (∀ b, backup = Some b → err = None →
      ∃ d', rds.resourceInstanceAutomatedBackupReplicationRead d meta t =
              (Returned (d', None), t ++ [findCall d meta]) ∧
            schema.Id d' = schema.Id d ∧
            schema.attrs d' !! "kms_key_id" = schema.VString <$> rds.KmsKeyId b ∧
            schema.attrs d' !! "retention_period" =
              schema.VInt <$> rds.BackupRetentionPeriod b ∧
            schema.attrs d' !! "source_db_instance_arn" =
              schema.VString <$> rds.DBInstanceArn b ∧
            ∀ key, key ≠ "kms_key_id" → key ≠ "retention_period" →
                   key ≠ "source_db_instance_arn" →
                   schema.attrs d' !! key = schema.attrs d !! key)).
Proof.
  split.
  - intros ctx d meta t ra err t1 Hfind. split; [|split].
    + intros Hnf Hnew. eapply read_absent; eauto.
    + intros Hnf Hnew. destruct err as [e|]; [|discriminate Hnf].
      exists e. split; [reflexivity|]. eapply read_error; eauto.
    + intros o -> ->. eexists. split; [apply (read_found _ _ _ _ _ _ Hfind)|].
      unfold schema.SetString. split; [reflexivity|].
      split; [by rewrite 2!Set_lookup_ne, Set_lookup_eq by done|].
      split; [by rewrite Set_lookup_ne, Set_lookup_eq by done|].
      split; [by rewrite Set_lookup_eq|].
      intros key H1 H2 H3. by rewrite 3!Set_lookup_ne by done.
  - intros d meta t backup err Hfind. split; [|split].
    + intros Hnf Hnew. eapply rds_read_absent; eauto.
    + intros Hnf Hnew. destruct err as [e|]; [|discriminate Hnf].
      exists e. split; [reflexivity|]. eapply rds_read_error; eauto.
    + intros b -> ->. eexists. split; [apply (rds_read_found _ _ _ _ Hfind)|].
      unfold schema.SetString, schema.SetInt. split; [reflexivity|].
      split; [by rewrite 2!Set_lookup_ne, Set_lookup_eq by done|].
      split; [by rewrite Set_lookup_ne, Set_lookup_eq by done|].
      split; [by rewrite Set_lookup_eq|].
      intros key H1 H2 H3. by rewrite 3!Set_lookup_ne by done.
Qed.

Lemma read_clears_absent_unless_new_and_copies_witness :
  R53.resourceRuleAssociationRead (Ex.clock 0)
    (Ex.data "rslvr-rrassoc-97242eec" false)
    {| R53.Route53ResolverClient := Ex.client Ex.gone |} [] =
    (Returned (schema.SetId (Ex.data "rslvr-rrassoc-97242eec" false) "", []),
     [getCall "rslvr-rrassoc-97242eec"]) ∧
  (∃ d', R53.resourceRuleAssociationRead (Ex.clock 0)
           (Ex.data "rslvr-rrassoc-97242eec" false)
           {| R53.Route53ResolverClient := Ex.client (Ex.found "COMPLETE") |} [] =
           (Returned (d', []), [getCall "rslvr-rrassoc-97242eec"]) ∧
         schema.attrs d' !! "name" = Some (schema.VString "example") ∧
         schema.attrs d' !! "vpc_id" = Some (schema.VString "vpc-4d5e")) ∧
  rds.resourceInstanceAutomatedBackupReplicationRead
    (ExRDS.data "arn:aws:rds:us-west-2:123456789012:auto-backup:ab-1" false)
    (ExRDS.meta ExRDS.endpoint ExRDS.notFound) [] =
    (Returned
       (schema.SetId
          (ExRDS.data "arn:aws:rds:us-west-2:123456789012:auto-backup:ab-1" false) "",
        None),
     [rds.FindDBInstanceAutomatedBackupByARNCall "us-west-2"
        "arn:aws:rds:us-west-2:123456789012:auto-backup:ab-1"]) ∧
  (∃ d', rds.resourceInstanceAutomatedBackupReplicationRead
           (ExRDS.data "arn:aws:rds:us-west-2:123456789012:auto-backup:ab-1" true)
           (ExRDS.meta ExRDS.endpoint (Some ExRDS.backup, None)) [] =
           (Returned (d', None),
            [rds.FindDBInstanceAutomatedBackupByARNCall "us-west-2"
               "arn:aws:rds:us-west-2:123456789012:auto-backup:ab-1"]) ∧
         schema.attrs d' !! "retention_period" = Some (schema.VInt 14)).
Proof.
  destruct read_clears_absent_unless_new_and_copies as [Hassoc Hrepl].
  split; [|split; [|split]].
  - destruct (Hassoc (Ex.clock 0) (Ex.data "rslvr-rrassoc-97242eec" false)
                {| R53.Route53ResolverClient := Ex.client Ex.gone |} []
                None _ _ eq_refl) as (Habsent & _ & _).
    apply Habsent; reflexivity.
  - destruct (Hassoc (Ex.clock 0) (Ex.data "rslvr-rrassoc-97242eec" false)
                {| R53.Route53ResolverClient := Ex.client (Ex.found "COMPLETE") |} []
                _ _ _ eq_refl) as (_ & _ & Hfound).
    destruct (Hfound _ eq_refl eq_refl) as (d' & Hrun & _ & Hname & _ & Hvpc & _).
    exists d'. split; [exact Hrun|]. split; [exact Hname|exact Hvpc].
  - destruct (Hrepl (ExRDS.data "arn:aws:rds:us-west-2:123456789012:auto-backup:ab-1" false)
                (ExRDS.meta ExRDS.endpoint ExRDS.notFound) [] _ _ eq_refl)
      as (Habsent & _ & _).
    apply Habsent; reflexivity.
  - destruct (Hrepl (ExRDS.data "arn:aws:rds:us-west-2:123456789012:auto-backup:ab-1" true)
                (ExRDS.meta ExRDS.endpoint (Some ExRDS.backup, None)) [] _ _ eq_refl)
      as (_ & _ & Hfound).
    destruct (Hfound _ eq_refl eq_refl) as (d' & Hrun & _ & _ & Hret & _).
    exists d'. split; [exact Hrun|exact Hret].
Defined.

(** ** The lookup by ID *)

(** C9: [findResolverRuleAssociationByID] never returns a nil association
    together with a nil error: it returns either an association and no
    error, or no association and an error; a response that is nil or
    carries no association yields the empty-result error. *)
Theorem findResolverRuleAssociationByID_object_or_error :
  ∀ ctx conn id t,
    ((∃ ruleAssociation,
        R53.findResolverRuleAssociationByID ctx conn id t =
        (Returned (Some ruleAssociation, None), t ++ [getCall id])) ∨
     (∃ e,
        R53.findResolverRuleAssociationByID ctx conn id t =
        (Returned (None, Some e), t ++ [getCall id]))) ∧
    (∀ t1, R53.findResolverRuleAssociationByID ctx conn id t ≠
           (Returned (None, None), t1)) ∧
    (∀ output,
       R53.answerGetResolverRuleAssociation conn t (getInput id) = (output, None) →
       output ≫= route53resolver_sdk.gro_ResolverRuleAssociation = None →
       R53.findResolverRuleAssociationByID ctx conn id t =
       (Returned (None, Some (EmptyResultError (Some (getInput id)))),
        t ++ [getCall id])).
Proof.
  intros ctx conn id t. split; [apply find_cases|]. split.
  - intros t1 H.
    destruct (find_cases ctx conn id t) as [[o Hf]|[e Hf]];
      rewrite Hf in H; discriminate H.
  - intros output Hans Hnone. eapply find_empty; eauto.
Qed.

Lemma findResolverRuleAssociationByID_object_or_error_witness :
  R53.findResolverRuleAssociationByID (Ex.clock 0) (Ex.client (None, None))
    "rslvr-rrassoc-97242eec" [] =
    (Returned (None, Some (EmptyResultError (Some (getInput "rslvr-rrassoc-97242eec")))),
     [getCall "rslvr-rrassoc-97242eec"]) ∧
  R53.findResolverRuleAssociationByID (Ex.clock 0)
    (Ex.client
       (Some {| route53resolver_sdk.gro_ResolverRuleAssociation := None |}, None))
    "rslvr-rrassoc-97242eec" [] =
    (Returned (None, Some (EmptyResultError (Some (getInput "rslvr-rrassoc-97242eec")))),
     [getCall "rslvr-rrassoc-97242eec"]).
Proof.
  split.
  - apply (findResolverRuleAssociationByID_object_or_error (Ex.clock 0)
             (Ex.client (None, None)) "rslvr-rrassoc-97242eec" [])
      with (output := None); reflexivity.
  - apply (findResolverRuleAssociationByID_object_or_error (Ex.clock 0)
             (Ex.client
                (Some {| route53resolver_sdk.gro_ResolverRuleAssociation := None |}, None))
             "rslvr-rrassoc-97242eec" [])
      with (output := Some {| route53resolver_sdk.gro_ResolverRuleAssociation := None |});
      reflexivity.
Defined.

(** C4, as the spec words it, fails in its last part: the read path does
    not always treat the sentinel as "already absent".  On a resource that
    is being created, a resource-not-found fault of the SDK comes back from
    the read handler as an error, and the ID stays. *)
Lemma read_reports_sentinel_on_new_resource :
  ¬ (∀ ctx d meta t output err,
       R53.answerGetResolverRuleAssociation (R53.Route53ResolverClient meta) t
         (getInput (schema.Id d)) = (output, err) →
       errs.IsA_ResourceNotFoundException err = true →
       R53.resourceRuleAssociationRead ctx d meta t =
         (Returned (schema.SetId d "", []), t ++ [getCall (schema.Id d)])).
Proof.
  intros H.
  specialize (H (Ex.clock 3) (Ex.data "rslvr-rrassoc-0f1e2d3c" true)
                {| R53.Route53ResolverClient := Ex.client Ex.gone |}
                [getCall "rslvr-rrassoc-0f1e2d3c"] _ _ eq_refl eq_refl).
  vm_compute in H. discriminate H.
Qed.

(** C4, amended: when the SDK reports a resource-not-found fault, the
    lookup returns the framework's not-found sentinel carrying that error
    and the request; every other SDK error is passed through unchanged.
    The sentinel is treated as "already absent" by the read path when the
    resource is not a new one (the ID is cleared, no error), and by the
    delete path, whose status refresh turns it into the absent shape, on
    which the delete wait ends with success. *)
Theorem findResolverRuleAssociationByID_not_found_sentinel :
  ∀ ctx conn id t output err,
    R53.answerGetResolverRuleAssociation conn t (getInput id) = (output, err) →
    (errs.IsA_ResourceNotFoundException err = true →
       R53.findResolverRuleAssociationByID ctx conn id t =
         (Returned (None, Some (NotFoundError err (Some (getInput id)) O)),
          t ++ [getCall id]) ∧
       tfresource.NotFound (Some (NotFoundError err (Some (getInput id)) O)) = true ∧
       (∀ d meta,
          R53.Route53ResolverClient meta = conn → schema.Id d = id →
          schema.IsNewResource d = false →
          R53.resourceRuleAssociationRead ctx d meta t =
            (Returned (schema.SetId d "", []), t ++ [getCall id])) ∧
       R53.statusRuleAssociation ctx conn id t =
         (Returned (None, "", None), t ++ [getCall id]) ∧
       (∀ timeout,
          (0 < context.refreshes_within ctx t timeout
                 (10 * time.Second)%Z (5 * time.Second)%Z)%nat →
          R53.waitRuleAssociationDeleted ctx conn id timeout t =
            (Returned (None, None), t ++ [getCall id]))) ∧
    (∀ e, err = Some e → errs.IsA_ResourceNotFoundException err = false →
       R53.findResolverRuleAssociationByID ctx conn id t =
         (Returned (None, Some e), t ++ [getCall id])).
Proof.
  intros ctx conn id t output err Hans. split.
  - intros Hfault.
    pose proof (find_not_found ctx conn id t output err Hans Hfault) as Hfind.
    pose proof (status_absent ctx conn id t _ Hfind (NotFound_sentinel _ _ _)) as Hstatus.
    split; [exact Hfind|]. split; [reflexivity|]. split; [|split].
    + intros d meta <- <- Hnew.
      eapply read_absent; [exact Hfind|reflexivity|exact Hnew].
    + exact Hstatus.
    + intros timeout Hfuel. apply waitDeleted_absent; assumption.
  - intros e -> Hother. eapply find_error; eauto.
Qed.

Lemma findResolverRuleAssociationByID_not_found_sentinel_witness :
  R53.findResolverRuleAssociationByID (Ex.clock 1) (Ex.client Ex.gone)
    "rslvr-rrassoc-97242eec" [] =
    (Returned
       (None,
        Some (NotFoundError (Some (ResourceNotFoundException "association not found"))
                (Some (getInput "rslvr-rrassoc-97242eec")) O)),
     [getCall "rslvr-rrassoc-97242eec"]) ∧
  R53.resourceRuleAssociationRead (Ex.clock 1) (Ex.data "rslvr-rrassoc-97242eec" false)
    {| R53.Route53ResolverClient := Ex.client Ex.gone |} [] =
    (Returned (schema.SetId (Ex.data "rslvr-rrassoc-97242eec" false) "", []),
     [getCall "rslvr-rrassoc-97242eec"]) ∧
  R53.waitRuleAssociationDeleted (Ex.clock 1) (Ex.client Ex.gone)
    "rslvr-rrassoc-97242eec" (10 * time.Minute) [] =
    (Returned (None, None), [getCall "rslvr-rrassoc-97242eec"]) ∧
  R53.findResolverRuleAssociationByID (Ex.clock 1) (Ex.client Ex.throttled)
    "rslvr-rrassoc-97242eec" [] =
    (Returned (None, Some (APIError "ThrottlingException" "rate exceeded")),
     [getCall "rslvr-rrassoc-97242eec"]).
Proof.
  destruct (findResolverRuleAssociationByID_not_found_sentinel (Ex.clock 1)
              (Ex.client Ex.gone) "rslvr-rrassoc-97242eec" [] _ _ eq_refl)
    as [Hfault _].
  destruct (Hfault eq_refl) as (Hfind & _ & Hread & _ & Hwait).
  destruct (findResolverRuleAssociationByID_not_found_sentinel (Ex.clock 1)
              (Ex.client Ex.throttled) "rslvr-rrassoc-97242eec" [] _ _ eq_refl)
    as [_ Hother].
  split; [exact Hfind|]. split; [|split].
  - apply (Hread (Ex.data "rslvr-rrassoc-97242eec" false)
             {| R53.Route53ResolverClient := Ex.client Ex.gone |}); reflexivity.
  - apply Hwait. simpl. lia.
  - apply (Hother (APIError "ThrottlingException" "rate exceeded")); reflexivity.
Defined.

(** ** The status refresh *)

(** C6: every run of the status refresh makes the one lookup and returns
    exactly one of three shapes: the association, its status string and no
    error when the lookup succeeds; nil, the empty status and no error when
    the lookup reports not found; nil, the empty status and the error when
    the lookup fails in any other way. *)
Theorem statusRuleAssociation_three_shapes :
  ∀ ctx conn id t,
    ((∃ o,
        R53.findResolverRuleAssociationByID ctx conn id t =
          (Returned (Some o, None), t ++ [getCall id]) ∧
        R53.statusRuleAssociation ctx conn id t =
          (Returned (Some o, awstypes.Status o, None), t ++ [getCall id])) ∨
     (∃ e,
        R53.findResolverRuleAssociationByID ctx conn id t =
          (Returned (None, Some e), t ++ [getCall id]) ∧
        tfresource.NotFound (Some e) = true ∧
        R53.statusRuleAssociation ctx conn id t =
          (Returned (None, "", None), t ++ [getCall id])) ∨
     (∃ e,
        R53.findResolverRuleAssociationByID ctx conn id t =
          (Returned (None, Some e), t ++ [getCall id]) ∧
        tfresource.NotFound (Some e) = false ∧
        R53.statusRuleAssociation ctx conn id t =
          (Returned (None, "", Some e), t ++ [getCall id]))) ∧
    (∃ r,
       R53.statusRuleAssociation ctx conn id t = (Returned r, t ++ [getCall id]) ∧
       ((refreshedObject r = true ∧ refreshedAbsent r = false ∧ refreshedError r = false) ∨
        (refreshedObject r = false ∧ refreshedAbsent r = true ∧ refreshedError r = false) ∨
        (refreshedObject r = false ∧ refreshedAbsent r = false ∧ refreshedError r = true))).
Proof.
  intros ctx conn id t. split; [apply status_cases|].
  destruct (status_cases ctx conn id t)
    as [(o & _ & Hs)|[(e & _ & _ & Hs)|(e & _ & _ & Hs)]];
    eexists; (split; [exact Hs|]).
  - left. simpl. rewrite String.eqb_refl. auto.
  - right; left. auto.
  - right; right. auto.
Qed.

(** ** Delete *)

(** C2: the delete handlers tolerate a not-found condition as success.
    When the teardown call of the rule association reports the
    resource-not-found fault, and when the lookup by ARN that precedes the
    teardown of the backup replication reports not found, the handler
    returns without error, leaves the state as it is and makes no further
    call: the history ends with that one call. *)
Theorem delete_tolerates_not_found :
  (∀ ctx d meta t out err,
     R53.answerDisassociateResolverRule (R53.Route53ResolverClient meta) t
       (disassociateRequest d) = (out, err) →
     errs.IsA_ResourceNotFoundException err = true →
     R53.resourceRuleAssociationDelete ctx d meta t =
       (Returned (d, []), t ++ [disassociateCall d])) ∧
  (∀ d meta t backup err,
     rds.answerFind (rds.Package_ meta) t (rds.RDSConn meta) (schema.Id d) =
       (backup, err) →
     tfresource.NotFound err = true →
     rds.resourceInstanceAutomatedBackupReplicationDelete d meta t =
       (Returned (d, None), t ++ [findCall d meta])).
Proof.
  split.
  - intros ctx d meta t out err Hans Hnf. eapply delete_not_found; eauto.
  - intros d meta t backup err Hfind Hnf. eapply rds_delete_not_found; eauto.
Qed.

Lemma delete_tolerates_not_found_witness :
  R53.resourceRuleAssociationDelete (Ex.clock 4) (Ex.data "rslvr-rrassoc-97242eec" false)
    {| R53.Route53ResolverClient :=
         Ex.failing (ResourceNotFoundException "association not found") |} [] =
    (Returned (Ex.data "rslvr-rrassoc-97242eec" false, []),
     [R53.DisassociateResolverRuleCall
        {| route53resolver_sdk.dri_ResolverRuleId := Some "rslvr-rr-0123";
           route53resolver_sdk.dri_VPCId := Some "vpc-4d5e" |}]) ∧
  rds.resourceInstanceAutomatedBackupReplicationDelete
    (ExRDS.data "arn:aws:rds:us-west-2:123456789012:auto-backup:ab-1" false)
    (ExRDS.meta ExRDS.endpoint ExRDS.notFound) [] =
    (Returned (ExRDS.data "arn:aws:rds:us-west-2:123456789012:auto-backup:ab-1" false,
               None),
     [rds.FindDBInstanceAutomatedBackupByARNCall "us-west-2"
        "arn:aws:rds:us-west-2:123456789012:auto-backup:ab-1"]).
Proof.
  destruct delete_tolerates_not_found as [Hassoc Hrepl]. split.
  - apply (Hassoc (Ex.clock 4) (Ex.data "rslvr-rrassoc-97242eec" false)
             {| R53.Route53ResolverClient :=
                  Ex.failing (ResourceNotFoundException "association not found") |} []
             None (Some (ResourceNotFoundException "association not found")));
      reflexivity.
  - apply (Hrepl (ExRDS.data "arn:aws:rds:us-west-2:123456789012:auto-backup:ab-1" false)
             (ExRDS.meta ExRDS.endpoint ExRDS.notFound) []
             (fst ExRDS.notFound) (snd ExRDS.notFound)); reflexivity.
Defined.

(** C10: once the lookup, the parsing of the source ARN and the stop call
    have succeeded, the delete handler of the backup replication waits for
    the deletion with the create timeout of the resource
    ([d.Timeout(schema.TimeoutCreate)]), and it waits on a new client
    connected to the region of the source database when that region is not
    the one of the provider's client, and on the provider's client
    otherwise. *)
Theorem replication_delete_waits_with_create_timeout :
  ∀ d meta t b source out res err,
    rds.answerFind (rds.Package_ meta) t (rds.RDSConn meta) (schema.Id d) =
      (Some b, None) →
    arn.Parse (aws.StringValue (rds.DBInstanceArn b)) = (source, None) →
    rds.answerStop (rds.connEndpoint (rds.RDSConn meta)) (t ++ [findCall d meta])
      (stopRequest d) = (out, None) →
    rds.answerWaitDeleted (rds.Package_ meta) (t ++ [findCall d meta; stopCall d meta])
      (sourceDatabaseConn meta (arn.Region source))
      (aws.StringValue (rds.DBInstanceIdentifier b)) (schema.Id d)
      (schema.Timeout d schema.TimeoutCreate) = (res, err) →
    rds.resourceInstanceAutomatedBackupReplicationDelete d meta t =
      (Returned
         (d, match err with
             | Some e =>
                 Some (WrapError
                         "error waiting for DB instance automated backup (%s) delete: %w"
                         [schema.Id d] e)
             | None => None
             end),
       t ++ [findCall d meta; stopCall d meta;
             rds.waitDBInstanceAutomatedBackupDeletedCall
               (rds.connRegion (sourceDatabaseConn meta (arn.Region source)))
               (aws.StringValue (rds.DBInstanceIdentifier b)) (schema.Id d)
               (schema.Timeout d schema.TimeoutCreate)]) ∧
    (arn.Region source ≠ rds.Region meta →
       sourceDatabaseConn meta (arn.Region source) =
         rds.New (rds.Session_ meta) (arn.Region source) ∧
       rds.connRegion (sourceDatabaseConn meta (arn.Region source)) = arn.Region source) ∧
    (arn.Region source = rds.Region meta →
       sourceDatabaseConn meta (arn.Region source) = rds.RDSConn meta).
Proof.
  intros d meta t b source out res err Hfind Hparse Hstop Hwait.
  split; [eapply rds_delete_waits; eauto|]. split.
  - intros Hne. unfold sourceDatabaseConn. by rewrite decide_False.
  - intros Heq. unfold sourceDatabaseConn. by rewrite decide_True.
Qed.

Lemma replication_delete_waits_with_create_timeout_witness :
  rds.resourceInstanceAutomatedBackupReplicationDelete
    (ExRDS.data "arn:aws:rds:us-west-2:123456789012:auto-backup:ab-1" false)
    (ExRDS.meta ExRDS.endpoint (Some ExRDS.backup, None)) [] =
    (Returned (ExRDS.data "arn:aws:rds:us-west-2:123456789012:auto-backup:ab-1" false,
               None),
     [rds.FindDBInstanceAutomatedBackupByARNCall "us-west-2"
        "arn:aws:rds:us-west-2:123456789012:auto-backup:ab-1";
      rds.StopDBInstanceAutomatedBackupsReplicationCall "us-west-2"
        {| rds.stop_SourceDBInstanceArn :=
             Some "arn:aws:rds:us-east-1:123456789012:db:orders" |};
      rds.waitDBInstanceAutomatedBackupDeletedCall "us-east-1" "orders"
        "arn:aws:rds:us-west-2:123456789012:auto-backup:ab-1" (1 * time.Minute)]) ∧
  schema.Timeout
    (ExRDS.data "arn:aws:rds:us-west-2:123456789012:auto-backup:ab-1" false)
    schema.TimeoutDelete = 2 * time.Minute.
Proof.
  split; [|reflexivity].
  apply (replication_delete_waits_with_create_timeout
           (ExRDS.data "arn:aws:rds:us-west-2:123456789012:auto-backup:ab-1" false)
           (ExRDS.meta ExRDS.endpoint (Some ExRDS.backup, None)) []
           ExRDS.backup
           {| arn.Partition := "aws"; arn.Service := "rds"; arn.Region := "us-east-1";
              arn.AccountID := "123456789012"; arn.Resource := "db:orders" |}
           (Some {| rds.stop_DBInstanceAutomatedBackup := Some ExRDS.backup |})
           None None); reflexivity.
Defined.

(** ** Create *)

(** C8: when the create call of the SDK fails, the create handler returns
    the error wrapped with its static message, does not set the resource
    ID and leaves the state as it was; nothing follows the failed call. *)
Theorem create_failure_leaves_state :
  (∀ ctx d meta t out e,
     R53.answerAssociateResolverRule (R53.Route53ResolverClient meta) t
       (associateRequest d) = (out, Some e) →
     R53.resourceRuleAssociationCreate ctx d meta t =
       (Returned (d, [diag.ErrorDiagnostic
                        "creating Route53 Resolver Rule Association: %s" [] e]),
        t ++ [associateCall d])) ∧
  (∀ d meta t out e,
     rds.answerStart (rds.connEndpoint (rds.RDSConn meta)) t (startRequest d) =
       (out, Some e) →
     rds.resourceInstanceAutomatedBackupReplicationCreate d meta t =
       (Returned (d, Some (WrapError
                             "error starting RDS instance automated backup replication: %w"
                             [] e)),
        t ++ [startCall d meta])).
Proof.
  split.
  - intros ctx d meta t out e Hans. eapply create_failed; eauto.
  - intros d meta t out e Hans. eapply rds_create_failed; eauto.
Qed.

Lemma create_failure_leaves_state_witness :
  R53.resourceRuleAssociationCreate (Ex.clock 4) (Ex.data "" true)
    {| R53.Route53ResolverClient :=
         Ex.failing (APIError "InvalidRequestException" "rule and VPC differ in region") |}
    [] =
    (Returned (Ex.data "" true,
               [diag.ErrorDiagnostic "creating Route53 Resolver Rule Association: %s" []
                  (APIError "InvalidRequestException" "rule and VPC differ in region")]),
     [associateCall (Ex.data "" true)]) ∧
  rds.resourceInstanceAutomatedBackupReplicationCreate (ExRDS.data "" true)
    (ExRDS.meta (ExRDS.failingEndpoint (APIError "KMSKeyNotAccessibleFault" "no access"))
       ExRDS.notFound) [] =
    (Returned (ExRDS.data "" true,
               Some (WrapError
                       "error starting RDS instance automated backup replication: %w" []
                       (APIError "KMSKeyNotAccessibleFault" "no access"))),
     [startCall (ExRDS.data "" true)
        (ExRDS.meta (ExRDS.failingEndpoint (APIError "KMSKeyNotAccessibleFault" "no access"))
           ExRDS.notFound)]).
Proof.
  destruct create_failure_leaves_state as [Hassoc Hrepl]. split.
  - apply (Hassoc (Ex.clock 4) (Ex.data "" true)
             {| R53.Route53ResolverClient :=
                  Ex.failing (APIError "InvalidRequestException"
                                "rule and VPC differ in region") |} [] None).
    reflexivity.
  - apply (Hrepl (ExRDS.data "" true)
             (ExRDS.meta
                (ExRDS.failingEndpoint (APIError "KMSKeyNotAccessibleFault" "no access"))
                ExRDS.notFound) [] None).
    reflexivity.
Defined.

(** ** The waiters *)

(** C5, as the spec words it, fails: a wait that ends in error while the
    last refresh produced a rule association does not always refer to the
    status message of that association.  When the poll times out the
    poller hands back no object, so the waiter has no status message to
    attach: the timeout error comes back as the poller made it. *)
Lemma wait_timeout_lacks_status_message :
  ¬ (∀ ctx conn id timeout t res e t1 out o,
       R53.waitRuleAssociationCreated ctx conn id timeout t =
         (Returned (res, Some e), t1 ++ [getCall id]) →
       R53.answerGetResolverRuleAssociation conn t1 (getInput id) = (Some out, None) →
       route53resolver_sdk.gro_ResolverRuleAssociation out = Some o →
       errors.Unwrap e = Some (errors.New (aws.ToString (awstypes.StatusMessage o)))).
Proof.
  intros H.
  specialize (H (Ex.clock 2) (Ex.client (Ex.found "CREATING")) "rslvr-rrassoc-97242eec"
                (10 * time.Minute) [] None
                (TimeoutError None "CREATING" (10 * time.Minute) ["COMPLETE"])
                [getCall "rslvr-rrassoc-97242eec"] _ _ eq_refl eq_refl eq_refl).
  discriminate H.
Qed.

(** C5, amended: when a create or delete wait ends in an error and the
    poller hands back the rule association with it (as it does for an
    unexpected status), the waiter attaches the status message of that
    association to the returned error through [SetLastError], and the error
    refers to it.  When the poller hands back no object the error is
    returned as it is; this is the case of a wait that is cut off while the
    association stays in its pending status: a polling timeout comes back
    as the timeout error of the poller, without an object and without a
    status message, and a cancelled context as the error of the context. *)
Theorem waiter_attaches_status_message_when_object_returned :
  ∀ ctx conn id timeout t,
    (∀ o e t',
       R53.waitRuleAssociationCreated ctx conn id timeout t =
         (Returned (Some o, Some e), t') →
       errors.Unwrap e = Some (errors.New (aws.ToString (awstypes.StatusMessage o)))) ∧
    (∀ o e t',
       R53.waitRuleAssociationDeleted ctx conn id timeout t =
         (Returned (Some o, Some e), t') →
       errors.Unwrap e = Some (errors.New (aws.ToString (awstypes.StatusMessage o)))) ∧
    (∀ res err t',
       retry.WaitForStateContext ctx (createdConf ctx conn id timeout) t =
         (Returned (res, err), t') →
       R53.waitRuleAssociationCreated ctx conn id timeout t =
         (Returned
            (res,
             match res with
             | Some output =>
                 tfresource.SetLastError err
                   (errors.New (aws.ToString (awstypes.StatusMessage output)))
             | None => err
             end), t')) ∧
    (∀ res err t',
       retry.WaitForStateContext ctx (deletedConf ctx conn id timeout) t =
         (Returned (res, err), t') →
       R53.waitRuleAssociationDeleted ctx conn id timeout t =
         (Returned
            (res,
             match res with
             | Some output =>
                 tfresource.SetLastError err
                   (errors.New (aws.ToString (awstypes.StatusMessage output)))
             | None => err
             end), t')) ∧
    (∀ fuel,
       context.refreshes_within ctx t timeout (10 * time.Second) (5 * time.Second) = fuel →
       (∀ t', ∃ out o,
          R53.answerGetResolverRuleAssociation conn t' (getInput id) = (Some out, None) ∧
          route53resolver_sdk.gro_ResolverRuleAssociation out = Some o ∧
          awstypes.Status o = "CREATING") →
       R53.waitRuleAssociationCreated ctx conn id timeout t =
         match context.cutoff ctx (t ++ replicate fuel (getCall id)) timeout
                 (10 * time.Second) (5 * time.Second) with
         | context.Cancelled e =>
             (Returned (None, Some e), t ++ replicate fuel (getCall id))
         | context.TimedOut false =>
             (Returned
                (None,
                 Some (TimeoutError None
                         (match fuel with O => "" | S _ => "CREATING" end)
                         timeout ["COMPLETE"])),
              t ++ replicate fuel (getCall id))
         | context.TimedOut true =>
             (Returned
                (None, Some (TimeoutError None "CREATING" timeout ["COMPLETE"])),
              t ++ replicate (S fuel) (getCall id))
         end) ∧
    (∀ fuel,
       context.refreshes_within ctx t timeout (10 * time.Second) (5 * time.Second) = fuel →
       (∀ t', ∃ out o,
          R53.answerGetResolverRuleAssociation conn t' (getInput id) = (Some out, None) ∧
          route53resolver_sdk.gro_ResolverRuleAssociation out = Some o ∧
          awstypes.Status o = "DELETING") →
       R53.waitRuleAssociationDeleted ctx conn id timeout t =
         match context.cutoff ctx (t ++ replicate fuel (getCall id)) timeout
                 (10 * time.Second) (5 * time.Second) with
         | context.Cancelled e =>
             (Returned (None, Some e), t ++ replicate fuel (getCall id))
         | context.TimedOut false =>
             (Returned
                (None,
                 Some (TimeoutError None
                         (match fuel with O => "" | S _ => "DELETING" end)
                         timeout [])),
              t ++ replicate fuel (getCall id))
         | context.TimedOut true =>
             (Returned (None, Some (TimeoutError None "DELETING" timeout [])),
              t ++ replicate (S fuel) (getCall id))
         end).
Proof.
  intros ctx conn id timeout t. repeat split.
  - intros o e t' Hwait.
    destruct (waitCreated_spec ctx conn id timeout t)
      as (res & err & n & Hrun & _ & _ & Herr).
    rewrite Hrun in Hwait. injection Hwait as -> -> _. by apply Herr.
  - intros o e t' Hwait.
    destruct (waitDeleted_spec ctx conn id timeout t)
      as (res & err & n & Hrun & _ & _ & Herr).
    rewrite Hrun in Hwait. injection Hwait as -> -> _. by apply Herr.
  - intros [output|] err t' Hpoll.
    + by apply waitCreated_with_object.
    + by apply waitCreated_without_object.
  - intros [output|] err t' Hpoll.
    + by apply waitDeleted_with_object.
    + by apply waitDeleted_without_object.
  - intros fuel Hfuel Hpending.
    pose proof (refreshLoop_pending ctx conn id (createdConf ctx conn id timeout)
                  "CREATING" eq_refl eq_refl eq_refl Hpending 20%nat fuel O
                  {| retry.Result_ := None; retry.State := ""; retry.Error := None |}
                  t eq_refl) as Hloop.
    change (retry.Timeout (createdConf ctx conn id timeout)) with timeout in Hloop.
    change (retry.Delay (createdConf ctx conn id timeout)) with (10 * time.Second)
      in Hloop.
    change (retry.MinTimeout (createdConf ctx conn id timeout)) with (5 * time.Second)
      in Hloop.
    destruct (context.cutoff ctx _ _ _ _) as [e|[|]];
      apply waitCreated_without_object; unfold retry.WaitForStateContext;
      change (context.refreshes_within ctx t _ _ _) with
        (context.refreshes_within ctx t timeout (10 * time.Second) (5 * time.Second));
      rewrite Hfuel; exact Hloop.
  - intros fuel Hfuel Hpending.
    pose proof (refreshLoop_pending ctx conn id (deletedConf ctx conn id timeout)
                  "DELETING" eq_refl eq_refl eq_refl Hpending 20%nat fuel O
                  {| retry.Result_ := None; retry.State := ""; retry.Error := None |}
                  t eq_refl) as Hloop.
    change (retry.Timeout (deletedConf ctx conn id timeout)) with timeout in Hloop.
    change (retry.Delay (deletedConf ctx conn id timeout)) with (10 * time.Second)
      in Hloop.
    change (retry.MinTimeout (deletedConf ctx conn id timeout)) with (5 * time.Second)
      in Hloop.
    destruct (context.cutoff ctx _ _ _ _) as [e|[|]];
      apply waitDeleted_without_object; unfold retry.WaitForStateContext;
      change (context.refreshes_within ctx t _ _ _) with
        (context.refreshes_within ctx t timeout (10 * time.Second) (5 * time.Second));
      rewrite Hfuel; exact Hloop.
Qed.

Lemma waiter_attaches_status_message_when_object_returned_witness :
  errors.Unwrap (UnexpectedStateError (Some (ErrorString "status message")) "FAILED"
                   ["COMPLETE"]) =
    Some (errors.New "status message") ∧
  R53.waitRuleAssociationCreated (Ex.clock 3) (Ex.client (Ex.found "CREATING"))
    "rslvr-rrassoc-97242eec" (10 * time.Minute) [] =
    (Returned (None, Some (TimeoutError None "CREATING" (10 * time.Minute) ["COMPLETE"])),
     replicate 3 (getCall "rslvr-rrassoc-97242eec")) ∧
  R53.waitRuleAssociationCreated (Ex.cancelling 1) (Ex.client (Ex.found "CREATING"))
    "rslvr-rrassoc-97242eec" (10 * time.Minute) [] =
    (Returned (None, Some (ErrorString "context canceled")),
     [getCall "rslvr-rrassoc-97242eec"]) ∧
  R53.waitRuleAssociationDeleted (Ex.lateClock 1) (Ex.client (Ex.found "DELETING"))
    "rslvr-rrassoc-97242eec" (10 * time.Minute) [] =
    (Returned (None, Some (TimeoutError None "DELETING" (10 * time.Minute) [])),
     replicate 2 (getCall "rslvr-rrassoc-97242eec")).
Proof.
  destruct (waiter_attaches_status_message_when_object_returned (Ex.clock 3)
              (Ex.client (Ex.found "FAILED")) "rslvr-rrassoc-97242eec"
              (10 * time.Minute) []) as (Hobject & _).
  destruct (waiter_attaches_status_message_when_object_returned (Ex.clock 3)
              (Ex.client (Ex.found "CREATING")) "rslvr-rrassoc-97242eec"
              (10 * time.Minute) []) as (_ & _ & _ & _ & Htimeout & _).
  destruct (waiter_attaches_status_message_when_object_returned (Ex.cancelling 1)
              (Ex.client (Ex.found "CREATING")) "rslvr-rrassoc-97242eec"
              (10 * time.Minute) []) as (_ & _ & _ & _ & Hcancel & _).
  destruct (waiter_attaches_status_message_when_object_returned (Ex.lateClock 1)
              (Ex.client (Ex.found "DELETING")) "rslvr-rrassoc-97242eec"
              (10 * time.Minute) []) as (_ & _ & _ & _ & _ & Hlate).
  split; [|split; [|split]].
  - apply (Hobject (Ex.association "FAILED") _ [getCall "rslvr-rrassoc-97242eec"]).
    reflexivity.
  - apply (Htimeout 3%nat); [reflexivity|].
    intros t'. exists {| route53resolver_sdk.gro_ResolverRuleAssociation :=
                           Some (Ex.association "CREATING") |}, (Ex.association "CREATING").
    repeat split.
  - apply (Hcancel 1%nat); [reflexivity|].
    intros t'. exists {| route53resolver_sdk.gro_ResolverRuleAssociation :=
                           Some (Ex.association "CREATING") |}, (Ex.association "CREATING").
    repeat split.
  - apply (Hlate 1%nat); [reflexivity|].
    intros t'. exists {| route53resolver_sdk.gro_ResolverRuleAssociation :=
                           Some (Ex.association "DELETING") |}, (Ex.association "DELETING").
    repeat split.
Defined.

(** ** Create and wait *)

(** X10: every create builds the request from the configuration (the
    optional [name], resp. [kms_key_id], only when it is set) and issues
    exactly one create call with it.  When that call succeeds with an
    object, the handler stores the identifier it returned (the association
    ID, resp. the backup ARN) as the resource ID and then waits.  The rule
    association waits on the generic poller, with pending status CREATING,
    target status COMPLETE, a delay of 10s, a minimal interval of 5s and
    the create timeout of the resource; a wait that succeeds has observed
    the status COMPLETE, and the handler goes on to read the resource under
    the stored ID.  The backup replication hands the stored ARN and the
    create timeout to the create waiter of its package, which is not in the
    source file, and reads the resource when that waiter succeeds.  A wait
    that fails is reported with the ID stored. *)
Theorem create_requests_once_stores_id_and_waits :
  (∀ ctx d meta t,
     (∃ r es,
        R53.resourceRuleAssociationCreate ctx d meta t =
          (r, t ++ R53.AssociateResolverRuleCall (associateRequest d) :: es) ∧
        count is_AssociateResolverRuleCall es = O) ∧
     (∀ out ruleAssociation,
        R53.answerAssociateResolverRule (R53.Route53ResolverClient meta) t
          (associateRequest d) = (out, None) →
        out ≫= route53resolver_sdk.aro_ResolverRuleAssociation = Some ruleAssociation →
        ∃ res err n,
          retry.WaitForStateContext ctx
            {| retry.Pending := ["CREATING"];
               retry.Target := ["COMPLETE"];
               retry.Refresh :=
                 R53.statusRuleAssociation ctx (R53.Route53ResolverClient meta)
                   (aws.ToString (awstypes.Id ruleAssociation));
               retry.Timeout := schema.Timeout d schema.TimeoutCreate;
               retry.Delay := 10 * time.Second;
               retry.MinTimeout := 5 * time.Second;
               retry.NotFoundChecks := O |}
            (t ++ [associateCall d]) =
            (Returned (res, err),
             (t ++ [associateCall d]) ++
             replicate n (getCall (aws.ToString (awstypes.Id ruleAssociation)))) ∧
          match err with
          | Some _ =>
              ∃ e,
                R53.resourceRuleAssociationCreate ctx d meta t =
                  (Returned
                     (schema.SetId d (aws.ToString (awstypes.Id ruleAssociation)),
                      [diag.ErrorDiagnostic
                         "waiting for Route53 Resolver Rule Association (%s) create: %s"
                         [aws.ToString (awstypes.Id ruleAssociation)] e]),
                   (t ++ [associateCall d]) ++
                   replicate n (getCall (aws.ToString (awstypes.Id ruleAssociation))))
          | None =>
              (∃ o, res = Some o ∧ awstypes.Status o = "COMPLETE") ∧
              R53.resourceRuleAssociationCreate ctx d meta t =
                R53.resourceRuleAssociationRead ctx
                  (schema.SetId d (aws.ToString (awstypes.Id ruleAssociation))) meta
                  ((t ++ [associateCall d]) ++
                   replicate n (getCall (aws.ToString (awstypes.Id ruleAssociation))))
          end)) ∧
  (∀ d meta t,
     (∃ r es,
        rds.resourceInstanceAutomatedBackupReplicationCreate d meta t =
          (r, t ++ rds.StartDBInstanceAutomatedBackupsReplicationCall
                     (rds.connRegion (rds.RDSConn meta)) (startRequest d) :: es) ∧
        count is_StartCall es = O) ∧
     (∀ out b res err,
        rds.answerStart (rds.connEndpoint (rds.RDSConn meta)) t (startRequest d) =
          (out, None) →
        out ≫= rds.start_DBInstanceAutomatedBackup = Some b →
        rds.answerWaitCreated (rds.Package_ meta) (t ++ [startCall d meta])
          (rds.RDSConn meta) (aws.StringValue (rds.DBInstanceAutomatedBackupsArn b))
          (schema.Timeout d schema.TimeoutCreate) = (res, err) →
        match err with
        | Some e =>
            rds.resourceInstanceAutomatedBackupReplicationCreate d meta t =
              (Returned
                 (schema.SetId d (aws.StringValue (rds.DBInstanceAutomatedBackupsArn b)),
                  Some (WrapError
                          "error waiting for DB instance automated backup (%s) create: %w"
                          [aws.StringValue (rds.DBInstanceAutomatedBackupsArn b)] e)),
               t ++ [startCall d meta;
                     rds.waitDBInstanceAutomatedBackupCreatedCall
                       (rds.connRegion (rds.RDSConn meta))
                       (aws.StringValue (rds.DBInstanceAutomatedBackupsArn b))
                       (schema.Timeout d schema.TimeoutCreate)])
        | None =>
            rds.resourceInstanceAutomatedBackupReplicationCreate d meta t =
              rds.resourceInstanceAutomatedBackupReplicationRead
                (schema.SetId d (aws.StringValue (rds.DBInstanceAutomatedBackupsArn b)))
                meta
                (t ++ [startCall d meta;
                       rds.waitDBInstanceAutomatedBackupCreatedCall
                         (rds.connRegion (rds.RDSConn meta))
                         (aws.StringValue (rds.DBInstanceAutomatedBackupsArn b))
                         (schema.Timeout d schema.TimeoutCreate)])
        end)).
Proof.
  split.
  - intros ctx d meta t. split.
    + destruct (create_history ctx d meta t) as (r & id & n & tail & Hrun & _ & Htail).
      exists r, (replicate n (getCall id) ++ tail). split; [exact Hrun|].
      rewrite count_app, count_replicate_getCall by reflexivity.
      destruct Htail as [-> | ->]; reflexivity.
    + intros out ra Hans Hout.
      set (id := aws.ToString (awstypes.Id ra)).
      set (conf := {| retry.Pending := ["CREATING"]; retry.Target := _ |}).
      destruct (WaitForStateContext_spec ctx (R53.Route53ResolverClient meta) id
                  (t ++ [associateCall d]) conf eq_refl)
        as (res & err & n & Hpoll & _ & Hok & _).
      exists res, err, n. split; [exact Hpoll|].
      destruct err as [e|].
      * destruct res as [o|].
        -- destruct (SetLastError_some e
                         (errors.New (aws.ToString (awstypes.StatusMessage o))))
             as [e' He'].
           exists e'. eapply create_wait_failed; [exact Hans|exact Hout|].
           rewrite <- He'. apply waitCreated_with_object. exact Hpoll.
        -- exists e. eapply create_wait_failed; [exact Hans|exact Hout|].
           apply waitCreated_without_object. exact Hpoll.
      * destruct (Hok eq_refl) as [[_ Hnil]|(o & -> & Hstatus)]; [discriminate Hnil|].
        split; [exists o; split; [reflexivity|apply contains_singleton, Hstatus]|].
        eapply create_reads; [exact Hans|exact Hout|].
        apply waitCreated_with_object with (err := None). exact Hpoll.
  - intros d meta t. split.
    + destruct (rds_create_history d meta t) as (r & tail & Hrun & Htail).
      exists r, tail. split; [exact Hrun|].
      destruct Htail as [-> | [id [-> | ->]]]; reflexivity.
    + intros out b res [e|] Hans Hout Hwait.
      * eapply rds_create_wait_failed; eauto.
      * eapply rds_create_reads; eauto.
Qed.

Lemma create_requests_once_stores_id_and_waits_witness :
  (∃ d',
     R53.resourceRuleAssociationCreate (Ex.clock 5) (Ex.data "" true)
       {| R53.Route53ResolverClient := Ex.client (Ex.found "COMPLETE") |} [] =
       (Returned (d', []),
        [R53.AssociateResolverRuleCall
           {| route53resolver_sdk.ari_ResolverRuleId := Some "rslvr-rr-0123";
              route53resolver_sdk.ari_VPCId := Some "vpc-4d5e";
              route53resolver_sdk.ari_Name := None |};
         getCall "rslvr-rrassoc-97242eec"; getCall "rslvr-rrassoc-97242eec"]) ∧
     schema.Id d' = "rslvr-rrassoc-97242eec") ∧
  (∃ d',
     rds.resourceInstanceAutomatedBackupReplicationCreate (ExRDS.data "" true)
       (ExRDS.meta ExRDS.endpoint (Some ExRDS.backup, None)) [] =
       (Returned (d', None),
        [rds.StartDBInstanceAutomatedBackupsReplicationCall "us-west-2"
           {| rds.start_BackupRetentionPeriod := Some 7;
              rds.start_SourceDBInstanceArn :=
                Some "arn:aws:rds:us-east-1:123456789012:db:orders";
              rds.start_KmsKeyId := None |};
         rds.waitDBInstanceAutomatedBackupCreatedCall "us-west-2"
           "arn:aws:rds:us-west-2:123456789012:auto-backup:ab-1" (1 * time.Minute);
         rds.FindDBInstanceAutomatedBackupByARNCall "us-west-2"
           "arn:aws:rds:us-west-2:123456789012:auto-backup:ab-1"]) ∧
     schema.Id d' = "arn:aws:rds:us-west-2:123456789012:auto-backup:ab-1").
Proof.
  destruct create_requests_once_stores_id_and_waits as [Hassoc Hrepl]. split.
  - destruct (Hassoc (Ex.clock 5) (Ex.data "" true)
                {| R53.Route53ResolverClient := Ex.client (Ex.found "COMPLETE") |} [])
      as [_ Hwait].
    destruct (Hwait _ (Ex.association "CREATING") eq_refl eq_refl)
      as (res & err & n & Hpoll & Hcreate).
    vm_compute in Hpoll. injection Hpoll as <- <- Hn.
    destruct n as [|[|n]]; try discriminate Hn.
    destruct Hcreate as [_ ->]. eexists. split; vm_compute; reflexivity.
  - destruct (Hrepl (ExRDS.data "" true)
                (ExRDS.meta ExRDS.endpoint (Some ExRDS.backup, None)) [])
      as [_ Hwait].
    rewrite (Hwait _ ExRDS.backup (Some ExRDS.backup) None eq_refl eq_refl eq_refl).
    eexists. split; vm_compute; reflexivity.
Defined.

(** ** What the handlers call *)

(** X11: the calls of a handler, in order, whatever the service answers.
    A create of the rule association makes the associate call once, then
    only lookups of one ID: those of the wait and at most one more for the
    closing read.  A read makes exactly one lookup of the resource ID.  A
    delete makes the disassociate call once and then only lookups of the
    resource ID; the waiters make lookups only.  The handlers of the backup
    replication make each call at most once: the start call, then the
    create waiter and the lookup; the one lookup; the lookup, then the stop
    call and the delete waiter. *)
Theorem handler_histories :
  (∀ ctx d meta t,
     (∃ r id n tail,
        R53.resourceRuleAssociationCreate ctx d meta t =
          (r, t ++ associateCall d :: replicate n (getCall id) ++ tail) ∧
        (tail = [] ∨ tail = [getCall id])) ∧
     (∃ r, R53.resourceRuleAssociationRead ctx d meta t =
           (r, t ++ [getCall (schema.Id d)])) ∧
     (∃ r n,
        R53.resourceRuleAssociationDelete ctx d meta t =
          (r, t ++ disassociateCall d :: replicate n (getCall (schema.Id d))))) ∧
  (∀ ctx conn id timeout t,
     (∃ r n,
        R53.waitRuleAssociationCreated ctx conn id timeout t =
          (r, t ++ replicate n (getCall id))) ∧
     (∃ r n,
        R53.waitRuleAssociationDeleted ctx conn id timeout t =
          (r, t ++ replicate n (getCall id)))) ∧
  (∀ d meta t,
     (∃ r tail,
        rds.resourceInstanceAutomatedBackupReplicationCreate d meta t =
          (r, t ++ startCall d meta :: tail) ∧
        (tail = [] ∨
         ∃ id,
           tail = [rds.waitDBInstanceAutomatedBackupCreatedCall
                     (rds.connRegion (rds.RDSConn meta)) id
                     (schema.Timeout d schema.TimeoutCreate)] ∨
           tail = [rds.waitDBInstanceAutomatedBackupCreatedCall
                     (rds.connRegion (rds.RDSConn meta)) id
                     (schema.Timeout d schema.TimeoutCreate);
                   rds.FindDBInstanceAutomatedBackupByARNCall
                     (rds.connRegion (rds.RDSConn meta)) id])) ∧
     (∃ r, rds.resourceInstanceAutomatedBackupReplicationRead d meta t =
           (r, t ++ [findCall d meta])) ∧
     (∃ r tail,
        rds.resourceInstanceAutomatedBackupReplicationDelete d meta t =
          (r, t ++ findCall d meta :: tail) ∧
        (tail = [] ∨ tail = [stopCall d meta] ∨
         ∃ region dbInstanceID,
           tail = [stopCall d meta;
                   rds.waitDBInstanceAutomatedBackupDeletedCall region dbInstanceID
                     (schema.Id d) (schema.Timeout d schema.TimeoutCreate)]))).
Proof.
  split; [|split].
  - intros ctx d meta t. split; [|split].
    + destruct (create_history ctx d meta t) as (r & id & n & tail & Hrun & _ & Htail).
      eauto 10.
    + destruct (read_runs ctx d meta t) as (d' & diags & Hread). eauto.
    + destruct (delete_history ctx d meta t) as (r & n & Hrun & _). eauto.
  - intros ctx conn id timeout t. split.
    + destruct (waitCreated_spec ctx conn id timeout t) as (res & err & n & Hrun & _).
      eauto.
    + destruct (waitDeleted_spec ctx conn id timeout t) as (res & err & n & Hrun & _).
      eauto.
  - intros d meta t. split; [apply rds_create_history|].
    split; [apply rds_read_history|apply rds_delete_history].
Qed.

(** * Further properties of the handlers *)

(** ** Nil dereferences *)

Lemma delete_runs ctx d meta t :
  ∃ diags t',
    R53.resourceRuleAssociationDelete ctx d meta t = (Returned (d, diags), t').
Proof.
  destruct (R53.answerDisassociateResolverRule (R53.Route53ResolverClient meta) t
              (disassociateRequest d)) as [out err] eqn:Hans.
  destruct (errs.IsA_ResourceNotFoundException err) eqn:Hnf.
  { eexists _, _. apply (delete_not_found _ _ _ _ _ _ Hans Hnf). }
  destruct err as [e|].
  { eexists _, _. apply (delete_failed _ _ _ _ _ _ Hans Hnf). }
  destruct (waitDeleted_spec ctx (R53.Route53ResolverClient meta) (schema.Id d)
              (schema.Timeout d schema.TimeoutDelete) (t ++ [disassociateCall d]))
    as (res & err & n & Hwait & _).
  eexists _, _. apply (delete_waits _ _ _ _ _ _ _ _ Hans Hwait).
Qed.

(** X2: the lookup, the status refresh, the two waiters, the read handler
    and the delete handler of the rule association never dereference nil,
    whatever the service answers; the create handler does so exactly when
    the create call succeeds with a nil output or an output without an
    association, which the code dereferences unchecked. *)
Theorem rule_association_panics_only_on_empty_create_output :
  ∀ ctx d meta id timeout t,
    (∃ r t', R53.findResolverRuleAssociationByID ctx (R53.Route53ResolverClient meta)
               id t = (Returned r, t')) ∧
    (∃ r t', R53.statusRuleAssociation ctx (R53.Route53ResolverClient meta) id t =
               (Returned r, t')) ∧
    (∃ r t', R53.waitRuleAssociationCreated ctx (R53.Route53ResolverClient meta)
               id timeout t = (Returned r, t')) ∧
    (∃ r t', R53.waitRuleAssociationDeleted ctx (R53.Route53ResolverClient meta)
               id timeout t = (Returned r, t')) ∧
    (∃ r t', R53.resourceRuleAssociationRead ctx d meta t = (Returned r, t')) ∧
    (∃ r t', R53.resourceRuleAssociationDelete ctx d meta t = (Returned r, t')) ∧
    ((∃ t', R53.resourceRuleAssociationCreate ctx d meta t = (Panicked, t')) ↔
     (∃ out,
        R53.answerAssociateResolverRule (R53.Route53ResolverClient meta) t
          (associateRequest d) = (out, None) ∧
        out ≫= route53resolver_sdk.aro_ResolverRuleAssociation = None)).
Proof.
  intros ctx d meta id timeout t.
  split; [destruct (find_cases ctx (R53.Route53ResolverClient meta) id t)
            as [[o H]|[e H]]; eauto|].
  split; [destruct (status_cases ctx (R53.Route53ResolverClient meta) id t)
            as [(o & _ & H)|[(e & _ & _ & H)|(e & _ & _ & H)]]; eauto|].
  split; [destruct (waitCreated_spec ctx (R53.Route53ResolverClient meta) id timeout t)
            as (res & err & n & H & _); eauto|].
  split; [destruct (waitDeleted_spec ctx (R53.Route53ResolverClient meta) id timeout t)
            as (res & err & n & H & _); eauto|].
  split; [destruct (read_runs ctx d meta t) as (d' & diags & H); eauto|].
  split; [destruct (delete_runs ctx d meta t) as (diags & t' & H); eauto|].
  split.
  - intros [t' Hpanic].
    destruct (R53.answerAssociateResolverRule (R53.Route53ResolverClient meta) t
                (associateRequest d)) as [out [e|]] eqn:Hans.
    { rewrite (create_failed _ _ _ _ _ _ Hans) in Hpanic. discriminate Hpanic. }
    destruct (out ≫= route53resolver_sdk.aro_ResolverRuleAssociation)
      as [ra|] eqn:Hout; [|eauto].
    destruct (waitCreated_spec ctx (R53.Route53ResolverClient meta)
                (aws.ToString (awstypes.Id ra))
                (schema.Timeout d schema.TimeoutCreate) (t ++ [associateCall d]))
      as (res & [e|] & n & Hwait & _).
    + rewrite (create_wait_failed _ _ _ _ _ _ _ _ _ Hans Hout Hwait) in Hpanic.
      discriminate Hpanic.
    + rewrite (create_reads _ _ _ _ _ _ _ _ Hans Hout Hwait) in Hpanic.
      destruct (read_runs ctx (schema.SetId d (aws.ToString (awstypes.Id ra))) meta
                  ((t ++ [associateCall d]) ++
                   replicate n (getCall (aws.ToString (awstypes.Id ra)))))
        as (d' & diags & Hread).
      rewrite Hread in Hpanic. discriminate Hpanic.
  - intros (out & Hans & Hout). eexists. apply (create_panics _ _ _ _ _ Hans Hout).
Qed.

(** ** Reading *)

(** X1: a read that reports an error leaves the resource data as it was,
    for both resources: the attributes are written only after a successful
    lookup, and the ID is cleared only in the branch that returns no error. *)
Theorem read_error_leaves_resource_data :
  (∀ ctx d meta t d' diags t',
     R53.resourceRuleAssociationRead ctx d meta t = (Returned (d', diags), t') →
     diags ≠ [] → d' = d) ∧
  (∀ d meta t d' e t',
     rds.resourceInstanceAutomatedBackupReplicationRead d meta t =
       (Returned (d', Some e), t') →
     d' = d).
Proof.
  split.
  - intros ctx d meta t d' diags t' Hread Hdiags.
    destruct (find_cases ctx (R53.Route53ResolverClient meta) (schema.Id d) t)
      as [[o Hf]|[e Hf]].
    + rewrite (read_found _ _ _ _ _ _ Hf) in Hread. injection Hread as _ <- _.
      contradiction.
    + destruct (schema.IsNewResource d) eqn:Hnew.
      * rewrite (read_error _ _ _ _ _ _ _ Hf (or_introl Hnew)) in Hread.
        injection Hread as <- _ _. reflexivity.
      * destruct (tfresource.NotFound (Some e)) eqn:Hnf.
        -- rewrite (read_absent _ _ _ _ _ _ _ Hf Hnf Hnew) in Hread.
           injection Hread as _ <- _. contradiction.
        -- rewrite (read_error _ _ _ _ _ _ _ Hf (or_intror Hnf)) in Hread.
           injection Hread as <- _ _. reflexivity.
  - intros d meta t d' e t' Hread.
    destruct (rds.answerFind (rds.Package_ meta) t (rds.RDSConn meta) (schema.Id d))
      as [backup err] eqn:Hfind.
    destruct err as [e0|].
    + destruct (schema.IsNewResource d) eqn:Hnew.
      * rewrite (rds_read_error _ _ _ _ _ Hfind (or_introl Hnew)) in Hread.
        injection Hread as <- _ _. reflexivity.
      * destruct (tfresource.NotFound (Some e0)) eqn:Hnf.
        -- rewrite (rds_read_absent _ _ _ _ _ Hfind Hnf Hnew) in Hread.
           discriminate Hread.
        -- rewrite (rds_read_error _ _ _ _ _ Hfind (or_intror Hnf)) in Hread.
           injection Hread as <- _ _. reflexivity.
    + destruct backup as [b|].
      * rewrite (rds_read_found _ _ _ _ Hfind) in Hread. discriminate Hread.
      * unfold rds.resourceInstanceAutomatedBackupReplicationRead in Hread.
        rewrite bind_run in Hread.
        unfold rds.FindDBInstanceAutomatedBackupByARN in Hread.
        rewrite call_run, Hfind in Hread. cbn beta iota in Hread.
        rewrite NotFound_nil, andb_false_r in Hread. discriminate Hread.
Qed.

Lemma read_error_leaves_resource_data_witness :
  R53.resourceRuleAssociationRead (Ex.clock 0) (Ex.data "rslvr-rrassoc-97242eec" false)
    {| R53.Route53ResolverClient := Ex.client Ex.throttled |} [] =
    (Returned (Ex.data "rslvr-rrassoc-97242eec" false,
               readDiag "rslvr-rrassoc-97242eec"
                 (APIError "ThrottlingException" "rate exceeded")),
     [getCall "rslvr-rrassoc-97242eec"]) ∧
  Ex.data "rslvr-rrassoc-97242eec" false = Ex.data "rslvr-rrassoc-97242eec" false.
Proof.
  split; [reflexivity|].
  destruct read_error_leaves_resource_data as [Hassoc _].
  apply (Hassoc (Ex.clock 0) (Ex.data "rslvr-rrassoc-97242eec" false)
           {| R53.Route53ResolverClient := Ex.client Ex.throttled |} []
           (Ex.data "rslvr-rrassoc-97242eec" false)
           (readDiag "rslvr-rrassoc-97242eec"
              (APIError "ThrottlingException" "rate exceeded"))
           [getCall "rslvr-rrassoc-97242eec"]); [reflexivity|discriminate].
Defined.

(** ** Deleting the rule association *)

Section absence.
Variables (ctx : context.Context R53.event) (conn : R53.Client) (id : string).
Variable conf : retry.StateChangeConf R53.event awstypes.ResolverRuleAssociation.
Hypothesis conf_refresh : retry.Refresh conf = R53.statusRuleAssociation ctx conn id.
Hypothesis no_target : retry.Target conf = [].




End absence.




(** ** Deleting the backup replication *)

(** X4: the delete handler of the backup replication stops at the first
    failure and leaves the resource data as it was.  A lookup error other
    than not found is wrapped and returned; a source ARN that does not
    parse (a nil [DBInstanceArn] among them) is returned as the bare parse
    error, and the replication is not stopped; a failing stop call is
    wrapped and returned, and nothing is waited for. *)
Theorem replication_delete_stops_at_first_failure :
  ∀ d meta t,
    (∀ backup e,
       rds.answerFind (rds.Package_ meta) t (rds.RDSConn meta) (schema.Id d) =
         (backup, Some e) →
       tfresource.NotFound (Some e) = false →
       rds.resourceInstanceAutomatedBackupReplicationDelete d meta t =
         (Returned (d, Some (WrapError
              "error reading RDS instance automated backup replication (%s): %w"
              [schema.Id d] e)), t ++ [findCall d meta])) ∧
    (∀ b source e,
       rds.answerFind (rds.Package_ meta) t (rds.RDSConn meta) (schema.Id d) =
         (Some b, None) →
       arn.Parse (aws.StringValue (rds.DBInstanceArn b)) = (source, Some e) →
       rds.resourceInstanceAutomatedBackupReplicationDelete d meta t =
         (Returned (d, Some e), t ++ [findCall d meta])) ∧
    (∀ b,
       rds.answerFind (rds.Package_ meta) t (rds.RDSConn meta) (schema.Id d) =
         (Some b, None) →
       rds.DBInstanceArn b = None →
       rds.resourceInstanceAutomatedBackupReplicationDelete d meta t =
         (Returned (d, Some (errors.New "arn: invalid prefix")), t ++ [findCall d meta])) ∧
    (∀ b source out e,
       rds.answerFind (rds.Package_ meta) t (rds.RDSConn meta) (schema.Id d) =
         (Some b, None) →
       arn.Parse (aws.StringValue (rds.DBInstanceArn b)) = (source, None) →
       rds.answerStop (rds.connEndpoint (rds.RDSConn meta)) (t ++ [findCall d meta])
         (stopRequest d) = (out, Some e) →
       rds.resourceInstanceAutomatedBackupReplicationDelete d meta t =
         (Returned (d, Some (WrapError
              "error stopping RDS instance automated backup replication (%s): %w"
              [schema.Id d] e)), t ++ [findCall d meta; stopCall d meta])).
Proof.
  intros d meta t.
  assert (Hparse : ∀ b source e,
    rds.answerFind (rds.Package_ meta) t (rds.RDSConn meta) (schema.Id d) =
      (Some b, None) →
    arn.Parse (aws.StringValue (rds.DBInstanceArn b)) = (source, Some e) →
    rds.resourceInstanceAutomatedBackupReplicationDelete d meta t =
      (Returned (d, Some e), t ++ [findCall d meta])).
  { intros b source e Hfind Hparse.
    unfold rds.resourceInstanceAutomatedBackupReplicationDelete.
    cbv zeta. rewrite bind_run. unfold rds.FindDBInstanceAutomatedBackupByARN.
    rewrite call_run, Hfind. cbn beta iota. rewrite NotFound_nil. cbn iota.
    rewrite Hparse. reflexivity. }
  split; [|split; [exact Hparse|split]].
  - intros backup e Hfind Hnf.
    unfold rds.resourceInstanceAutomatedBackupReplicationDelete.
    cbv zeta. rewrite bind_run. unfold rds.FindDBInstanceAutomatedBackupByARN.
    rewrite call_run, Hfind. cbn beta iota. rewrite Hnf. reflexivity.
  - intros b Hfind Hnil. eapply Hparse; [exact Hfind|]. rewrite Hnil. reflexivity.
  - intros b source out e Hfind Hparse' Hstop.
    unfold rds.resourceInstanceAutomatedBackupReplicationDelete.
    cbv zeta. rewrite bind_run. unfold rds.FindDBInstanceAutomatedBackupByARN.
    rewrite call_run, Hfind. cbn beta iota. rewrite NotFound_nil. cbn iota.
    rewrite Hparse'. cbn beta iota. rewrite bind_run.
    unfold rds.StopDBInstanceAutomatedBackupsReplication. rewrite call_run.
    fold (findCall d meta).
    change {| rds.stop_SourceDBInstanceArn := _ |} with (stopRequest d).
    rewrite Hstop. cbn beta iota. rewrite <- app_assoc. reflexivity.
Qed.

Lemma replication_delete_stops_at_first_failure_witness :
  rds.resourceInstanceAutomatedBackupReplicationDelete
    (ExRDS.data "arn:aws:rds:us-west-2:123456789012:auto-backup:ab-1" false)
    (ExRDS.meta ExRDS.endpoint
       (None, Some (APIError "AccessDenied" "not authorized"))) [] =
    (Returned
       (ExRDS.data "arn:aws:rds:us-west-2:123456789012:auto-backup:ab-1" false,
        Some (WrapError
                "error reading RDS instance automated backup replication (%s): %w"
                ["arn:aws:rds:us-west-2:123456789012:auto-backup:ab-1"]
                (APIError "AccessDenied" "not authorized"))),
     [rds.FindDBInstanceAutomatedBackupByARNCall "us-west-2"
        "arn:aws:rds:us-west-2:123456789012:auto-backup:ab-1"]) ∧
  rds.resourceInstanceAutomatedBackupReplicationDelete
    (ExRDS.data "arn:aws:rds:us-west-2:123456789012:auto-backup:ab-1" false)
    (ExRDS.meta ExRDS.endpoint
       (Some {| rds.BackupRetentionPeriod := Some 7;
                rds.DBInstanceArn := None;
                rds.DBInstanceAutomatedBackupsArn := None;
                rds.DBInstanceIdentifier := Some "orders";
                rds.KmsKeyId := None |}, None)) [] =
    (Returned
       (ExRDS.data "arn:aws:rds:us-west-2:123456789012:auto-backup:ab-1" false,
        Some (ErrorString "arn: invalid prefix")),
     [rds.FindDBInstanceAutomatedBackupByARNCall "us-west-2"
        "arn:aws:rds:us-west-2:123456789012:auto-backup:ab-1"]) ∧
  rds.resourceInstanceAutomatedBackupReplicationDelete
    (ExRDS.data "arn:aws:rds:us-west-2:123456789012:auto-backup:ab-1" false)
    (ExRDS.meta (ExRDS.failingEndpoint (APIError "InvalidDBInstanceState" "busy"))
       (Some ExRDS.backup, None)) [] =
    (Returned
       (ExRDS.data "arn:aws:rds:us-west-2:123456789012:auto-backup:ab-1" false,
        Some (WrapError
                "error stopping RDS instance automated backup replication (%s): %w"
                ["arn:aws:rds:us-west-2:123456789012:auto-backup:ab-1"]
                (APIError "InvalidDBInstanceState" "busy"))),
     [rds.FindDBInstanceAutomatedBackupByARNCall "us-west-2"
        "arn:aws:rds:us-west-2:123456789012:auto-backup:ab-1";
      rds.StopDBInstanceAutomatedBackupsReplicationCall "us-west-2"
        {| rds.stop_SourceDBInstanceArn :=
             Some "arn:aws:rds:us-east-1:123456789012:db:orders" |}]).
Proof.
  split; [|split].
  - destruct (replication_delete_stops_at_first_failure
                (ExRDS.data "arn:aws:rds:us-west-2:123456789012:auto-backup:ab-1" false)
                (ExRDS.meta ExRDS.endpoint
                   (None, Some (APIError "AccessDenied" "not authorized"))) [])
      as (Hlookup & _).
    apply (Hlookup None); reflexivity.
  - destruct (replication_delete_stops_at_first_failure
                (ExRDS.data "arn:aws:rds:us-west-2:123456789012:auto-backup:ab-1" false)
                (ExRDS.meta ExRDS.endpoint
                   (Some {| rds.BackupRetentionPeriod := Some 7;
                            rds.DBInstanceArn := None;
                            rds.DBInstanceAutomatedBackupsArn := None;
                            rds.DBInstanceIdentifier := Some "orders";
                            rds.KmsKeyId := None |}, None)) [])
      as (_ & _ & Hnil & _).
    apply (Hnil _ eq_refl eq_refl).
  - destruct (replication_delete_stops_at_first_failure
                (ExRDS.data "arn:aws:rds:us-west-2:123456789012:auto-backup:ab-1" false)
                (ExRDS.meta
                   (ExRDS.failingEndpoint (APIError "InvalidDBInstanceState" "busy"))
                   (Some ExRDS.backup, None)) [])
      as (_ & _ & _ & Hstop).
    apply (Hstop ExRDS.backup
             {| arn.Partition := "aws"; arn.Service := "rds";
                arn.Region := "us-east-1"; arn.AccountID := "123456789012";
                arn.Resource := "db:orders" |} None); reflexivity.
Defined.

(** ** Creating *)

Lemma read_new_keeps_id ctx d meta t d' diags t' :
  schema.IsNewResource d = true →
  R53.resourceRuleAssociationRead ctx d meta t = (Returned (d', diags), t') →
  schema.Id d' = schema.Id d ∧ schema.IsNewResource d' = true.
Proof.
  intros Hnew Hread.
  destruct (find_cases ctx (R53.Route53ResolverClient meta) (schema.Id d) t)
    as [[o Hf]|[e Hf]].
  - rewrite (read_found _ _ _ _ _ _ Hf) in Hread. injection Hread as <- _ _.
    split; [reflexivity|exact Hnew].
  - rewrite (read_error _ _ _ _ _ _ _ Hf (or_introl Hnew)) in Hread.
    injection Hread as <- _ _. split; [reflexivity|exact Hnew].
Qed.

Lemma rds_read_new_keeps_id d meta t d' err t' :
  schema.IsNewResource d = true →
  rds.resourceInstanceAutomatedBackupReplicationRead d meta t = (Returned (d', err), t') →
  schema.Id d' = schema.Id d.
Proof.
  intros Hnew Hread.
  unfold rds.resourceInstanceAutomatedBackupReplicationRead in Hread.
  rewrite bind_run in Hread. unfold rds.FindDBInstanceAutomatedBackupByARN in Hread.
  rewrite call_run in Hread.
  destruct (rds.answerFind _ _ _ _) as [backup [e|]]; cbn beta iota in Hread;
    rewrite Hnew in Hread; cbn [negb andb] in Hread.
  - injection Hread as <- _ _. reflexivity.
  - destruct backup as [b|]; [|discriminate Hread].
    injection Hread as <- _ _. reflexivity.
Qed.

(** X5: once the create call has succeeded, a create on a new resource
    keeps the identifier that call returned as the resource ID in every
    outcome, also when the wait or the closing read fails: the ID is set
    before the wait, and the read clears it only on a resource that is not
    new. *)
Theorem create_keeps_returned_id :
  (∀ ctx d meta t out ruleAssociation,
     schema.IsNewResource d = true →
     R53.answerAssociateResolverRule (R53.Route53ResolverClient meta) t
       (associateRequest d) = (out, None) →
     out ≫= route53resolver_sdk.aro_ResolverRuleAssociation = Some ruleAssociation →
     ∃ d' diags t',
       R53.resourceRuleAssociationCreate ctx d meta t = (Returned (d', diags), t') ∧
       schema.Id d' = aws.ToString (awstypes.Id ruleAssociation)) ∧
  (∀ d meta t out b d' err t',
     schema.IsNewResource d = true →
     rds.answerStart (rds.connEndpoint (rds.RDSConn meta)) t (startRequest d) =
       (out, None) →
     out ≫= rds.start_DBInstanceAutomatedBackup = Some b →
     rds.resourceInstanceAutomatedBackupReplicationCreate d meta t =
       (Returned (d', err), t') →
     schema.Id d' = aws.StringValue (rds.DBInstanceAutomatedBackupsArn b)).
Proof.
  split.
  - intros ctx d meta t out ra Hnew Hans Hout.
    destruct (waitCreated_spec ctx (R53.Route53ResolverClient meta)
                (aws.ToString (awstypes.Id ra))
                (schema.Timeout d schema.TimeoutCreate) (t ++ [associateCall d]))
      as (res & [e|] & n & Hwait & _).
    + eexists _, _, _.
      split; [apply (create_wait_failed _ _ _ _ _ _ _ _ _ Hans Hout Hwait)|reflexivity].
    + rewrite (create_reads _ _ _ _ _ _ _ _ Hans Hout Hwait).
      destruct (read_runs ctx (schema.SetId d (aws.ToString (awstypes.Id ra))) meta
                  ((t ++ [associateCall d]) ++
                   replicate n (getCall (aws.ToString (awstypes.Id ra)))))
        as (d' & diags & Hread).
      eexists d', diags, _. split; [exact Hread|].
      apply read_new_keeps_id in Hread; [apply Hread|exact Hnew].
  - intros d meta t out b d' err t' Hnew Hans Hout Hcreate.
    destruct (rds.answerWaitCreated (rds.Package_ meta) (t ++ [startCall d meta])
                (rds.RDSConn meta)
                (aws.StringValue (rds.DBInstanceAutomatedBackupsArn b))
                (schema.Timeout d schema.TimeoutCreate)) as [res [e|]] eqn:Hwait.
    + rewrite (rds_create_wait_failed _ _ _ _ _ _ _ Hans Hout Hwait) in Hcreate.
      injection Hcreate as <- _ _. reflexivity.
    + rewrite (rds_create_reads _ _ _ _ _ _ Hans Hout Hwait) in Hcreate.
      apply rds_read_new_keeps_id in Hcreate; [exact Hcreate|exact Hnew].
Qed.

Lemma create_keeps_returned_id_witness :
  (∃ d' diags t',
     R53.resourceRuleAssociationCreate (Ex.clock 2) (Ex.data "" true)
       {| R53.Route53ResolverClient := Ex.client Ex.gone |} [] =
       (Returned (d', diags), t') ∧
     schema.Id d' = "rslvr-rrassoc-97242eec") ∧
  schema.Id
    (schema.SetId (ExRDS.data "" true)
       "arn:aws:rds:us-west-2:123456789012:auto-backup:ab-1") =
    "arn:aws:rds:us-west-2:123456789012:auto-backup:ab-1".
Proof.
  destruct create_keeps_returned_id as [Hassoc Hrepl]. split.
  - apply (Hassoc (Ex.clock 2) (Ex.data "" true)
             {| R53.Route53ResolverClient := Ex.client Ex.gone |} []
             (Some {| route53resolver_sdk.aro_ResolverRuleAssociation :=
                        Some (Ex.association "CREATING") |})
             (Ex.association "CREATING")); reflexivity.
  - apply (Hrepl (ExRDS.data "" true) (ExRDS.meta ExRDS.endpoint ExRDS.notFound) []
             (Some {| rds.start_DBInstanceAutomatedBackup := Some ExRDS.backup |})
             ExRDS.backup _
             (Some (WrapError
                      "error reading RDS instance automated backup replication (%s): %w"
                      ["arn:aws:rds:us-west-2:123456789012:auto-backup:ab-1"]
                      (NotFoundError
                         (Some (APIError "DBInstanceAutomatedBackupNotFound" ""))
                         None O)))
             [startCall (ExRDS.data "" true) (ExRDS.meta ExRDS.endpoint ExRDS.notFound);
              rds.waitDBInstanceAutomatedBackupCreatedCall "us-west-2"
                "arn:aws:rds:us-west-2:123456789012:auto-backup:ab-1" (1 * time.Minute);
              rds.FindDBInstanceAutomatedBackupByARNCall "us-west-2"
                "arn:aws:rds:us-west-2:123456789012:auto-backup:ab-1"]);
      reflexivity.
Defined.

(** X6: a create of a rule association on a new resource that returns no
    diagnostic leaves the resource with the ID the create call returned
    and with name, resolver_rule_id and vpc_id as the closing lookup under
    that ID found them. *)
Theorem create_success_state :
  ∀ ctx d meta t d' t',
    schema.IsNewResource d = true →
    R53.resourceRuleAssociationCreate ctx d meta t = (Returned (d', []), t') →
    ∃ out ruleAssociation o t1,
      R53.answerAssociateResolverRule (R53.Route53ResolverClient meta) t
        (associateRequest d) = (out, None) ∧
      out ≫= route53resolver_sdk.aro_ResolverRuleAssociation = Some ruleAssociation ∧
      schema.Id d' = aws.ToString (awstypes.Id ruleAssociation) ∧
      t' = t1 ++ [getCall (schema.Id d')] ∧
      R53.findResolverRuleAssociationByID ctx (R53.Route53ResolverClient meta)
        (schema.Id d') t1 = (Returned (Some o, None), t') ∧
      schema.attrs d' !! "name" = schema.VString <$> awstypes.Name o ∧
      schema.attrs d' !! "resolver_rule_id" =
        schema.VString <$> awstypes.ResolverRuleId o ∧
      schema.attrs d' !! "vpc_id" = schema.VString <$> awstypes.VPCId o.
Proof.
  intros ctx d meta t d' t' Hnew Hcreate.
  destruct (R53.answerAssociateResolverRule (R53.Route53ResolverClient meta) t
              (associateRequest d)) as [out [e|]] eqn:Hans.
  { rewrite (create_failed _ _ _ _ _ _ Hans) in Hcreate. discriminate Hcreate. }
  destruct (out ≫= route53resolver_sdk.aro_ResolverRuleAssociation)
    as [ra|] eqn:Hout.
  2:{ rewrite (create_panics _ _ _ _ _ Hans Hout) in Hcreate. discriminate Hcreate. }
  destruct (waitCreated_spec ctx (R53.Route53ResolverClient meta)
              (aws.ToString (awstypes.Id ra))
              (schema.Timeout d schema.TimeoutCreate) (t ++ [associateCall d]))
    as (res & [e|] & n & Hwait & _).
  { rewrite (create_wait_failed _ _ _ _ _ _ _ _ _ Hans Hout Hwait) in Hcreate.
    discriminate Hcreate. }
  rewrite (create_reads _ _ _ _ _ _ _ _ Hans Hout Hwait) in Hcreate.
  set (d1 := schema.SetId d (aws.ToString (awstypes.Id ra))) in *.
  set (t1 := (t ++ [associateCall d]) ++
             replicate n (getCall (aws.ToString (awstypes.Id ra)))) in *.
  destruct (find_cases ctx (R53.Route53ResolverClient meta) (schema.Id d1) t1)
    as [[o Hf]|[e Hf]].
  - rewrite (read_found _ _ _ _ _ _ Hf) in Hcreate. injection Hcreate as <- <-.
    exists out, ra, o, t1. split; [reflexivity|]. split; [exact Hout|].
    split; [reflexivity|]. split; [reflexivity|]. split; [exact Hf|].
    unfold schema.SetString.
    split; [by rewrite 2!Set_lookup_ne, Set_lookup_eq by done|].
    split; [by rewrite Set_lookup_ne, Set_lookup_eq by done|].
    by rewrite Set_lookup_eq.
  - rewrite (read_error _ _ _ _ _ _ _ Hf (or_introl Hnew)) in Hcreate.
    discriminate Hcreate.
Qed.

Lemma create_success_state_witness :
  ∃ d' t',
    R53.resourceRuleAssociationCreate (Ex.clock 5) (Ex.data "" true)
      {| R53.Route53ResolverClient := Ex.client (Ex.found "COMPLETE") |} [] =
      (Returned (d', []), t') ∧
    schema.Id d' = "rslvr-rrassoc-97242eec" ∧
    schema.attrs d' !! "name" = Some (schema.VString "example").
Proof.
  eexists _, _. split; [vm_compute; reflexivity|].
  destruct (create_success_state (Ex.clock 5) (Ex.data "" true)
              {| R53.Route53ResolverClient := Ex.client (Ex.found "COMPLETE") |} []
              _ _ eq_refl eq_refl)
    as (out & ra & o & t1 & Hans & Hout & Hid & _ & Hfind & Hname & _).
  vm_compute in Hans. injection Hans as <-. injection Hout as <-.
  split; [exact Hid|].
  rewrite Hid in Hfind. vm_compute in Hfind. injection Hfind as <- _.
  exact Hname.
Defined.

(** ** Reading twice *)

Lemma Set_same d key v : schema.attrs d !! key = v → schema.Set_ d key v = d.
Proof.
  intros Hlookup. destruct d as [i n a ts]. unfold schema.Set_. simpl in *.
  f_equal. destruct v as [x|]; [by apply insert_id|by apply delete_id].
Qed.

(** X7: reading is idempotent on an unchanged remote object: when two
    lookups in a row find the same object, the second read returns the
    resource data the first one produced, for both resources. *)
Theorem read_twice_same_state :
  (∀ ctx d meta t o t1 t2,
     R53.findResolverRuleAssociationByID ctx (R53.Route53ResolverClient meta)
       (schema.Id d) t = (Returned (Some o, None), t1) →
     R53.findResolverRuleAssociationByID ctx (R53.Route53ResolverClient meta)
       (schema.Id d) t1 = (Returned (Some o, None), t2) →
     ∃ d1,
       R53.resourceRuleAssociationRead ctx d meta t = (Returned (d1, []), t1) ∧
       R53.resourceRuleAssociationRead ctx d1 meta t1 = (Returned (d1, []), t2)) ∧
  (∀ d meta t b,
     rds.answerFind (rds.Package_ meta) t (rds.RDSConn meta) (schema.Id d) =
       (Some b, None) →
     rds.answerFind (rds.Package_ meta) (t ++ [findCall d meta]) (rds.RDSConn meta)
       (schema.Id d) = (Some b, None) →
     ∃ d1,
       rds.resourceInstanceAutomatedBackupReplicationRead d meta t =
         (Returned (d1, None), t ++ [findCall d meta]) ∧
       rds.resourceInstanceAutomatedBackupReplicationRead d1 meta
         (t ++ [findCall d meta]) =
         (Returned (d1, None), (t ++ [findCall d meta]) ++ [findCall d meta])).
Proof.
  split.
  - intros ctx d meta t o t1 t2 Hf1 Hf2. eexists.
    split; [apply (read_found _ _ _ _ _ _ Hf1)|].
    match goal with |- R53.resourceRuleAssociationRead _ ?d1 _ _ = _ => set (d1' := d1) end.
    change (schema.Id d) with (schema.Id d1') in Hf2.
    rewrite (read_found _ _ _ _ _ _ Hf2). do 2 f_equal.
    unfold schema.SetString.
    rewrite (Set_same d1' "name");
      [|subst d1'; unfold schema.SetString;
        by rewrite 2!Set_lookup_ne, Set_lookup_eq by done].
    rewrite (Set_same d1' "resolver_rule_id");
      [|subst d1'; unfold schema.SetString;
        by rewrite Set_lookup_ne, Set_lookup_eq by done].
    rewrite (Set_same d1' "vpc_id");
      [|subst d1'; unfold schema.SetString; by rewrite Set_lookup_eq].
    reflexivity.
  - intros d meta t b Hf1 Hf2. eexists.
    split; [apply (rds_read_found _ _ _ _ Hf1)|].
    match goal with
    | |- rds.resourceInstanceAutomatedBackupReplicationRead ?d1 _ _ = _ =>
        set (d1' := d1)
    end.
    pose proof (rds_read_found d1' meta (t ++ [findCall d meta]) b Hf2) as Hread.
    rewrite Hread. change (findCall d1' meta) with (findCall d meta).
    do 2 f_equal.
    unfold schema.SetString, schema.SetInt.
    rewrite (Set_same d1' "kms_key_id");
      [|subst d1'; unfold schema.SetString, schema.SetInt;
        by rewrite 2!Set_lookup_ne, Set_lookup_eq by done].
    rewrite (Set_same d1' "retention_period");
      [|subst d1'; unfold schema.SetString, schema.SetInt;
        by rewrite Set_lookup_ne, Set_lookup_eq by done].
    rewrite (Set_same d1' "source_db_instance_arn");
      [|subst d1'; unfold schema.SetString; by rewrite Set_lookup_eq].
    reflexivity.
Qed.

Lemma read_twice_same_state_witness :
  ∃ d1,
    R53.resourceRuleAssociationRead (Ex.clock 0) (Ex.data "rslvr-rrassoc-97242eec" false)
      {| R53.Route53ResolverClient := Ex.client (Ex.found "COMPLETE") |} [] =
      (Returned (d1, []), [getCall "rslvr-rrassoc-97242eec"]) ∧
    R53.resourceRuleAssociationRead (Ex.clock 0) d1
      {| R53.Route53ResolverClient := Ex.client (Ex.found "COMPLETE") |}
      [getCall "rslvr-rrassoc-97242eec"] =
      (Returned (d1, []),
       [getCall "rslvr-rrassoc-97242eec"; getCall "rslvr-rrassoc-97242eec"]).
Proof.
  destruct read_twice_same_state as [Hassoc _].
  apply (Hassoc (Ex.clock 0) (Ex.data "rslvr-rrassoc-97242eec" false)
           {| R53.Route53ResolverClient := Ex.client (Ex.found "COMPLETE") |} []
           (Ex.association "COMPLETE")); reflexivity.
Defined.

(** ** The first refresh of a wait *)

Lemma status_found ctx conn id t out o :
  R53.answerGetResolverRuleAssociation conn t (getInput id) = (Some out, None) →
  route53resolver_sdk.gro_ResolverRuleAssociation out = Some o →
  R53.statusRuleAssociation ctx conn id t =
    (Returned (Some o, awstypes.Status o, None), t ++ [getCall id]).
Proof.
  intros Hans Hout. unfold R53.statusRuleAssociation.
  rewrite bind_run, (find_found ctx conn id t out o Hans Hout).
  cbn beta iota. rewrite NotFound_nil. reflexivity.
Qed.

(** X8: the first refresh of a wait decides unless it sees the pending
    status.  The create wait returns the association at once when it is
    COMPLETE; on any status other than CREATING and COMPLETE it fails with
    the unexpected-state error, which carries the status and the status
    message of the association.  The delete wait fails in the same way on
    any status other than DELETING, COMPLETE included.  One lookup is made. *)
Theorem first_refresh_decides :
  ∀ ctx conn id timeout t out o,
    (0 < context.refreshes_within ctx t timeout
           (10 * time.Second)%Z (5 * time.Second)%Z)%nat →
    R53.answerGetResolverRuleAssociation conn t (getInput id) = (Some out, None) →
    route53resolver_sdk.gro_ResolverRuleAssociation out = Some o →
    (awstypes.Status o = "COMPLETE" →
     R53.waitRuleAssociationCreated ctx conn id timeout t =
       (Returned (Some o, None), t ++ [getCall id])) ∧
    (awstypes.Status o ≠ "COMPLETE" → awstypes.Status o ≠ "CREATING" →
     R53.waitRuleAssociationCreated ctx conn id timeout t =
       (Returned
          (Some o,
           Some (UnexpectedStateError
                   (Some (errors.New (aws.ToString (awstypes.StatusMessage o))))
                   (awstypes.Status o) ["COMPLETE"])), t ++ [getCall id])) ∧
    (awstypes.Status o ≠ "DELETING" →
     R53.waitRuleAssociationDeleted ctx conn id timeout t =
       (Returned
          (Some o,
           Some (UnexpectedStateError
                   (Some (errors.New (aws.ToString (awstypes.StatusMessage o))))
                   (awstypes.Status o) [])), t ++ [getCall id])).
Proof.
  intros ctx conn id timeout t out o Hfuel Hans Hout.
  pose proof (status_found ctx conn id t out o Hans Hout) as Hstatus.
  split; [|split].
  - intros Hcomplete.
    apply (waitCreated_with_object _ _ _ _ _ _ None).
    unfold retry.WaitForStateContext.
    change (context.refreshes_within ctx t _ _ _) with
      (context.refreshes_within ctx t timeout (10 * time.Second)%Z (5 * time.Second)%Z).
    destruct (context.refreshes_within ctx t timeout _ _) as [|fuel]; [lia|].
    cbn [retry.refreshLoop]. rewrite bind_run.
    change (retry.Refresh (createdConf ctx conn id timeout)) with
      (R53.statusRuleAssociation ctx conn id).
    rewrite Hstatus. cbn beta iota. unfold retry.judge.
    cbn [retry.contains retry.Target retry.Pending createdConf existsb].
    rewrite Hcomplete. reflexivity.
  - intros Hcomplete Hcreating.
    apply (waitCreated_with_object _ _ _ _ _ _
             (Some (UnexpectedStateError None (awstypes.Status o) ["COMPLETE"]))).
    unfold retry.WaitForStateContext.
    change (context.refreshes_within ctx t _ _ _) with
      (context.refreshes_within ctx t timeout (10 * time.Second)%Z (5 * time.Second)%Z).
    destruct (context.refreshes_within ctx t timeout _ _) as [|fuel]; [lia|].
    cbn [retry.refreshLoop]. rewrite bind_run.
    change (retry.Refresh (createdConf ctx conn id timeout)) with
      (R53.statusRuleAssociation ctx conn id).
    rewrite Hstatus. cbn beta iota. unfold retry.judge.
    apply String.eqb_neq in Hcomplete, Hcreating.
    cbn [retry.contains retry.Target retry.Pending createdConf existsb].
    rewrite Hcomplete, Hcreating. reflexivity.
  - intros Hdeleting.
    apply (waitDeleted_with_object _ _ _ _ _ _
             (Some (UnexpectedStateError None (awstypes.Status o) []))).
    unfold retry.WaitForStateContext.
    change (context.refreshes_within ctx t _ _ _) with
      (context.refreshes_within ctx t timeout (10 * time.Second)%Z (5 * time.Second)%Z).
    destruct (context.refreshes_within ctx t timeout _ _) as [|fuel]; [lia|].
    cbn [retry.refreshLoop]. rewrite bind_run.
    change (retry.Refresh (deletedConf ctx conn id timeout)) with
      (R53.statusRuleAssociation ctx conn id).
    rewrite Hstatus. cbn beta iota. unfold retry.judge.
    apply String.eqb_neq in Hdeleting.
    cbn [retry.contains retry.Target retry.Pending deletedConf existsb].
    rewrite Hdeleting. reflexivity.
Qed.

Lemma first_refresh_decides_witness :
  R53.waitRuleAssociationCreated (Ex.clock 1) (Ex.client (Ex.found "FAILED"))
    "rslvr-rrassoc-97242eec" (10 * time.Minute) [] =
    (Returned
       (Some (Ex.association "FAILED"),
        Some (UnexpectedStateError (Some (ErrorString "status message")) "FAILED"
                ["COMPLETE"])),
     [getCall "rslvr-rrassoc-97242eec"]) ∧
  R53.waitRuleAssociationDeleted (Ex.clock 1) (Ex.client (Ex.found "COMPLETE"))
    "rslvr-rrassoc-97242eec" (10 * time.Minute) [] =
    (Returned
       (Some (Ex.association "COMPLETE"),
        Some (UnexpectedStateError (Some (ErrorString "status message")) "COMPLETE" [])),
     [getCall "rslvr-rrassoc-97242eec"]).
Proof.
  split.
  - destruct (first_refresh_decides (Ex.clock 1) (Ex.client (Ex.found "FAILED"))
                "rslvr-rrassoc-97242eec" (10 * time.Minute) []
                {| route53resolver_sdk.gro_ResolverRuleAssociation :=
                     Some (Ex.association "FAILED") |}
                (Ex.association "FAILED")) as (_ & Hfailed & _);
      [simpl; lia|reflexivity|reflexivity|].
    apply Hfailed; discriminate.
  - destruct (first_refresh_decides (Ex.clock 1) (Ex.client (Ex.found "COMPLETE"))
                "rslvr-rrassoc-97242eec" (10 * time.Minute) []
                {| route53resolver_sdk.gro_ResolverRuleAssociation :=
                     Some (Ex.association "COMPLETE") |}
                (Ex.association "COMPLETE")) as (_ & _ & Hdeleting);
      [simpl; lia|reflexivity|reflexivity|].
    apply Hdeleting; discriminate.
Defined.

(** ** Nil dereferences in the backup replication *)

(** X9: the read and delete handlers of the backup replication dereference
    the backup they looked up without a nil check: they panic exactly when
    the lookup returns a nil backup together with a nil error, and return
    in every other case. *)
Theorem replication_panics_only_on_nil_backup :
  ∀ d meta t,
    ((∃ t', rds.resourceInstanceAutomatedBackupReplicationRead d meta t =
            (Panicked, t')) ↔
     rds.answerFind (rds.Package_ meta) t (rds.RDSConn meta) (schema.Id d) =
       (None, None)) ∧
    ((∃ t', rds.resourceInstanceAutomatedBackupReplicationDelete d meta t =
            (Panicked, t')) ↔
     rds.answerFind (rds.Package_ meta) t (rds.RDSConn meta) (schema.Id d) =
       (None, None)).
Proof.
  intros d meta t. split.
  - unfold rds.resourceInstanceAutomatedBackupReplicationRead.
    rewrite bind_run. unfold rds.FindDBInstanceAutomatedBackupByARN. rewrite call_run.
    destruct (rds.answerFind _ _ _ _) as [backup [e|]]; cbn beta iota.
    + split; [|discriminate].
      intros [t' H].
      destruct (negb (schema.IsNewResource d) && tfresource.NotFound (Some e));
        discriminate H.
    + rewrite NotFound_nil, andb_false_r.
      destruct backup as [b|].
      * split; [intros [t' H]; discriminate H|discriminate].
      * split; [reflexivity|]. intros _. eexists. reflexivity.
  - unfold rds.resourceInstanceAutomatedBackupReplicationDelete.
    cbv zeta. rewrite bind_run. unfold rds.FindDBInstanceAutomatedBackupByARN.
    rewrite call_run.
    destruct (rds.answerFind _ _ _ _) as [backup [e|]]; cbn beta iota.
    + split; [|discriminate].
      intros [t' H]. destruct (tfresource.NotFound (Some e)); discriminate H.
    + rewrite NotFound_nil. cbn iota.
      destruct backup as [b|]; [|split; [reflexivity|intros _; eexists; reflexivity]].
      split; [|discriminate]. intros [t' H].
      destruct (arn.Parse (aws.StringValue (rds.DBInstanceArn b))) as [source [e|]];
        [discriminate H|].
      rewrite bind_run in H.
      unfold rds.StopDBInstanceAutomatedBackupsReplication in H. rewrite call_run in H.
      destruct (rds.answerStop _ _ _) as [out [e|]]; [discriminate H|].
      rewrite bind_run in H.
      unfold rds.waitDBInstanceAutomatedBackupDeleted in H. rewrite call_run in H.
      destruct (rds.answerWaitDeleted _ _ _ _ _ _) as [res [e|]]; discriminate H.
Qed.

Lemma replication_panics_only_on_nil_backup_witness :
  ∃ t',
    rds.resourceInstanceAutomatedBackupReplicationRead
      (ExRDS.data "arn:aws:rds:us-west-2:123456789012:auto-backup:ab-1" false)
      (ExRDS.meta ExRDS.endpoint (None, None)) [] = (Panicked, t').
Proof.
  apply (replication_panics_only_on_nil_backup
           (ExRDS.data "arn:aws:rds:us-west-2:123456789012:auto-backup:ab-1" false)
           (ExRDS.meta ExRDS.endpoint (None, None)) []).
  reflexivity.
Defined.

Lemma rule_association_panics_only_on_empty_create_output_witness :
  ∃ t',
    R53.resourceRuleAssociationCreate (Ex.clock 1) (Ex.data "" true)
      {| R53.Route53ResolverClient :=
           {| R53.answerAssociateResolverRule := λ _ _,
                (Some {| route53resolver_sdk.aro_ResolverRuleAssociation := None |}, None);
              R53.answerDisassociateResolverRule := λ _ _, (None, None);
              R53.answerGetResolverRuleAssociation := λ _ _, Ex.gone |} |} [] =
      (Panicked, t').
Proof.
  apply (rule_association_panics_only_on_empty_create_output (Ex.clock 1)
           (Ex.data "" true)
           {| R53.Route53ResolverClient :=
                {| R53.answerAssociateResolverRule := λ _ _,
                     (Some {| route53resolver_sdk.aro_ResolverRuleAssociation := None |},
                      None);
                   R53.answerDisassociateResolverRule := λ _ _, (None, None);
                   R53.answerGetResolverRuleAssociation := λ _ _, Ex.gone |} |}
           "" 0 []).
  eexists. split; reflexivity.
Defined.
